(** * SharePoint connector: a shallow embedding of the scraper package

    The development follows the Python sources:
    - [sharepoint_scraper/scraper.py] (class [SharePointScraper]): the
      filename sanitizer, the drive enumeration, the single download with
      its retry loop and the bulk download; the constructor, the site
      lookup, the connection test and the downloads that ingest;
    - [sharepoint_scraper/utils.py]: the metadata snapshot, the summary
      of a document list, the URL check and the path sanitizer;
    - [sharepoint_scraper/auth.py]: the token exchange, the interactive
      authentication and the callback handler;
    - [sharepoint_doc_scraper.py] (class [UserLevelSharePointScraper]):
      the stand-alone script with its own enumeration and download loop.

    Python strings are modelled by [list ascii], a character being a
    code point below 256 (with [string] literals at the interface); the
    strings of a JSON value are sequences of code points of any size, so
    that the surrogates a Python string may hold have a spelling. Paths
    are the paths of [pathlib] on a POSIX system, a root and the parts
    after it. Python integers are modelled by [Z], dictionaries used as
    maps by [gmap], exceptions by an explicit result type threaded
    through a state monad. *)

From Stdlib Require Import ZArith Ascii String.
From stdpp Require Import base decidable list strings gmap.

Local Open Scope Z_scope.

(** ** Python strings *)

Module PyStr.

Abbreviation str := (list ascii).

Definition chars (s : string) : str := list_ascii_of_string s.
Definition text (l : str) : string := string_of_list_ascii l.

(** [len(s)] *)
Definition len (s : str) : Z := Z.of_nat (length s).

(** [s.replace(old, new)] for one-character [old] and [new]. *)
Definition replace (old new : ascii) (s : str) : str :=
  map (fun c => if decide (c = old) then new else c) s.

(** [s.lstrip(cs)], [s.rstrip(cs)], [s.strip(cs)]. *)
Fixpoint lstrip (cs : str) (s : str) : str :=
  match s with
  | [] => []
  | c :: s' => if decide (c ∈ cs) then lstrip cs s' else s
  end.

Definition rstrip (cs : str) (s : str) : str :=
  reverse (lstrip cs (reverse s)).

Definition strip (cs : str) (s : str) : str := rstrip cs (lstrip cs s).

(** [s[:k]] with Python's reading of a negative bound. *)
Definition slice_to (k : Z) (s : str) : str :=
  if 0 <=? k then take (Z.to_nat k) s
  else take (Z.to_nat (len s + k)) s.

(** [s[k:]] for a bound [0 <= k]. *)
Definition slice_from (k : Z) (s : str) : str := drop (Z.to_nat k) s.

(** [s[i:j]] for bounds [0 <= i], [0 <= j]. *)
Definition slice (i j : Z) (s : str) : str :=
  take (Z.to_nat (j - i)) (drop (Z.to_nat i) s).

(** [s.rfind(c)]: index of the last occurrence, [-1] when absent. *)
Fixpoint rfind_from (c : ascii) (s : str) (i acc : Z) : Z :=
  match s with
  | [] => acc
  | x :: s' => rfind_from c s' (i + 1) (if decide (x = c) then i else acc)
  end.

Definition rfind (c : ascii) (s : str) : Z := rfind_from c s 0 (-1).

(** [sub in s] for strings. *)
Fixpoint prefix_of (p s : str) : bool :=
  match p, s with
  | [], _ => true
  | _ :: _, [] => false
  | a :: p', b :: s' => bool_decide (a = b) && prefix_of p' s'
  end.

Fixpoint contains (sub s : str) : bool :=
  prefix_of sub s ||
  match s with
  | [] => false
  | _ :: s' => contains sub s'
  end.

(** [os.path.splitext(p)] (posixpath: separator [/], extension
    separator [.]): the extension starts at the last dot, provided that
    dot comes after the last separator and some character between the
    separator and the dot is not a dot. *)
Definition splitext (p : str) : str * str :=
  let sepIndex := rfind "/"%char p in
  let dotIndex := rfind "."%char p in
  if (sepIndex <? dotIndex)
     && existsb (fun c => negb (bool_decide (c = "."%char)))
                (slice (sepIndex + 1) dotIndex p)
  then (slice_to dotIndex p, slice_from dotIndex p)
  else (p, []).

(** [s.startswith(p)] *)
Definition startswith (p s : str) : bool := prefix_of p s.

(** [c.lower()] on the code points below 256. *)
Definition lower_char (c : ascii) : ascii :=
  let n := nat_of_ascii c in
  if ((65 <=? n) && (n <=? 90) || (192 <=? n) && (n <=? 214)
      || (216 <=? n) && (n <=? 222))%nat
  then ascii_of_nat (n + 32)
  else c.

(** [s.lower()] *)
Definition lower (s : str) : str := map lower_char s.

(** [s.split(sep)[-1]] for a non-empty [sep]: the scan goes from the
    left, [skip] counts the characters of a separator still to pass and
    [piece] is the piece read since the last separator. *)
Fixpoint last_piece_from (sep : str) (skip : nat) (piece s : str) : str :=
  match s with
  | [] => piece
  | c :: s' =>
      match skip with
      | S k => last_piece_from sep k piece s'
      | O =>
          if prefix_of sep s
          then last_piece_from sep (length sep - 1) [] s'
          else last_piece_from sep 0 (piece ++ [c]) s'
      end
  end.

Definition last_piece (sep s : str) : str := last_piece_from sep 0 [] s.

(** [s.split(c)] for a one-character separator. *)
Fixpoint split_from (c : ascii) (piece s : str) : list str :=
  match s with
  | [] => [piece]
  | x :: s' =>
      if decide (x = c) then piece :: split_from c [] s'
      else split_from c (piece ++ [x]) s'
  end.

Definition split (c : ascii) (s : str) : list str := split_from c [] s.

(** [sep.join(parts)] *)
Fixpoint join (sep : str) (parts : list str) : str :=
  match parts with
  | [] => []
  | [p] => p
  | p :: rest => p ++ sep ++ join sep rest
  end.

(** [os.path.dirname(p)] (posixpath) *)
Definition dirname (p : str) : str :=
  let i := rfind "/"%char p + 1 in
  let head := slice_to i p in
  if negb (bool_decide (head = []))
     && negb (forallb (fun c => bool_decide (c = "/"%char)) head)
  then rstrip ["/"%char] head
  else head.

End PyStr.

(** ** The filename sanitizer *)

Module Sanitizer.
Import PyStr.

(** The double quote character, code point 34. *)
Definition dquote : ascii := ascii_of_nat 34.

Definition invalid_chars : str := chars "<>:" ++ [dquote] ++ chars "/\|?*".

Definition unknown_file : str := chars "unknown_file".

(** The loop [for char in invalid_chars: sanitized = sanitized.replace(char, '_')]. *)
Definition replace_invalid (filename : str) : str :=
  fold_left (fun sanitized char => replace char "_"%char sanitized)
            invalid_chars filename.

(** The value of [sanitized] after the [strip('. ')] statement. *)
Definition stripped (filename : str) : str :=
  strip (chars ". ") (replace_invalid filename).

(** [name[:200-len(ext)] + ext] *)
Definition truncate (sanitized : str) : str :=
  let '(name, ext) := splitext sanitized in
  slice_to (200 - len ext) name ++ ext.

(** [SharePointScraper._sanitize_filename] (the script's
    [UserLevelSharePointScraper._sanitize_filename] has the same body). *)
Definition sanitize_chars (filename : str) : str :=
  match filename with
  | [] => unknown_file
  | _ =>
      let sanitized := stripped filename in
      match sanitized with
      | [] => unknown_file
      | _ => if 200 <? len sanitized then truncate sanitized else sanitized
      end
  end.

Definition _sanitize_filename (filename : string) : string :=
  text (sanitize_chars (chars filename)).

End Sanitizer.

(** ** Python control flow: exceptions over a state *)

Module Py.

(** The exception classes the sources raise or catch. [RequestException]
    stands for [requests.RequestException] and its subclasses
    ([ConnectionError], [Timeout], [HTTPError]); the classes of
    [sharepoint_scraper/exceptions.py] all derive from [SharePointError]. *)
Inductive exn :=
| RequestException (msg : string)
| SharePointError (msg : string)
| AuthenticationError (msg : string)
| DownloadError (msg : string)
| ConfigurationError (msg : string)
| APIError (msg : string)
| RecursionError
| OSError (msg : string)
| KeyError (key : string)
| ValueError (msg : string)
| IndexError (msg : string)
| OverflowError (msg : string)
| UnicodeEncodeError (msg : string).

(** [str(e)] *)
Definition exn_str (e : exn) : string :=
  match e with
  | RequestException msg | SharePointError msg | AuthenticationError msg
  | DownloadError msg | ConfigurationError msg | APIError msg
  | OSError msg | ValueError msg | IndexError msg | OverflowError msg
  | UnicodeEncodeError msg => msg
  | KeyError key => "'" ++ key ++ "'"
  | RecursionError => "maximum recursion depth exceeded"
  end.

(** [isinstance(e, requests.RequestException)] *)
Definition is_RequestException (e : exn) : bool :=
  match e with RequestException _ => true | _ => false end.

(** [isinstance(e, AuthenticationError)] *)
Definition is_AuthenticationError (e : exn) : bool :=
  match e with AuthenticationError _ => true | _ => false end.

Inductive result (A : Type) :=
| Return (a : A)
| Raise (e : exn).
Arguments Return {A} a.
Arguments Raise {A} e.

(** A computation over a state [S]: the state survives a raise, as the
    effects of a Python statement survive the exception that ends it. *)
Definition M (S A : Type) : Type := S -> result A * S.

Definition ret {S A} (a : A) : M S A := fun s => (Return a, s).

Definition raise {S A} (e : exn) : M S A := fun s => (Raise e, s).

Definition bind {S A B} (m : M S A) (k : A -> M S B) : M S B :=
  fun s =>
    match m s with
    | (Return a, s') => k a s'
    | (Raise e, s') => (Raise e, s')
    end.

(** [try: m  except Exception as e: h e] *)
Definition try_except {S A} (m : M S A) (h : exn -> M S A) : M S A :=
  fun s =>
    match m s with
    | (Return a, s') => (Return a, s')
    | (Raise e, s') => h e s'
    end.

(** [try: m  finally: f] *)
Definition try_finally {S A} (m : M S A) (f : M S unit) : M S A :=
  fun s =>
    match m s with
    | (r, s') =>
        match f s' with
        | (Return _, s'') => (r, s'')
        | (Raise e, s'') => (Raise e, s'')
        end
    end.

Definition get {S} : M S S := fun s => (Return s, s).

Definition modify {S} (f : S -> S) : M S unit := fun s => (Return tt, f s).

Declare Scope py_scope.
Delimit Scope py_scope with py.

Notation "x <- m ;; k" := (bind m (fun x => k))
  (at level 100, m at next level, right associativity) : py_scope.
Notation "m ;;; k" := (bind m (fun _ => k))
  (at level 100, right associativity) : py_scope.

Local Open Scope py_scope.

(** [for x in l: body x] *)
Fixpoint for_each {S A} (l : list A) (body : A -> M S unit) : M S unit :=
  match l with
  | [] => ret tt
  | x :: l' => body x ;;; for_each l' body
  end.

(** A [for] loop whose body may [return v]: [Some v] leaves the loop. *)
Fixpoint for_return {S A B} (l : list A) (body : A -> M S (option B))
  : M S (option B) :=
  match l with
  | [] => ret None
  | x :: l' =>
      r <- body x ;;
      match r with
      | Some v => ret (Some v)
      | None => for_return l' body
      end
  end.

(** [not x] for an optional string: [None] and the empty string are falsy. *)
Definition falsy (x : option string) : bool :=
  match x with
  | None => true
  | Some s => bool_decide (s = EmptyString)
  end.

(** [str(x)] inside an f-string for a value that may be [None]. *)
Definition fmt (x : option string) : string :=
  match x with
  | None => "None"
  | Some s => s
  end.

(** [str(n)] for an integer. *)
Definition str_of_int (n : Z) : string := pretty.pretty n.

(** [d[key]] for a dictionary whose value under [key] is [value]
    ([None] when the key is absent). *)
Definition getitem {S} (key : string) (value : option string) : M S string :=
  match value with
  | Some v => ret v
  | None => raise (KeyError key)
  end.

End Py.

(** ** Paths as [pathlib] reads them *)

Module Pathlib.
Import PyStr.
Local Open Scope string_scope.

(** A [PurePosixPath]: its root, which is empty, [/] or [//], and the
    parts that follow the root. *)
Record path := {
  root : str;
  parts : list str
}.

(** The root of the path written [s]: exactly two leading slashes give
    [//], one slash or more than two give [/]. *)
Definition root_of (s : str) : str :=
  match s with
  | "/"%char :: "/"%char :: "/"%char :: _ => ["/"%char]
  | "/"%char :: "/"%char :: _ => ["/"%char; "/"%char]
  | "/"%char :: _ => ["/"%char]
  | _ => []
  end.

(** The components that count: the empty ones and [.] are dropped. *)
Definition is_part (component : str) : bool :=
  negb (bool_decide (component = []))
  && negb (bool_decide (component = ["."%char])).

(** [Path(s)] *)
Definition Path (s : string) : path :=
  {| root := root_of (chars s);
     parts := List.filter is_part (split "/"%char (chars s)) |}.

(** [self / other] for a string [other]: an absolute [other] replaces
    [self]. *)
Definition joinpath (self : path) (other : string) : path :=
  match root_of (chars other) with
  | [] => {| root := root self; parts := parts self ++ parts (Path other) |}
  | _ => Path other
  end.

(** [str(self)] *)
Definition str_of (p : path) : string :=
  match root p, parts p with
  | [], [] => "."
  | r, ps => text (r ++ join ["/"%char] ps)
  end.

(** [self.parent] *)
Definition parent (p : path) : path :=
  {| root := root p; parts := removelast (parts p) |}.

(** The path without the parts [..] it ends in, given by its parts from
    the last to the first: a path that ends in [..] names a directory
    exactly when the path before the [..] does. *)
Fixpoint strip_dotdots (reversed_parts : list str) : list str :=
  match reversed_parts with
  | part :: rest =>
      if bool_decide (part = chars "..") then strip_dotdots rest
      else reversed_parts
  | [] => []
  end.

Definition without_trailing_dotdots (p : path) : path :=
  {| root := root p; parts := reverse (strip_dotdots (reverse (parts p))) |}.

(** The ancestors of a path that have a part, and the path itself,
    the shortest first. *)
Definition ancestors_and_self (p : path) : list path :=
  map (fun n => {| root := root p; parts := take n (parts p) |})
      (seq 1 (length (parts p))).

(** A path that the operating system refuses whatever the files are:
    one of its characters is the null character. *)
Definition has_null (p : path) : bool :=
  existsb (fun c => bool_decide (c = zero)) (chars (str_of p)).

End Pathlib.

(** ** The remote API as seen through [requests] *)

Module Graph.

(** [requests.get(url, headers=...)]; the timeout argument has no
    counterpart here. *)
Record request := {
  url : string;
  headers : gmap string string
}.

(** One element of a [value] array: a drive or a drive item, with the
    keys the scraper reads. A key that is absent is [None]; [folder]
    tells whether the key [folder] is present. *)
Record entry := {
  e_name : option string;
  e_id : option string;
  e_file : option (option string);   (* the file facet and its mimeType *)
  e_folder : bool;
  e_size : option Z;
  e_createdDateTime : option string;
  e_lastModifiedDateTime : option string;
  e_downloadUrl : option string;     (* @microsoft.graph.downloadUrl *)
  e_webUrl : option string;
  e_parentPath : option string;      (* parentReference.path *)
  e_author : option string           (* createdBy.user.displayName *)
}.

(** What [response.json()] returns for a collection: the [value] array
    (empty when the key is absent) and [@odata.nextLink]. *)
Record page := {
  value : list entry;
  nextLink : option string
}.

(** A response; [json = None] when [response.json()] raises. *)
Record response := {
  status_code : Z;
  content : string;
  json : option page
}.

(** What a call of [requests.get] does: it returns a response or raises
    a [requests.RequestException]. *)
Inductive outcome :=
| Responds (r : response)
| Fails (msg : string).

Inductive level := INFO | WARNING | ERROR.

(** The observable steps of a run, oldest first. *)
Inductive event :=
| Get (req : request)
| Sleep (milliseconds : Z)
| Log (lvl : level) (msg : string).

(** A remote end: its answer to a request may depend on everything that
    happened before (earlier requests, pauses). *)
Definition server := list event -> request -> outcome.

Definition is_Get (e : event) : bool :=
  match e with Get _ => true | _ => false end.

Definition is_Sleep (e : event) : bool :=
  match e with Sleep _ => true | _ => false end.

(** The requests of a trace, and its pauses, in order. *)
Definition requests_of (tr : list event) : list event := List.filter is_Get tr.

Definition pauses_of (tr : list event) : list event := List.filter is_Sleep tr.

(** The URLs requested, in order. *)
Definition urls_of (tr : list event) : list string :=
  omap (fun e => match e with Get req => Some (url req) | _ => None end) tr.

(** The requests and the pauses of a trace as they follow each other. *)
Inductive step :=
| Request (url : string)
| Pause (milliseconds : Z).

Definition schedule_of (tr : list event) : list step :=
  omap (fun e =>
          match e with
          | Get req => Some (Request (url req))
          | Sleep ms => Some (Pause ms)
          | Log _ _ => None
          end) tr.

(** The warnings of a trace. *)
Definition warnings_of (tr : list event) : list string :=
  omap (fun e => match e with Log WARNING msg => Some msg | _ => None end) tr.

Definition folder_entry (name : string) : entry :=
  {| e_name := Some name; e_id := Some name; e_file := None; e_folder := true;
     e_size := None; e_createdDateTime := None; e_lastModifiedDateTime := None;
     e_downloadUrl := None; e_webUrl := None;
     e_parentPath := None; e_author := None |}.

Definition file_entry (name : string) : entry :=
  {| e_name := Some name; e_id := Some name; e_file := Some None;
     e_folder := false; e_size := None; e_createdDateTime := None;
     e_lastModifiedDateTime := None; e_downloadUrl := None; e_webUrl := None;
     e_parentPath := None; e_author := None |}.

Definition drive_entry (name : string) : entry :=
  {| e_name := Some name; e_id := Some name; e_file := None; e_folder := false;
     e_size := None; e_createdDateTime := None; e_lastModifiedDateTime := None;
     e_downloadUrl := None; e_webUrl := None;
     e_parentPath := None; e_author := None |}.

Definition ok_page (items : list entry) : outcome :=
  Responds {| status_code := 200; content := EmptyString;
              json := Some {| value := items; nextLink := None |} |}.

Definition status_only (code : Z) : outcome :=
  Responds {| status_code := code; content := EmptyString; json := None |}.

End Graph.

(** ** The state of a run and the primitive steps *)

Module Run.
Import Py Graph.
Local Open Scope py_scope.
Local Open Scope string_scope.

Section Documents.

(** The type of the dictionaries collected in [documents]. *)
Variable D : Type.

(** The state of a run: what happened so far, the list object
    [documents] that the enumeration creates and that every recursive
    call appends to, and the local file system: the files with their
    contents and the directories, each under its path as it is written
    (two spellings of one file are not identified). A path in [denied]
    cannot be created or opened for writing. *)
Record state := {
  trace : list event;
  documents : list D;
  files : gmap string string;
  dirs : gset string;
  denied : gset string
}.

Definition initial_state : state :=
  {| trace := []; documents := []; files := ∅; dirs := ∅; denied := ∅ |}.

Definition emit (e : event) : M state unit :=
  modify (fun s => {| trace := trace s ++ [e]; documents := documents s;
                      files := files s; dirs := dirs s; denied := denied s |}).

(** [logger.info], [logger.warning], [logger.error] *)
Definition logger (lvl : level) (msg : string) : M state unit :=
  emit (Log lvl msg).

(** [time.sleep(seconds)] for a whole number of seconds, and for a
    number of milliseconds. *)
Definition time_sleep (seconds : Z) : M state unit :=
  emit (Sleep (1000 * seconds)).

Definition time_sleep_ms (milliseconds : Z) : M state unit :=
  emit (Sleep milliseconds).

(** [requests.get(...)]: the request is recorded and the server answers
    from what happened before it. *)
Definition requests_get (srv : server) (req : request) : M state response :=
  fun s =>
    match srv (trace s) req with
    | Responds r => (emit (Get req) ;;; ret r) s
    | Fails msg => (emit (Get req) ;;; raise (RequestException msg)) s
    end.

(** [response.json()] *)
Definition response_json (r : response) : M state page :=
  match json r with
  | Some data => ret data
  | None => raise (ValueError "Expecting value")
  end.

(** [documents.append(doc)] *)
Definition documents_append (doc : D) : M state unit :=
  modify (fun s => {| trace := trace s; documents := documents s ++ [doc];
                      files := files s; dirs := dirs s; denied := denied s |}).

(** [documents = []] *)
Definition documents_new : M state unit :=
  modify (fun s => {| trace := trace s; documents := [];
                      files := files s; dirs := dirs s; denied := denied s |}).

(** Whether [p] is a directory: the current directory and the roots
    are, and so are the directories of the state; a path that ends in
    [..] is one when the path before the [..] is. *)
Definition is_dir (s : state) (p : Pathlib.path) : bool :=
  let p := Pathlib.without_trailing_dotdots p in
  bool_decide (Pathlib.parts p = [])
  || bool_decide (Pathlib.str_of p ∈ dirs s).

(** Whether something keeps [p] from being a directory: it is denied or
    it is a file. *)
Definition blocked (s : state) (p : Pathlib.path) : bool :=
  bool_decide (Pathlib.str_of p ∈ denied s)
  || bool_decide (is_Some (files s !! Pathlib.str_of p)).

(** [path.mkdir(parents=True, exist_ok=True)]: the path and its missing
    ancestors become directories, unless one of them is denied or is a
    file. *)
Definition mkdir (path : Pathlib.path) : M state unit :=
  fun s =>
    if Pathlib.has_null path
    then raise (ValueError "embedded null byte") s
    else if existsb (blocked s) (Pathlib.ancestors_and_self path)
    then raise (OSError ("Cannot create directory: " ++ Pathlib.str_of path)) s
    else (Return tt,
          {| trace := trace s; documents := documents s; files := files s;
             dirs := dirs s
                     ∪ list_to_set (Pathlib.str_of
                                      <$> Pathlib.ancestors_and_self path);
             denied := denied s |}).

(** [with open(path, 'wb') as f: f.write(data)]: the path must not be
    denied nor be a directory, and its parent must be a directory. *)
Definition write_file (path : Pathlib.path) (data : string) : M state unit :=
  fun s =>
    if Pathlib.has_null path
    then raise (ValueError "embedded null byte") s
    else if bool_decide (Pathlib.str_of path ∈ denied s)
    then raise (OSError ("Permission denied: " ++ Pathlib.str_of path)) s
    else if is_dir s path
    then raise (OSError ("Is a directory: " ++ Pathlib.str_of path)) s
    else if negb (is_dir s (Pathlib.parent path))
    then raise (OSError ("No such file or directory: "
                         ++ Pathlib.str_of path)) s
    else (Return tt,
          {| trace := trace s; documents := documents s;
             files := <[Pathlib.str_of path := data]> (files s);
             dirs := dirs s; denied := denied s |}).

End Documents.

Arguments trace {D} _.
Arguments documents {D} _.
Arguments files {D} _.
Arguments dirs {D} _.
Arguments denied {D} _.
Arguments initial_state {D}.
Arguments emit {D} e.
Arguments logger {D} lvl msg.
Arguments time_sleep {D} seconds.
Arguments time_sleep_ms {D} milliseconds.
Arguments requests_get {D} srv req.
Arguments response_json {D} r.
Arguments documents_append {D} doc.
Arguments documents_new {D}.
Arguments is_dir {D} s p.
Arguments blocked {D} s p.
Arguments mkdir {D} path.
Arguments write_file {D} path data.

(** [range(n)] *)
Definition range (n : Z) : list Z := map Z.of_nat (seq 0 (Z.to_nat n)).

Definition graph : string := "https://graph.microsoft.com/v1.0".

End Run.

(** ** [sharepoint_scraper/scraper.py]: class [SharePointScraper] *)

Module Scraper.
Import Py Graph Run.
Local Open Scope py_scope.
Local Open Scope string_scope.

(** A document descriptor: the dictionary built for each file by
    [_scan_drive_recursive], or one read back from a snapshot. Each
    field is what [document.get(key)] returns, [None] for a key that is
    absent; a key that is present holds a value of the type the
    enumeration gives it. *)
Record document := {
  get_name : option string;
  get_safe_name : option string;
  doc_id : option string;
  doc_unique_id : option string;
  doc_drive_id : option string;
  get_library : option string;
  get_path : option string;
  get_size : option Z;
  doc_created : option string;
  doc_modified : option string;
  doc_download_url : option string;
  doc_web_url : option string;
  get_mime_type : option string
}.

(** [document.get('name', 'Unknown')] *)
Definition doc_name (document : document) : string :=
  default "Unknown" (get_name document).

(** The fields of [self] the methods read: [self.site_id] and
    [self.auth.access_token]. *)
Record scraper := {
  site_id : option string;
  access_token : option string
}.

Abbreviation state := (Run.state document).

Definition initial_state : state := Run.initial_state.

Definition _sanitize_filename := Sanitizer._sanitize_filename.

(** [self.auth.is_authenticated()] *)
Definition is_authenticated (self : scraper) : bool :=
  match access_token self with Some _ => true | None => false end.

(** [self.auth.get_auth_headers()] *)
Definition get_auth_headers (self : scraper) : M state (gmap string string) :=
  if falsy (access_token self)
  then raise (AuthenticationError "Not authenticated. Call authenticate() first.")
  else ret (<["Authorization" := "Bearer " ++ fmt (access_token self)]>
            (<["Accept" := "application/json"]>
            (<["Content-Type" := "application/json"]> ∅))).

(** The dictionary [doc_metadata] built for a file item. *)
Definition doc_metadata (item : entry) (drive_id : option string)
    (library_name folder_path : string) : document :=
  {| get_name := Some (default "Unknown" (e_name item));
     get_safe_name :=
       Some (_sanitize_filename (default "Unknown" (e_name item)));
     doc_id := e_id item;
     doc_unique_id := e_id item;
     doc_drive_id := drive_id;
     get_library := Some library_name;
     get_path := Some folder_path;
     get_size := Some (default 0 (e_size item));
     doc_created := e_createdDateTime item;
     doc_modified := e_lastModifiedDateTime item;
     doc_download_url := e_downloadUrl item;
     doc_web_url := e_webUrl item;
     get_mime_type :=
       Some match e_file item with
            | Some (Some m) => m
            | _ => "application/octet-stream"
            end |}.

(** The path [new_path] of the folder [item] found in [folder_path]. *)
Definition new_path (folder_path : string) (item : entry) : string :=
  let folder_name := default "Unknown" (e_name item) in
  if negb (bool_decide (folder_path = EmptyString))
  then folder_path ++ "/" ++ folder_name
  else folder_name.

(** The body of the loop [for item in items] of [_scan_drive_recursive]:
    [recurse new_path] stands for the recursive call
    [self._scan_drive_recursive(drive_id, new_path, library_name, documents, headers)]. *)
Definition scan_item (recurse : string -> M state unit)
    (drive_id : option string) (folder_path library_name : string)
    (item : entry) : M state unit :=
  match e_file item with
  | Some _ =>
      documents_append (doc_metadata item drive_id library_name folder_path)
  | None =>
      if e_folder item then recurse (new_path folder_path item)
      else ret tt
  end.

(** The URL [items_url] of a listing. *)
Definition items_url (self : scraper) (drive_id : option string)
    (folder_path : string) (page_url : option string) : string :=
  if negb (falsy page_url) then fmt page_url
  else if negb (bool_decide (folder_path = EmptyString))
  then graph ++ "/sites/" ++ fmt (site_id self) ++ "/drives/"
       ++ fmt drive_id ++ "/root:/" ++ folder_path ++ ":/children"
  else graph ++ "/sites/" ++ fmt (site_id self) ++ "/drives/"
       ++ fmt drive_id ++ "/root/children".

(** [SharePointScraper._scan_drive_recursive]. [depth] is the number of
    nested calls the interpreter still allows: a call beyond it raises
    [RecursionError] in the caller. The argument [documents] is the list
    object of the state. *)
Fixpoint _scan_drive_recursive (depth : nat) (srv : server) (self : scraper)
    (drive_id : option string) (folder_path library_name : string)
    (headers : gmap string string) (page_url : option string)
  : M state unit :=
  match depth with
  | O => raise RecursionError
  | S depth' =>
    try_except
      (response <- requests_get srv
                     {| url := items_url self drive_id folder_path page_url;
                        headers := headers |} ;;
       if negb (Z.eqb (status_code response) 200)
       then logger WARNING ("Failed to scan folder " ++ folder_path ++ ": "
                            ++ str_of_int (status_code response))
       else
         data <- response_json response ;;
         for_each (value data)
           (scan_item
              (fun new_path =>
                 _scan_drive_recursive depth' srv self drive_id new_path
                                       library_name headers None)
              drive_id folder_path library_name) ;;;
         if negb (falsy (nextLink data))
         then _scan_drive_recursive depth' srv self drive_id folder_path
                                    library_name headers (nextLink data)
         else ret tt)
      (fun e => logger ERROR ("Error scanning drive items: " ++ exn_str e))
  end.

(** The URL [drives_url] of the list of libraries. *)
Definition drives_url (self : scraper) : string :=
  graph ++ "/sites/" ++ fmt (site_id self) ++ "/drives".

(** [SharePointScraper.get_documents] *)
Definition get_documents (depth : nat) (srv : server) (self : scraper)
  : M state (list document) :=
  if negb (is_authenticated self) || falsy (site_id self)
  then raise (SharePointError "Not connected. Call authenticate() first.")
  else
    documents_new ;;;
    try_except
      (logger INFO "Scanning for documents..." ;;;
       headers <- get_auth_headers self ;;
       response <- requests_get srv {| url := drives_url self; headers := headers |} ;;
       if negb (Z.eqb (status_code response) 200)
       then raise (APIError ("Failed to get document libraries: "
                             ++ str_of_int (status_code response)))
       else
         data <- response_json response ;;
         let drives := value data in
         logger INFO ("Found " ++ str_of_int (Z.of_nat (length drives))
                      ++ " document libraries") ;;;
         for_each drives (fun drive =>
           let library_name := default "Unknown" (e_name drive) in
           let drive_id := e_id drive in
           logger INFO ("Scanning library: " ++ library_name) ;;;
           try_except
             (_scan_drive_recursive depth srv self drive_id EmptyString
                                    library_name headers None)
             (fun e => logger WARNING ("Error scanning library " ++ library_name
                                       ++ ": " ++ exn_str e))) ;;;
         s <- get ;;
         logger INFO ("Found " ++ str_of_int (Z.of_nat (length (documents s)))
                      ++ " total documents") ;;;
         ret (documents s))
      (fun e =>
         logger ERROR ("Error getting documents: " ++ exn_str e) ;;;
         raise (SharePointError ("Failed to get documents: " ++ exn_str e))).

Definition max_retries : Z := 3.

(** One turn of the loop [for attempt in range(max_retries)] of
    [download_document]: [Some path] when the turn ends in
    [return str(file_path)], [None] when the loop goes on. *)
Definition download_attempt (srv : server) (self : scraper)
    (download_url : string) (file_path : Pathlib.path) (attempt : Z)
  : M state (option string) :=
  try_except
    (response <-
       (if PyStr.contains (PyStr.chars "@microsoft.graph.downloadUrl")
                          (PyStr.chars download_url)
        then requests_get srv {| url := download_url; headers := ∅ |}
        else
          headers <- get_auth_headers self ;;
          requests_get srv
            {| url := download_url;
               headers := <["Accept" := "application/octet-stream"]> headers |}) ;;
     if Z.eqb (status_code response) 200
     then
       write_file file_path (content response) ;;;
       logger INFO ("Downloaded successfully: " ++ Pathlib.str_of file_path) ;;;
       ret (Some (Pathlib.str_of file_path))
     else raise (DownloadError ("Download failed: "
                                ++ str_of_int (status_code response))))
    (fun e =>
       if is_RequestException e
       then
         if Z.eqb attempt (max_retries - 1)
         then raise (DownloadError ("Download failed after "
                                    ++ str_of_int max_retries
                                    ++ " attempts: " ++ exn_str e))
         else
           logger WARNING ("Download attempt " ++ str_of_int (attempt + 1)
                           ++ " failed, retrying...") ;;;
           time_sleep (2 ^ attempt) ;;;
           ret None
       else raise e).

(** The directory [library_path] of a document. *)
Definition library_path (document : document) (download_path : string)
  : Pathlib.path :=
  let library_path :=
    Pathlib.joinpath (Pathlib.Path download_path)
      (_sanitize_filename (default "default" (get_library document))) in
  if negb (falsy (get_path document))
  then Pathlib.joinpath library_path
         (_sanitize_filename (fmt (get_path document)))
  else library_path.

(** [safe_filename] and [file_path] for a document whose key [name]
    holds [name]. *)
Definition safe_filename (document : document) (name : string) : string :=
  default (_sanitize_filename name) (get_safe_name document).

Definition file_path (document : document) (download_path name : string)
  : Pathlib.path :=
  Pathlib.joinpath (library_path document download_path)
                   (safe_filename document name).

(** [SharePointScraper.download_document]. [document['name']] is read
    for the default of [safe_name], for the log, and by the handler. *)
Definition download_document (srv : server) (self : scraper)
    (document : document) (download_path : string) : M state (option string) :=
  try_except
    (mkdir (library_path document download_path) ;;;
     name <- getitem "name" (get_name document) ;;
     let file_path := file_path document download_path name in
     name <- getitem "name" (get_name document) ;;
     logger INFO ("Downloading: " ++ name) ;;;
     download_url <-
       (if falsy (doc_download_url document)
        then
          if falsy (doc_drive_id document) || falsy (doc_id document)
          then raise (DownloadError "Missing drive_id or item_id for download")
          else ret (graph ++ "/sites/" ++ fmt (site_id self) ++ "/drives/"
                    ++ fmt (doc_drive_id document) ++ "/items/"
                    ++ fmt (doc_id document) ++ "/content")
        else ret (fmt (doc_download_url document))) ;;
     for_return (range max_retries)
       (download_attempt srv self download_url file_path))
    (fun e =>
       name <- getitem "name" (get_name document) ;;
       logger ERROR ("Error downloading " ++ name ++ ": " ++ exn_str e) ;;;
       ret None).

(** The loop of [SharePointScraper.bulk_download] over
    [enumerate(documents)] from index [i]: [results] is the dictionary
    being filled, [calls] lists the invocations [(current, total)] of the
    progress callback made so far. *)
Fixpoint bulk_download_loop (srv : server) (self : scraper)
    (download_path : string) (progress_callback : bool) (total : Z)
    (i : Z) (docs : list document)
    (results : gmap string string) (calls : list (Z * Z))
  : M state (gmap string string * list (Z * Z)) :=
  match docs with
  | [] => ret (results, calls)
  | document :: rest =>
      let doc_name := doc_name document in
      results' <-
        try_except
          (file_path <- download_document srv self document download_path ;;
           match file_path with
           | Some p =>
               if negb (bool_decide (p = EmptyString))
               then ret (<[doc_name := p]> results)
               else logger WARNING ("Failed to download: " ++ doc_name) ;;;
                    ret results
           | None =>
               logger WARNING ("Failed to download: " ++ doc_name) ;;;
               ret results
           end)
          (fun e =>
             logger ERROR ("Error downloading " ++ doc_name ++ ": " ++ exn_str e) ;;;
             ret results) ;;
      let calls' := if progress_callback then (calls ++ [(i + 1, total)])%list else calls in
      bulk_download_loop srv self download_path progress_callback total
                         (i + 1) rest results' calls'
  end.

(** [SharePointScraper.bulk_download]; the second component of the
    result lists the calls of [progress_callback]. *)
Definition bulk_download (srv : server) (self : scraper)
    (documents : list document) (download_path : string)
    (progress_callback : bool)
  : M state (gmap string string * list (Z * Z)) :=
  bulk_download_loop srv self download_path progress_callback
                     (Z.of_nat (length documents)) 0 documents ∅ [].

(** The state after a listing of [folder_path] that was answered with
    the status [code]: one request and one warning more, the same
    documents. *)
Definition after_failed_listing (req : request) (folder_path : string) (code : Z)
    (s : state) : state :=
  {| trace := trace s ++ [Get req;
                          Log WARNING ("Failed to scan folder " ++ folder_path
                                       ++ ": " ++ str_of_int code)];
     documents := documents s; files := files s; dirs := dirs s;
     denied := denied s |}.

(** Where a document was found: its folder path and its name. *)
Definition found_at (d : document) : string * string :=
  (default EmptyString (get_path d), doc_name d).

(** A computation that never pauses. *)
Definition quiet {A : Type} (m : M state A) : Prop :=
  forall s, pauses_of (trace (m s).2) = pauses_of (trace s).

(** A computation that makes at most [n] requests. *)
Definition requests_within (n : nat) {A : Type} (m : M state A) : Prop :=
  forall s,
    (length (requests_of (trace (m s).2)) <= length (requests_of (trace s)) + n)%nat.

(** What one turn of the loop of [bulk_download] finds out about its
    document: the path [download_document] returned, [None] when it
    returned none or raised. The turn logs what the loop logs. *)
Definition download_result (srv : server) (self : scraper)
    (download_path : string) (document : document) : M state (option string) :=
  try_except
    (file_path <- download_document srv self document download_path ;;
     match file_path with
     | Some p =>
         if negb (bool_decide (p = EmptyString)) then ret (Some p)
         else logger WARNING ("Failed to download: " ++ doc_name document) ;;;
              ret None
     | None =>
         logger WARNING ("Failed to download: " ++ doc_name document) ;;;
         ret None
     end)
    (fun e =>
       logger ERROR ("Error downloading " ++ doc_name document ++ ": "
                     ++ exn_str e) ;;;
       ret None).

(** The results of the documents of a batch, downloaded one after the
    other in the order of the list. *)
Fixpoint download_results (srv : server) (self : scraper)
    (download_path : string) (docs : list document)
  : M state (list (option string)) :=
  match docs with
  | [] => ret []
  | document :: rest =>
      r <- download_result srv self download_path document ;;
      rs <- download_results srv self download_path rest ;;
      ret (r :: rs)
  end.

(** The mapping a batch is expected to return: the name of every
    document that has a path, with that path (the later document wins
    when two share a name). *)
Fixpoint successes (docs : list document) (outs : list (option string))
    (results : gmap string string) : gmap string string :=
  match docs, outs with
  | document :: docs', Some p :: outs' =>
      successes docs' outs' (<[doc_name document := p]> results)
  | _ :: docs', None :: outs' => successes docs' outs' results
  | _, _ => results
  end.

(** The paths returned for the documents named [n], in the order of
    the list. *)
Fixpoint paths_named (n : string) (docs : list document)
    (outs : list (option string)) : list string :=
  match docs, outs with
  | document :: docs', out :: outs' =>
      ((if bool_decide (doc_name document = n) then option_list out else [])
       ++ paths_named n docs' outs')%list
  | _, _ => []
  end.

(** The calls a progress callback is expected to receive for [n]
    documents: [(1, n)], ..., [(n, n)]. *)
Definition progress_calls (n : nat) : list (Z * Z) :=
  map (fun i => (Z.of_nat i + 1, Z.of_nat n)%Z) (seq 0 n).

End Scraper.

(** ** [sharepoint_scraper/utils.py]: the metadata snapshot *)

Module Utils.
Import Py.
Local Open Scope py_scope.
Local Open Scope string_scope.

(** A Python string as the sequence of its code points. A code point
    from 0xD800 to 0xDFFF is a surrogate, which UTF-8 does not encode. *)
Definition unicode : Type := list N.

(** The string whose characters are those of [s]. *)
Definition str (s : string) : unicode :=
  map Ascii.N_of_ascii (PyStr.chars s).

Definition is_surrogate (c : N) : bool := (55296 <=? c)%N && (c <=? 57343)%N.

(** The values [json.load] returns and [json.dump] accepts. A
    dictionary keeps its keys in insertion order; the keys are those the
    code reads and writes. *)
#[warnings="-register-all"]
Inductive json :=
| JNull
| JBool (b : bool)
| JInt (n : Z)
| JStr (s : unicode)
| JList (l : list json)
| JDict (d : list (string * json)).

(** What [json.dump(obj, f, ...)] does to the file [f]: it writes the
    whole text, or it raises after it has written a part of it. *)
Inductive dumped (text : Type) :=
| Dumped (t : text)
| Broken (partial : text) (e : exn).
Arguments Dumped {text} t.
Arguments Broken {text} partial e.

(** [d[key]] / [key in d] *)
Fixpoint dict_get (key : string) (d : list (string * json)) : option json :=
  match d with
  | [] => None
  | (k, v) :: d' => if decide (k = key) then Some v else dict_get key d'
  end.

Section Snapshot.

(** The text of a file, and the two functions of the [json] module:
    [json_dump] tells what [json.dump] writes and whether it raises,
    [json_load] is [None] where [json.load] raises [JSONDecodeError]. *)
Variable text : Type.
Variable json_dump : json -> dumped text.
Variable json_load : text -> option json.

(** The local files, the clock read by [datetime.now().isoformat()] and
    the lines printed so far. A path in [denied] can neither be read nor
    written. *)
Record state := {
  files : gmap string text;
  denied : gset string;
  now : string;
  stdout : list string
}.

(** [print(line)] *)
Definition print (line : string) : M state unit :=
  modify (fun s => {| files := files s; denied := denied s; now := now s;
                      stdout := stdout s ++ [line] |}).

(** [with open(path, 'w', encoding='utf-8') as f: json.dump(obj, f, ...)]:
    the file holds what was written, also when [json.dump] raises. *)
Definition open_write_dump (path : string) (obj : json) : M state unit :=
  fun s =>
    if decide (path ∈ denied s)
    then raise (OSError ("Permission denied: " ++ path)) s
    else
      match json_dump obj with
      | Dumped t =>
          (Return tt, {| files := <[path := t]> (files s);
                         denied := denied s; now := now s; stdout := stdout s |})
      | Broken t e =>
          (Raise e, {| files := <[path := t]> (files s);
                       denied := denied s; now := now s; stdout := stdout s |})
      end.

(** [with open(path, 'r', encoding='utf-8') as f: data = json.load(f)] *)
Definition open_read_load (path : string) : M state json :=
  fun s =>
    if decide (path ∈ denied s)
    then raise (OSError ("Permission denied: " ++ path)) s
    else match files s !! path with
         | None => raise (OSError ("No such file or directory: " ++ path)) s
         | Some t =>
             match json_load t with
             | Some data => ret data s
             | None => raise (ValueError "Expecting value") s
             end
         end.

(** The dictionary [metadata] of [save_documents_metadata]. *)
Definition metadata (timestamp : string) (documents : list json) : json :=
  JDict [("timestamp", JStr (str timestamp));
         ("total_documents", JInt (Z.of_nat (length documents)));
         ("documents", JList documents)].

(** [save_documents_metadata] *)
Definition save_documents_metadata (documents : list json) (output_file : string)
  : M state unit :=
  try_except
    (s <- get ;;
     let metadata := metadata (now s) documents in
     open_write_dump output_file metadata ;;;
     print ("Document metadata saved to: " ++ output_file))
    (fun e => print ("Error saving metadata: " ++ exn_str e)).

(** [load_documents_metadata]; the value returned is whatever the
    snapshot holds under [documents], or the bare array. *)
Definition load_documents_metadata (input_file : string) : M state json :=
  try_except
    (data <- open_read_load input_file ;;
     match data with
     | JDict d =>
         match dict_get "documents" d with
         | Some docs => ret docs
         | None => raise (ValueError "Invalid metadata file format")
         end
     | JList _ => ret data
     | _ => raise (ValueError "Invalid metadata file format")
     end)
    (fun e =>
       print ("Error loading metadata: " ++ exn_str e) ;;;
       ret (JList [])).

(** A decoded file that is neither a dictionary with the key
    [documents] nor a list. *)
Definition not_a_snapshot (data : json) : Prop :=
  match data with
  | JDict d => dict_get "documents" d = None
  | JList _ => False
  | _ => True
  end.

(** The states of the input file that give [load_documents_metadata]
    nothing to return: the file cannot be opened, does not exist, does
    not hold JSON, or holds JSON of another shape. *)
Inductive unusable (input_file : string) (s : state) : Prop :=
| file_unreadable :
    input_file ∈ denied s → unusable input_file s
| file_missing :
    files s !! input_file = None → unusable input_file s
| file_not_json (t : text) :
    files s !! input_file = Some t → json_load t = None →
    unusable input_file s
| file_not_snapshot (t : text) (data : json) :
    files s !! input_file = Some t → json_load t = Some data →
    not_a_snapshot data → unusable input_file s.

End Snapshot.

Arguments files {text} _.
Arguments denied {text} _.
Arguments now {text} _.
Arguments stdout {text} _.

End Utils.

(** ** [sharepoint_scraper/auth.py]: class [SharePointAuth] *)

Module Auth.
Import Py.
Local Open Scope py_scope.
Local Open Scope string_scope.

(** The attributes of [self]. [token_response] is the dictionary
    decoded from the token endpoint's reply. *)
Record auth := {
  client_id : string;
  tenant_id : option string;
  redirect_uri : string;
  access_token : option string;
  token_response : option (gmap string string)
}.

(** What the callback listener has recorded: [server.auth_code] and
    [server.auth_error]. *)
Record callback := {
  auth_code : option string;
  auth_error : option string
}.

(** The reply of the token endpoint: status, [content-type] header,
    and the decoded body ([None] when [response.json()] raises). *)
Record reply := {
  status_code : Z;
  content_type : option string;
  body : option (gmap string string)
}.

Inductive outcome :=
| Responds (r : reply)
| Fails (msg : string).

(** The observable steps of an authentication, oldest first.
    [BrowserOpened] stands for the log line that announces the URL and
    for [webbrowser.open]; [Waited] for one second of the wait loop;
    [LogTokenExchangeFailed] for the error line that shows the status
    and [error_data]. *)
Inductive event :=
| ListenerStarted
| BrowserOpened (auth_url : string) (auth_params : gmap string string)
| Waited
| Post (token_url : string) (token_data : gmap string string)
| ListenerShutdown
| LogInfo (msg : string)
| LogError (msg : string)
| LogTokenExchangeFailed (status : Z) (error_data : gmap string string).

(** What surrounds the client: the environment variable
    [AZURE_CLIENT_SECRET], whether port 8080 can be bound, the random
    verifier and its challenge, what the listener has recorded after a
    given number of seconds, and the token endpoint. *)
Record env := {
  client_secret : option string;
  port_in_use : bool;
  code_verifier : string;
  code_challenge : string;
  listener : nat -> callback;
  token_endpoint : string -> gmap string string -> outcome
}.

Record state := {
  self : auth;
  trace : list event
}.

Definition emit (e : event) : M state unit :=
  modify (fun s => {| self := self s; trace := trace s ++ [e] |}).

Definition set_token (resp : gmap string string) (tok : string) : M state unit :=
  modify (fun s =>
    {| self := {| client_id := client_id (self s);
                  tenant_id := tenant_id (self s);
                  redirect_uri := redirect_uri (self s);
                  access_token := Some tok;
                  token_response := Some resp |};
       trace := trace s |}).

Definition set_token_response (resp : gmap string string) : M state unit :=
  modify (fun s =>
    {| self := {| client_id := client_id (self s);
                  tenant_id := tenant_id (self s);
                  redirect_uri := redirect_uri (self s);
                  access_token := access_token (self s);
                  token_response := Some resp |};
       trace := trace s |}).

(** [requests.post(token_url, data=token_data, headers=headers)] *)
Definition requests_post (E : env) (token_url : string)
    (token_data : gmap string string) : M state reply :=
  emit (Post token_url token_data) ;;;
  match token_endpoint E token_url token_data with
  | Responds r => ret r
  | Fails msg => raise (RequestException msg)
  end.

(** [response.json()] *)
Definition reply_json (r : reply) : M state (gmap string string) :=
  match body r with
  | Some d => ret d
  | None => raise (ValueError "Expecting value")
  end.

Definition scope : string :=
  "https://graph.microsoft.com/Sites.Read.All https://graph.microsoft.com/Files.Read.All".

(** [SharePointAuth._exchange_code_for_token] *)
Definition _exchange_code_for_token (E : env) (auth_code code_verifier : string)
  : M state bool :=
  try_except
    (s <- get ;;
     let token_url :=
       if negb (falsy (tenant_id (self s)))
       then "https://login.microsoftonline.com/" ++ fmt (tenant_id (self s))
            ++ "/oauth2/v2.0/token"
       else "https://login.microsoftonline.com/common/oauth2/v2.0/token" in
     let token_data : gmap string string :=
       <["client_id" := client_id (self s)]>
       (<["grant_type" := "authorization_code"]>
       (<["code" := auth_code]>
       (<["redirect_uri" := redirect_uri (self s)]>
       (<["code_verifier" := code_verifier]>
       (<["scope" := scope]> ∅))))) in
     let token_data :=
       if negb (falsy (client_secret E))
       then <["client_secret" := fmt (client_secret E)]> token_data
       else token_data in
     response <- requests_post E token_url token_data ;;
     if Z.eqb (status_code response) 200
     then
       resp <- reply_json response ;;
       set_token_response resp ;;;
       match resp !! "access_token" with
       | None => raise (KeyError "access_token")
       | Some tok =>
           set_token resp tok ;;;
           emit (LogInfo "Successfully obtained access token") ;;;
           ret true
       end
     else
       error_data <-
         (if PyStr.prefix_of (PyStr.chars "application/json")
                             (PyStr.chars (default EmptyString (content_type response)))
          then reply_json response
          else ret ∅) ;;
       emit (LogTokenExchangeFailed (status_code response) error_data) ;;;
       ret false)
    (fun e =>
       emit (LogError ("Token exchange error: " ++ exn_str e)) ;;;
       ret false).

(** The loop [while server.auth_code is None and server.auth_error is
    None and waited < timeout], one second per turn: [remaining] is
    [timeout - waited]. It returns what the listener holds when the loop
    ends. *)
Fixpoint wait_for_callback (E : env) (remaining waited : nat) : M state callback :=
  let cb := listener E waited in
  match auth_code cb, auth_error cb, remaining with
  | None, None, S remaining' =>
      emit Waited ;;; wait_for_callback E remaining' (S waited)
  | _, _, _ => ret cb
  end.

Definition timeout : nat := 300.

(** [SharePointAuth.authenticate] *)
Definition authenticate (E : env) : M state string :=
  try_except
    (emit (LogInfo "Starting interactive OAuth authentication (supports MFA)...") ;;;
     s <- get ;;
     let auth_url :=
       if negb (falsy (tenant_id (self s)))
       then "https://login.microsoftonline.com/" ++ fmt (tenant_id (self s))
            ++ "/oauth2/v2.0/authorize"
       else "https://login.microsoftonline.com/common/oauth2/v2.0/authorize" in
     let auth_params : gmap string string :=
       <["client_id" := client_id (self s)]>
       (<["response_type" := "code"]>
       (<["redirect_uri" := redirect_uri (self s)]>
       (<["scope" := scope ++ " offline_access"]>
       (<["code_challenge" := code_challenge E]>
       (<["code_challenge_method" := "S256"]>
       (<["prompt" := "select_account"]> ∅)))))) in
     (if port_in_use E then raise (OSError "Address already in use") else ret tt) ;;;
     emit ListenerStarted ;;;
     try_finally
       (emit (BrowserOpened auth_url auth_params) ;;;
        server <- wait_for_callback E timeout 0 ;;
        if negb (falsy (auth_error server))
        then raise (AuthenticationError ("OAuth error: " ++ fmt (auth_error server)))
        else
          match auth_code server with
          | None =>
              raise (AuthenticationError "Authentication timeout - no response received")
          | Some code =>
              ok <- _exchange_code_for_token E code (code_verifier E) ;;
              if negb ok
              then raise (AuthenticationError
                            "Failed to exchange authorization code for token")
              else
                emit (LogInfo "Authentication successful!") ;;;
                s' <- get ;;
                ret (fmt (access_token (self s')))
          end)
       (emit ListenerShutdown))
    (fun e =>
       if is_AuthenticationError e then raise e
       else
         emit (LogError ("Interactive authentication failed: " ++ exn_str e)) ;;;
         raise (AuthenticationError ("Authentication failed: " ++ exn_str e))).

End Auth.

(** ** [sharepoint_doc_scraper.py]: class [UserLevelSharePointScraper] *)

Module Legacy.
Import Py Graph Run.
Local Open Scope py_scope.
Local Open Scope string_scope.

(** The dictionary [doc_info] built for each file. *)
Record document := {
  doc_name : string;
  doc_safe_name : string;
  doc_library : string;
  doc_path : string;
  doc_size : Z;
  doc_created : option string;
  doc_modified : option string;
  doc_author : string;
  doc_server_relative_url : string;
  doc_file_type : string;
  doc_unique_id : string;
  doc_web_url : string;
  doc_download_url : string;
  doc_drive_id : option string
}.

Record scraper := {
  site_id : option string;
  access_token : option string
}.

Abbreviation state := (Run.state document).

Definition _sanitize_filename := Sanitizer._sanitize_filename.

(** The dictionary [doc_info] for a file item. *)
Definition doc_info (item : entry) (drive_id : option string)
    (library_name : string) : document :=
  let item_name := default "Unknown" (e_name item) in
  let item_id := default EmptyString (e_id item) in
  let file_path :=
    PyStr.last_piece (PyStr.chars "root:/")
                     (PyStr.chars (default EmptyString (e_parentPath item))) in
  let file_path :=
    if PyStr.startswith ["/"%char] file_path then PyStr.slice_from 1 file_path
    else file_path in
  let full_path :=
    if negb (bool_decide (file_path = []))
    then PyStr.text file_path ++ "/" ++ item_name
    else item_name in
  {| doc_name := item_name;
     doc_safe_name := _sanitize_filename item_name;
     doc_library := library_name;
     doc_path := full_path;
     doc_size := default 0 (e_size item);
     doc_created := e_createdDateTime item;
     doc_modified := e_lastModifiedDateTime item;
     doc_author := default "Unknown" (e_author item);
     doc_server_relative_url := default EmptyString (e_webUrl item);
     doc_file_type :=
       PyStr.text (PyStr.lower (snd (PyStr.splitext (PyStr.chars item_name))));
     doc_unique_id := item_id;
     doc_web_url := default EmptyString (e_webUrl item);
     doc_download_url := default EmptyString (e_downloadUrl item);
     doc_drive_id := drive_id |}.

(** [item_name.startswith('_') or item_name in ['Forms']] *)
Definition system_folder (item_name : string) : bool :=
  PyStr.startswith ["_"%char] (PyStr.chars item_name)
  || bool_decide (item_name ∈ ["Forms"]).

(** The body of the loop [for item in items] of
    [_scan_drive_items_recursive], with its own [try]: [recurse item_id]
    stands for the recursive call
    [self._scan_drive_items_recursive(drive_id, item_id, library_name, documents, headers)]. *)
Definition scan_item (recurse : string -> M state unit)
    (drive_id : option string) (library_name : string) (item : entry)
  : M state unit :=
  try_except
    (let item_name := default "Unknown" (e_name item) in
     let item_id := default EmptyString (e_id item) in
     if e_folder item then
       if system_folder item_name then ret tt
       else
         recurse item_id ;;;
         time_sleep_ms 500
     else
       match e_file item with
       | Some _ => documents_append (doc_info item drive_id library_name)
       | None => ret tt
       end)
    (fun e =>
       logger WARNING ("Error processing item "
                       ++ default "Unknown" (e_name item) ++ ": "
                       ++ exn_str e)).

(** [UserLevelSharePointScraper._scan_drive_items_recursive]; [depth]
    bounds the nesting of calls as in [Scraper._scan_drive_recursive]. *)
Fixpoint _scan_drive_items_recursive (depth : nat) (srv : server)
    (drive_id : option string) (folder_path library_name : string)
    (headers : gmap string string) (page_url : option string)
  : M state unit :=
  match depth with
  | O => raise RecursionError
  | S depth' =>
    try_except
      (let items_url :=
         if negb (falsy page_url) then fmt page_url
         else if negb (bool_decide (folder_path = EmptyString))
         then graph ++ "/drives/" ++ fmt drive_id ++ "/items/" ++ folder_path
              ++ "/children"
         else graph ++ "/drives/" ++ fmt drive_id ++ "/root/children" in
       response <- requests_get srv {| url := items_url; headers := headers |} ;;
       if negb (Z.eqb (status_code response) 200)
       then logger WARNING ("Error getting items: "
                            ++ str_of_int (status_code response) ++ " - "
                            ++ content response)
       else
         data <- response_json response ;;
         for_each (value data)
           (scan_item
              (fun item_id =>
                 _scan_drive_items_recursive depth' srv drive_id item_id
                                             library_name headers None)
              drive_id library_name) ;;;
         if negb (falsy (nextLink data))
         then
           time_sleep_ms 500 ;;;
           _scan_drive_items_recursive depth' srv drive_id folder_path
                                       library_name headers (nextLink data)
         else ret tt)
      (fun e => logger ERROR ("Error scanning drive items: " ++ exn_str e))
  end.

(** [UserLevelSharePointScraper.get_documents_graph] *)
Definition get_documents_graph (depth : nat) (srv : server) (self : scraper)
  : M state (list document) :=
  documents_new ;;;
  try_except
    (if falsy (access_token self) || falsy (site_id self)
     then
       logger ERROR "Not authenticated or site ID not available" ;;;
       s <- get ;; ret (documents s)
     else
       logger INFO "Scanning for documents using Microsoft Graph API..." ;;;
       let headers : gmap string string :=
         <["Authorization" := "Bearer " ++ fmt (access_token self)]>
         (<["Accept" := "application/json"]> ∅) in
       drives <-
         try_except
           (let drives_url := graph ++ "/sites/" ++ fmt (site_id self) ++ "/drives" in
            response <- requests_get srv {| url := drives_url; headers := headers |} ;;
            if negb (Z.eqb (status_code response) 200)
            then
              logger ERROR ("Failed to get site drives: "
                            ++ str_of_int (status_code response) ++ " - "
                            ++ content response) ;;;
              ret None
            else
              data <- response_json response ;;
              logger INFO ("Found " ++ str_of_int (Z.of_nat (length (value data)))
                           ++ " document libraries") ;;;
              ret (Some (value data)))
           (fun e =>
              logger ERROR ("Failed to get site drives: " ++ exn_str e) ;;;
              ret None) ;;
       match drives with
       | None => s <- get ;; ret (documents s)
       | Some drives =>
           for_each drives (fun drive =>
             let drive_id := e_id drive in
             let drive_name := default "Unknown Library" (e_name drive) in
             try_except
               (logger INFO ("Scanning library: " ++ drive_name) ;;;
                _scan_drive_items_recursive depth srv drive_id EmptyString
                                            drive_name headers None ;;;
                time_sleep_ms 1000)
               (fun e =>
                  logger WARNING ("Failed to scan library " ++ drive_name ++ ": "
                                  ++ exn_str e))) ;;;
           s <- get ;;
           logger INFO ("Found " ++ str_of_int (Z.of_nat (length (documents s)))
                        ++ " total documents") ;;;
           ret (documents s)
       end)
    (fun e =>
       logger ERROR ("Error getting documents: " ++ exn_str e) ;;;
       s <- get ;; ret (documents s)).

(** [response.raise_for_status()] *)
Definition raise_for_status (r : response) : M state unit :=
  if (400 <=? status_code r)%Z && (status_code r <? 600)%Z
  then raise (RequestException (str_of_int (status_code r) ++ " Error"))
  else ret tt.

Definition max_retries : Z := 3.

(** Where a document was found: its path and its name. *)
Definition found_at (d : document) : string * string := (doc_path d, doc_name d).

(** [UserLevelSharePointScraper.download_and_ingest_document]. [ingest]
    stands for [ingest_document(file_path, name)]: it is [Some e] when the
    call raises [e]. The result is [None] when the function ends without
    a [return]. *)
Definition download_and_ingest_document (srv : server)
    (ingest : string -> string -> option exn) (self : scraper)
    (document : document) (download_path : string) : M state (option bool) :=
  try_except
    (if falsy (access_token self)
     then logger ERROR "Not authenticated - missing access token" ;;;
          ret (Some false)
     else
       let site_id := site_id self in
       let drive_id := doc_drive_id document in
       let item_id := doc_unique_id document in
       if falsy site_id || bool_decide (item_id = EmptyString)
       then
         logger ERROR ("Missing required Graph API identifiers for "
                       ++ doc_name document) ;;;
         ret (Some false)
       else
         let library_path :=
           Pathlib.joinpath (Pathlib.Path download_path)
                            (_sanitize_filename (doc_library document)) in
         let file_dir := PyStr.dirname (PyStr.chars (doc_path document)) in
         let library_path :=
           if negb (bool_decide (doc_path document = EmptyString))
              && negb (bool_decide (file_dir = []))
           then
             Pathlib.joinpath library_path
               (PyStr.text
                  (PyStr.join ["/"%char]
                     (map Sanitizer.sanitize_chars (PyStr.split "/"%char file_dir))))
           else library_path in
         mkdir library_path ;;;
         let safe_filename := doc_safe_name document in
         let file_path := Pathlib.joinpath library_path safe_filename in
         logger INFO ("Downloading: " ++ doc_name document) ;;;
         let graph_url :=
           if negb (falsy drive_id)
           then graph ++ "/sites/" ++ fmt site_id ++ "/drives/" ++ fmt drive_id
                ++ "/items/" ++ item_id ++ "/content"
           else graph ++ "/sites/" ++ fmt site_id ++ "/drive/items/" ++ item_id
                ++ "/content" in
         let headers : gmap string string :=
           <["Authorization" := "Bearer " ++ fmt (access_token self)]>
           (<["Accept" := "application/octet-stream"]> ∅) in
         for_return (range max_retries) (fun attempt =>
           try_except
             (response <- requests_get srv {| url := graph_url; headers := headers |} ;;
              if Z.eqb (status_code response) 200 then
                write_file file_path (content response) ;;;
                logger INFO ("Downloaded: " ++ doc_name document ++ " -> "
                             ++ Pathlib.str_of file_path) ;;;
                match ingest (Pathlib.str_of file_path) (doc_name document) with
                | Some e => raise e
                | None =>
                    logger INFO ("Ingested document into knowledge base: "
                                 ++ doc_name document) ;;;
                    ret (Some true)
                end
              else if Z.eqb (status_code response) 401 then
                logger ERROR "Authentication failed - token may be expired" ;;;
                ret (Some false)
              else if Z.eqb (status_code response) 403 then
                logger ERROR ("Access denied to " ++ doc_name document
                              ++ " - insufficient permissions") ;;;
                ret (Some false)
              else if Z.eqb (status_code response) 404 then
                logger ERROR ("File not found: " ++ doc_name document) ;;;
                ret (Some false)
              else
                raise_for_status response ;;;
                ret None)
             (fun e =>
                if is_RequestException e then
                  if (attempt <? max_retries - 1)%Z
                  then
                    logger WARNING ("Download attempt " ++ str_of_int (attempt + 1)
                                    ++ " failed, retrying...") ;;;
                    time_sleep 2 ;;;
                    ret None
                  else raise e
                else raise e)))
    (fun e =>
       logger ERROR ("Error downloading " ++ doc_name document ++ ": "
                     ++ exn_str e) ;;;
       ret (Some false)).

End Legacy.

(** ** Concrete sites, servers and names *)

Module Scenario.
Import Py Graph Run.
Local Open Scope string_scope.

(** A server that answers every request the same way. *)
Definition always (o : outcome) : server := fun _ _ => o.

(** A server that answers its n-th request with the n-th outcome of
    [answers], and with [otherwise] once they are used up. *)
Definition scripted (answers : list outcome) (otherwise : outcome) : server :=
  fun tr _ => nth (length (requests_of tr)) answers otherwise.

(** A server that answers by URL. *)
Fixpoint lookup_url (u : string) (table : list (string * outcome))
    (otherwise : outcome) : outcome :=
  match table with
  | [] => otherwise
  | (k, v) :: table' => if decide (k = u) then v else lookup_url u table' otherwise
  end.

Definition by_url (table : list (string * outcome)) (otherwise : outcome) : server :=
  fun _ req => lookup_url (url req) table otherwise.

Definition ok_content (data : string) : outcome :=
  Responds {| status_code := 200; content := data; json := None |}.

(** An authenticated scraper connected to the site [site]. *)
Definition connected : Scraper.scraper :=
  {| Scraper.site_id := Some "site"; Scraper.access_token := Some "token" |}.

Definition connected_script : Legacy.scraper :=
  {| Legacy.site_id := Some "site"; Legacy.access_token := Some "token" |}.

(** The descriptor of [report.pdf] at the root of the library [Documents]. *)
Definition report : Scraper.document :=
  Scraper.doc_metadata (file_entry "report.pdf") (Some "drive1") "Documents" EmptyString.

Definition report_script : Legacy.document :=
  Legacy.doc_info (file_entry "report.pdf") (Some "drive1") "Documents".

(** The endpoint that answers 500, 500, then 200. *)
Definition recovering : server :=
  scripted [status_only 500; status_only 500] (ok_content "%PDF").

(** The endpoint that always answers 403. *)
Definition forbidden : server := always (status_only 403).

(** The endpoint whose connection fails twice before a 200. *)
Definition flaky : server :=
  scripted [Fails "Connection aborted"; Fails "Read timed out"] (ok_content "%PDF").

(** The endpoint whose connection always fails. *)
Definition unreachable : server := always (Fails "Connection refused").

(** A site with one library [drive1]: its root holds the folders [Forms]
    and [_private] and the file [report.pdf]; [Forms] holds
    [template.dotx], [_private] holds [notes.txt]. The table gives the
    listing URLs of the package and of the script. *)
Definition site_with_system_folders : server :=
  by_url
    [("https://graph.microsoft.com/v1.0/sites/site/drives",
      ok_page [drive_entry "drive1"]);
     ("https://graph.microsoft.com/v1.0/sites/site/drives/drive1/root/children",
      ok_page [folder_entry "Forms"; folder_entry "_private"; file_entry "report.pdf"]);
     ("https://graph.microsoft.com/v1.0/sites/site/drives/drive1/root:/Forms:/children",
      ok_page [file_entry "template.dotx"]);
     ("https://graph.microsoft.com/v1.0/sites/site/drives/drive1/root:/_private:/children",
      ok_page [file_entry "notes.txt"]);
     ("https://graph.microsoft.com/v1.0/drives/drive1/root/children",
      ok_page [folder_entry "Forms"; folder_entry "_private"; file_entry "report.pdf"]);
     ("https://graph.microsoft.com/v1.0/drives/drive1/items/Forms/children",
      ok_page [file_entry "template.dotx"]);
     ("https://graph.microsoft.com/v1.0/drives/drive1/items/_private/children",
      ok_page [file_entry "notes.txt"])]
    (status_only 404).

(** A site with two libraries; the first holds the folder [A] with one
    file, the second one file. *)
Definition site_with_two_drives : server :=
  by_url
    [("https://graph.microsoft.com/v1.0/sites/site/drives",
      ok_page [drive_entry "drive1"; drive_entry "drive2"]);
     ("https://graph.microsoft.com/v1.0/sites/site/drives/drive1/root/children",
      ok_page [folder_entry "A"]);
     ("https://graph.microsoft.com/v1.0/sites/site/drives/drive1/root:/A:/children",
      ok_page [file_entry "a.txt"]);
     ("https://graph.microsoft.com/v1.0/sites/site/drives/drive2/root/children",
      ok_page [file_entry "b.txt"]);
     ("https://graph.microsoft.com/v1.0/drives/drive1/root/children",
      ok_page [folder_entry "A"]);
     ("https://graph.microsoft.com/v1.0/drives/drive1/items/A/children",
      ok_page [file_entry "a.txt"]);
     ("https://graph.microsoft.com/v1.0/drives/drive2/root/children",
      ok_page [file_entry "b.txt"])]
    (status_only 404).

(** A site whose drive listing answers 503. *)
Definition site_unavailable : server := always (status_only 503).

(** A site with one library whose folder [Broken] answers 500 and whose
    folder [Good] holds one file. *)
Definition site_with_broken_folder : server :=
  by_url
    [("https://graph.microsoft.com/v1.0/sites/site/drives",
      ok_page [drive_entry "drive1"]);
     ("https://graph.microsoft.com/v1.0/sites/site/drives/drive1/root/children",
      ok_page [folder_entry "Broken"; folder_entry "Good"]);
     ("https://graph.microsoft.com/v1.0/sites/site/drives/drive1/root:/Good:/children",
      ok_page [file_entry "kept.txt"])]
    (status_only 500).

(** Five documents at the root of the library [Documents], and an
    endpoint that has lost the second and the fourth. *)
Definition five_documents : list Scraper.document :=
  map (fun name => Scraper.doc_metadata (file_entry name) (Some "drive1")
                                        "Documents" EmptyString)
      ["f1.txt"; "f2.txt"; "f3.txt"; "f4.txt"; "f5.txt"].

Definition two_missing : server :=
  by_url
    [("https://graph.microsoft.com/v1.0/sites/site/drives/drive1/items/f2.txt/content",
      status_only 404);
     ("https://graph.microsoft.com/v1.0/sites/site/drives/drive1/items/f4.txt/content",
      status_only 404)]
    (ok_content "data").

(** [a.] followed by 250 times [b]: an extension of 251 characters. *)
Definition long_extension_name : string :=
  PyStr.text (PyStr.chars "a." ++ replicate 250 "b"%char).

(** 199 times [a], a space, 10 times [b]: the cut at 200 falls after the space. *)
Definition space_at_cut_name : string :=
  PyStr.text (replicate 199 "a"%char ++ PyStr.chars " " ++ replicate 10 "b"%char).

(** The descriptor as the dictionary that goes into the snapshot. *)
Definition opt_json (x : option string) : Utils.json :=
  match x with
  | Some v => Utils.JStr (Utils.str v)
  | None => Utils.JNull
  end.

Definition document_json (d : Scraper.document) : Utils.json :=
  Utils.JDict
    [("name", opt_json (Scraper.get_name d));
     ("safe_name", opt_json (Scraper.get_safe_name d));
     ("id", opt_json (Scraper.doc_id d));
     ("unique_id", opt_json (Scraper.doc_unique_id d));
     ("drive_id", opt_json (Scraper.doc_drive_id d));
     ("library", opt_json (Scraper.get_library d));
     ("path", opt_json (Scraper.get_path d));
     ("size", Utils.JInt (default 0 (Scraper.get_size d)));
     ("created", opt_json (Scraper.doc_created d));
     ("modified", opt_json (Scraper.doc_modified d));
     ("download_url", opt_json (Scraper.doc_download_url d));
     ("web_url", opt_json (Scraper.doc_web_url d));
     ("mime_type", opt_json (Scraper.get_mime_type d))].

(** The text of a snapshot file for a codec that keeps the value as it
    is: the value that was written in full, or what is left of a dump
    that stopped before the end, which no decoder accepts. *)
Inductive snapshot_text :=
| Whole (v : Utils.json)
| Cut.

(** The characters a string takes in the text [json.dump] writes with
    [ensure_ascii=False]: the quotation mark, the backslash and the
    control characters are escaped. *)
Definition escaped_length (c : N) : nat :=
  if ((c =? 34) || (c =? 92) || (c =? 8) || (c =? 9) || (c =? 10)
      || (c =? 12) || (c =? 13))%N
  then 2%nat
  else if (c <? 32)%N then 6%nat else 1%nat.

(** The number of surrogates a string begins with. *)
Fixpoint surrogate_run (s : Utils.unicode) : nat :=
  match s with
  | c :: s' => if Utils.is_surrogate c then S (surrogate_run s') else 0%nat
  | [] => 0%nat
  end.

(** The first surrogate of a string, its position in the text written
    for the string, and the number of surrogates that follow each other
    there; [position] is the position of the first character. *)
Fixpoint first_surrogate (s : Utils.unicode) (position : nat)
  : option (N * nat * nat) :=
  match s with
  | [] => None
  | c :: s' =>
      if Utils.is_surrogate c then Some (c, position, surrogate_run s)
      else first_surrogate s' (position + escaped_length c)
  end.

(** The first surrogate that [json.dump(..., indent=2)] meets. A string
    is written with one call of [write], alone when it is the value of a
    key, after a separator, a line break and the indentation when it is
    an item of a list; [level] counts the lists and dictionaries around
    the value, [before] the characters written with the string before
    its quotation mark. *)
Fixpoint find_surrogate (level before : nat) (v : Utils.json)
  : option (N * nat * nat) :=
  match v with
  | Utils.JStr s => first_surrogate s (before + 1)
  | Utils.JList l =>
      (fix items (l : list Utils.json) :=
         match l with
         | [] => None
         | x :: l' =>
             match find_surrogate (S level) (2 + 2 * S level) x with
             | Some found => Some found
             | None => items l'
             end
         end) l
  | Utils.JDict d =>
      (fix items (d : list (string * Utils.json)) :=
         match d with
         | [] => None
         | (_, x) :: d' =>
             match find_surrogate (S level) 0 x with
             | Some found => Some found
             | None => items d'
             end
         end) d
  | _ => None
  end.

Definition hex_digit (n : N) : ascii :=
  nth (N.to_nat n) (PyStr.chars "0123456789abcdef") "0"%char.

(** [str(e)] for the [UnicodeEncodeError] of the codec UTF-8. *)
Definition surrogate_message (c : N) (position run : nat) : string :=
  if (run =? 1)%nat
  then "'utf-8' codec can't encode character '\u"
       ++ PyStr.text [hex_digit (c / 4096); hex_digit (c / 256 mod 16);
                      hex_digit (c / 16 mod 16); hex_digit (c mod 16)]
       ++ "' in position " ++ pretty.pretty position ++ ": surrogates not allowed"
  else "'utf-8' codec can't encode characters in position "
       ++ pretty.pretty position ++ "-" ++ pretty.pretty (position + run - 1)%nat
       ++ ": surrogates not allowed".

(** [json.dump(..., indent=2, ensure_ascii=False)] into a file opened
    with the encoding UTF-8: the first surrogate stops the dump. *)
Definition strict_dump (v : Utils.json) : Utils.dumped snapshot_text :=
  match find_surrogate 0 0 v with
  | None => Utils.Dumped (Whole v)
  | Some (c, position, run) =>
      Utils.Broken Cut (UnicodeEncodeError (surrogate_message c position run))
  end.

Definition strict_load (t : snapshot_text) : option Utils.json :=
  match t with
  | Whole v => Some v
  | Cut => None
  end.


(** A disk on which [/sharepoint_documents.json] cannot be opened. *)
Definition read_only_disk : Utils.state snapshot_text :=
  {| Utils.files := ∅; Utils.denied := {[ "/sharepoint_documents.json" ]};
     Utils.now := "2024-01-01T00:00:00"; Utils.stdout := [] |}.


(** The descriptor of [report.pdf] with an empty [safe_name], and the
    one without the key [name], as a snapshot file may hold them. *)
Definition report_without_safe_name : Scraper.document :=
  {| Scraper.get_name := Some "report.pdf";
     Scraper.get_safe_name := Some EmptyString;
     Scraper.doc_id := Some "report.pdf";
     Scraper.doc_unique_id := Some "report.pdf";
     Scraper.doc_drive_id := Some "drive1";
     Scraper.get_library := Some "Documents";
     Scraper.get_path := Some EmptyString;
     Scraper.get_size := Some 0;
     Scraper.doc_created := None;
     Scraper.doc_modified := None;
     Scraper.doc_download_url := None;
     Scraper.doc_web_url := None;
     Scraper.get_mime_type := Some "application/pdf" |}.

Definition nameless : Scraper.document :=
  {| Scraper.get_name := None;
     Scraper.get_safe_name := Some "report.pdf";
     Scraper.doc_id := Some "report.pdf";
     Scraper.doc_unique_id := Some "report.pdf";
     Scraper.doc_drive_id := Some "drive1";
     Scraper.get_library := Some "Documents";
     Scraper.get_path := Some EmptyString;
     Scraper.get_size := Some 0;
     Scraper.doc_created := None;
     Scraper.doc_modified := None;
     Scraper.doc_download_url := None;
     Scraper.doc_web_url := None;
     Scraper.get_mime_type := Some "application/pdf" |}.

(** [report.pdf] in the library [library]. *)
Definition report_in (library : string) : Scraper.document :=
  Scraper.doc_metadata (file_entry "report.pdf") (Some "drive1") library EmptyString.

(** An application registered for the tenant [contoso], not yet authenticated. *)
Definition fresh_auth : Auth.state :=
  {| Auth.self := {| Auth.client_id := "client"; Auth.tenant_id := Some "contoso";
                     Auth.redirect_uri := "http://localhost:8080/callback";
                     Auth.access_token := None; Auth.token_response := None |};
     Auth.trace := [] |}.

(** The listener has the code [code123] from the start; the token
    endpoint answers with [r]. *)
Definition token_env (r : Auth.reply) : Auth.env :=
  {| Auth.client_secret := None;
     Auth.port_in_use := false;
     Auth.code_verifier := "verifier";
     Auth.code_challenge := "challenge";
     Auth.listener := fun _ => {| Auth.auth_code := Some "code123";
                                  Auth.auth_error := None |};
     Auth.token_endpoint := fun _ _ => Auth.Responds r |}.

Definition invalid_grant : Auth.reply :=
  {| Auth.status_code := 400;
     Auth.content_type := Some "application/json";
     Auth.body := Some {[ "error" := "invalid_grant" ]} |}.

Definition server_error : Auth.reply :=
  {| Auth.status_code := 500;
     Auth.content_type := Some "text/html";
     Auth.body := None |}.

(** A reply 502 that announces JSON and holds none. *)
Definition bad_gateway : Auth.reply :=
  {| Auth.status_code := 502;
     Auth.content_type := Some "application/json";
     Auth.body := None |}.

End Scenario.

(** ** [sharepoint_scraper/utils.py]: URLs and paths *)

Module Paths.
Import PyStr Sanitizer.

(** [s.endswith(p)] *)
Definition endswith (p s : str) : bool := prefix_of (reverse p) (reverse s).

(** [validate_url] *)
Definition validate_url (url : string) : bool :=
  match chars url with
  | [] => false
  | _ =>
      let url := lower (chars url) in
      startswith (chars "https://") url
      && contains (chars "sharepoint.com") url
      && negb (endswith (chars "/") url)
  end.

Definition unknown : str := chars "unknown".

(** The test [component and component not in ['.', '..']] of
    [sanitize_path]. *)
Definition kept (component : str) : bool :=
  negb (bool_decide (component = []))
  && negb (bool_decide (component ∈ [chars "."; chars ".."])).

(** [component[:100]] when [len(component) > 100]. *)
Definition limit (component : str) : str :=
  if 100 <? len component then slice_to 100 component else component.

(** [sanitize_path]. Its first statements are those of the filename
    sanitizer, with the same [invalid_chars] (the separator [/] among
    them): [Sanitizer.stripped] is the value of [sanitized] after the
    [strip('. ')] statement. *)
Definition sanitize_path_chars (path : str) : str :=
  match path with
  | [] => unknown
  | _ =>
      let sanitized := stripped path in
      let components := split "/"%char sanitized in
      let sanitized_components := map limit (List.filter kept components) in
      match sanitized_components with
      | [] => unknown
      | _ => join (chars "/") sanitized_components
      end
  end.

Definition sanitize_path (path : string) : string :=
  text (sanitize_path_chars (chars path)).

End Paths.

(** ** [sharepoint_scraper/utils.py]: the summary of a document list *)

Module Summary.
Import PyStr.
Local Open Scope string_scope.

(** The dictionary [{'count': ..., 'size': ...}] kept for a library. *)
Record library_stats := {
  count : Z;
  size : Z
}.

(** The dictionary [summarize_documents] returns; the key
    [total_size_formatted] is absent for an empty list. *)
Record summary := {
  total : Z;
  libraries : gmap string library_stats;
  total_size : Z;
  total_size_formatted : option string;
  file_types : gmap string Z
}.

(** [doc.get('library', 'Unknown')], [doc.get('size', 0)] and
    [doc.get('name', '')] *)
Definition library_of (doc : Scraper.document) : string :=
  default "Unknown" (Scraper.get_library doc).

Definition size_of (doc : Scraper.document) : Z :=
  default 0 (Scraper.get_size doc).

Definition name_of (doc : Scraper.document) : string :=
  default EmptyString (Scraper.get_name doc).

(** The statements of the loop body that update [libraries]. *)
Definition count_in_library (doc : Scraper.document)
    (libraries : gmap string library_stats) : gmap string library_stats :=
  let library := library_of doc in
  let libraries :=
    match libraries !! library with
    | None => <[library := {| count := 0; size := 0 |}]> libraries
    | Some _ => libraries
    end in
  let libraries :=
    alter (fun stats => {| count := count stats + 1; size := size stats |})
          library libraries in
  alter (fun stats => {| count := count stats;
                         size := size stats + size_of doc |})
        library libraries.

(** The extension under which a name is counted: [None] when the name
    has no dot. *)
Definition extension (name : string) : option string :=
  if contains ["."%char] (chars name)
  then Some (text (lower (last_piece ["."%char] (chars name))))
  else None.

(** The statements of the loop body that update [file_types]. *)
Definition count_file_type (doc : Scraper.document)
    (file_types : gmap string Z) : gmap string Z :=
  match extension (name_of doc) with
  | Some ext => <[ext := default 0 (file_types !! ext) + 1]> file_types
  | None => file_types
  end.

(** The loop [for doc in documents] over the three accumulators. *)
Definition summarize_loop (documents : list Scraper.document)
    (acc : gmap string library_stats * Z * gmap string Z)
  : gmap string library_stats * Z * gmap string Z :=
  fold_left
    (fun '(libraries, total_size, file_types) doc =>
       (count_in_library doc libraries,
        total_size + size_of doc,
        count_file_type doc file_types))
    documents acc.

Definition size_names : list string := ["B"; "KB"; "MB"; "GB"; "TB"].

(** [l[i]] for a list: a negative index counts from the end. *)
Definition list_getitem {A} (l : list A) (i : Z) : Py.result A :=
  let n := Z.of_nat (length l) in
  let j := if (i <? 0)%Z then (i + n)%Z else i in
  match (if (0 <=? j)%Z && (j <? n)%Z then l !! Z.to_nat j else None) with
  | Some x => Py.Return x
  | None => Py.Raise (Py.IndexError "list index out of range")
  end.

Section Summarize.

(** The floating-point steps of [format_file_size]. For a positive
    [n], [log_floor n] is [int(math.floor(math.log(n, 1024)))];
    [scaled n i] is the text of [round(n / math.pow(1024, i), 2)], or
    the error that [math.pow] or the division raises. *)
Variable log_floor : Z -> Z.
Variable scaled : Z -> Z -> Py.result string.

(** [format_file_size] *)
Definition format_file_size (size_bytes : Z) : Py.result string :=
  if (size_bytes =? 0)%Z then Py.Return "0 B"
  else if (size_bytes <? 0)%Z then Py.Raise (Py.ValueError "math domain error")
  else
    let i := log_floor size_bytes in
    match scaled size_bytes i with
    | Py.Raise e => Py.Raise e
    | Py.Return s =>
        match list_getitem size_names i with
        | Py.Raise e => Py.Raise e
        | Py.Return size_name => Py.Return (s ++ " " ++ size_name)
        end
    end.

(** [summarize_documents]; it raises what [format_file_size] raises. *)
Definition summarize_documents (documents : list Scraper.document)
  : Py.result summary :=
  match documents with
  | [] => Py.Return {| total := 0; libraries := ∅; total_size := 0;
                       total_size_formatted := None; file_types := ∅ |}
  | _ =>
      let '(libraries, total_size, file_types) :=
        summarize_loop documents (∅, 0, ∅) in
      match format_file_size total_size with
      | Py.Raise e => Py.Raise e
      | Py.Return formatted =>
          Py.Return {| total := Z.of_nat (length documents);
                       libraries := libraries;
                       total_size := total_size;
                       total_size_formatted := Some formatted;
                       file_types := file_types |}
      end
  end.

End Summarize.

(** The documents of a library, the sum of the sizes of a list of
    documents, and the documents counted under an extension. *)
Definition in_library (library : string) (documents : list Scraper.document)
  : list Scraper.document :=
  List.filter (fun d => bool_decide (library_of d = library)) documents.

Definition sizes (documents : list Scraper.document) : Z :=
  foldr (fun d n => size_of d + n) 0 documents.

Definition with_extension (ext : string) (documents : list Scraper.document)
  : list Scraper.document :=
  List.filter (fun d => bool_decide (extension (name_of d) = Some ext))
              documents.

End Summary.

(** ** [sharepoint_scraper/scraper.py]: the connection to the site and the ingestion *)

Module Site.
Import Py Graph Run.
Local Open Scope py_scope.
Local Open Scope string_scope.

(** [s.replace(old, new)] for a non-empty [old]: the occurrences are
    taken from the left and do not overlap; [skip] counts the characters
    of an occurrence still to pass. *)
Fixpoint replace_from (old new : PyStr.str) (skip : nat) (s : PyStr.str)
  : PyStr.str :=
  match s with
  | [] => []
  | c :: s' =>
      match skip with
      | S k => replace_from old new k s'
      | O =>
          if PyStr.prefix_of old s
          then (new ++ replace_from old new (length old - 1) s')%list
          else c :: replace_from old new 0 s'
      end
  end.

Definition str_replace (old new s : PyStr.str) : PyStr.str :=
  replace_from old new 0 s.

(** The attributes of [self]: [self.site_url], [self.site_id], the token
    of [self.auth] and [self.bedrock]. A configured integration is given
    by its method [ingest_document(file_path, document_id, title)], which
    is [Some e] where the call raises [e]. *)
Record scraper := {
  site_url : string;
  site_id : option string;
  access_token : option string;
  bedrock : option (string -> option string -> option string -> option exn)
}.

(** The part of [self] that the enumeration and the download read. *)
Definition core (self : scraper) : Scraper.scraper :=
  {| Scraper.site_id := site_id self; Scraper.access_token := access_token self |}.

(** [self.site_id = id] *)
Definition set_site_id (self : scraper) (id : string) : scraper :=
  {| site_url := site_url self; site_id := Some id;
     access_token := access_token self; bedrock := bedrock self |}.

Abbreviation state := Scraper.state.

(** The URL [api_url] of the site lookup, from [self.site_url]. *)
Definition api_url (self : scraper) : M state string :=
  if PyStr.contains (PyStr.chars "sharepoint.com") (PyStr.chars (site_url self))
  then
    let url_parts :=
      PyStr.split "/"%char
        (str_replace (PyStr.chars "https://") [] (PyStr.chars (site_url self))) in
    let hostname := PyStr.text (List.hd [] url_parts) in
    let site_path :=
      if (1 <? Z.of_nat (length url_parts))%Z
      then PyStr.text (PyStr.join ["/"%char] (List.tl url_parts))
      else EmptyString in
    let site_url_encoded :=
      if negb (bool_decide (site_path = EmptyString))
      then hostname ++ ":/" ++ site_path
      else hostname in
    ret (graph ++ "/sites/" ++ site_url_encoded)
  else raise (ConfigurationError "Unsupported SharePoint URL format").

Definition max_retries : Z := 3.

Section Connection.

(** [response.json()] for the reply to a site lookup: the members of
    the decoded object that are strings, [None] where the call raises
    (a body that decodes to something else than an object is not
    modelled). [json_error] is the exception raised then: a [ValueError]
    with the older releases of [requests], one of the
    [requests.RequestException] since. *)
Variable json_object : response -> option (gmap string string).
Variable json_error : exn.

Definition response_object (r : response) : M state (gmap string string) :=
  match json_object r with
  | Some data => ret data
  | None => raise json_error
  end.

(** One turn of the loop [for attempt in range(max_retries)] of
    [_setup_site_connection]: [Some (True, self)] when the turn ends in
    [return True], [None] when the loop goes on. *)
Definition connection_attempt (srv : server) (self : scraper)
    (api_url : string) (headers : gmap string string) (attempt : Z)
  : M state (option (bool * scraper)) :=
  try_except
    (response <- requests_get srv {| url := api_url; headers := headers |} ;;
     if Z.eqb (status_code response) 200
     then
       site_data <- response_object response ;;
       match site_data !! "id" with
       | None => raise (KeyError "id")
       | Some id =>
           logger INFO ("Connected to SharePoint site: "
                        ++ default "Unknown" (site_data !! "displayName")) ;;;
           ret (Some (true, set_site_id self id))
       end
     else if Z.eqb (status_code response) 404
     then raise (SharePointError
                   "SharePoint site not found. Check the URL and permissions.")
     else if Z.eqb (status_code response) 403
     then raise (SharePointError "Access denied. Check user permissions.")
     else
       response_object response ;;;
       raise (APIError ("API error: " ++ str_of_int (status_code response))))
    (fun e =>
       if is_RequestException e
       then
         if Z.eqb attempt (max_retries - 1)
         then raise (SharePointError ("Connection failed after "
                                      ++ str_of_int max_retries
                                      ++ " attempts: " ++ exn_str e))
         else
           logger WARNING ("Connection attempt " ++ str_of_int (attempt + 1)
                           ++ " failed, retrying...") ;;;
           time_sleep (2 ^ attempt) ;;;
           ret None
       else raise e).

(** [SharePointScraper._setup_site_connection]; the second component of
    the result is [self] after the call. *)
Definition _setup_site_connection (srv : server) (self : scraper)
  : M state (bool * scraper) :=
  try_except
    (headers <- Scraper.get_auth_headers (core self) ;;
     api_url <- api_url self ;;
     r <- for_return (range max_retries)
            (connection_attempt srv self api_url headers) ;;
     match r with
     | Some v => ret v
     | None => ret (false, self)
     end)
    (fun e =>
       logger ERROR ("Site connection setup failed: " ++ exn_str e) ;;;
       ret (false, self)).

(** [SharePointScraper.__init__] for a given [auth], of which
    [auth_token] is the token; the result is the object built. *)
Definition __init__ (srv : server) (site_url : string)
    (auth_token : option string)
    (bedrock : option (string -> option string -> option string -> option exn))
  : M state scraper :=
  let self :=
    {| site_url := PyStr.text (PyStr.rstrip ["/"%char] (PyStr.chars site_url));
       site_id := None; access_token := auth_token; bedrock := bedrock |} in
  if bool_decide (Site.site_url self = EmptyString)
     || negb (PyStr.contains (PyStr.chars "sharepoint.com")
                             (PyStr.chars (Site.site_url self)))
  then raise (ConfigurationError "Invalid SharePoint site URL")
  else
    logger INFO ("Initialized SharePoint scraper for: " ++ Site.site_url self) ;;;
    if Scraper.is_authenticated (core self)
    then r <- _setup_site_connection srv self ;; ret r.2
    else ret self.

(** [SharePointScraper.get_site_info] *)
Definition get_site_info (srv : server) (self : scraper)
  : M state (gmap string string) :=
  if negb (Scraper.is_authenticated (core self)) || falsy (site_id self)
  then raise (SharePointError "Not connected. Call authenticate() first.")
  else
    try_except
      (headers <- Scraper.get_auth_headers (core self) ;;
       response <- requests_get srv
                     {| url := graph ++ "/sites/" ++ fmt (site_id self);
                        headers := headers |} ;;
       if Z.eqb (status_code response) 200
       then response_object response
       else raise (APIError ("Failed to get site info: "
                             ++ str_of_int (status_code response))))
      (fun e =>
         logger ERROR ("Error getting site info: " ++ exn_str e) ;;;
         raise (SharePointError ("Failed to get site info: " ++ exn_str e))).

End Connection.

(** [SharePointScraper.test_connection] *)
Definition test_connection (srv : server) (self : scraper) : M state bool :=
  try_except
    (if negb (Scraper.is_authenticated (core self))
     then logger ERROR "Not authenticated. Call authenticate() first." ;;;
          ret false
     else if falsy (site_id self)
     then logger ERROR "Site connection not established." ;;;
          ret false
     else
       logger INFO "Testing SharePoint connection..." ;;;
       headers <- Scraper.get_auth_headers (core self) ;;
       response <- requests_get srv
                     {| url := graph ++ "/sites/" ++ fmt (site_id self);
                        headers := headers |} ;;
       if negb (Z.eqb (status_code response) 200)
       then logger ERROR ("Site access test failed: "
                          ++ str_of_int (status_code response)) ;;;
            ret false
       else
         response <- requests_get srv
                       {| url := Scraper.drives_url (core self);
                          headers := headers |} ;;
         if negb (Z.eqb (status_code response) 200)
         then logger ERROR ("Document library access test failed: "
                            ++ str_of_int (status_code response)) ;;;
              ret false
         else
           data <- response_json response ;;
           logger INFO ("Found " ++ str_of_int (Z.of_nat (length (value data)))
                        ++ " document libraries") ;;;
           ret true)
    (fun e =>
       logger ERROR ("Connection test failed: " ++ exn_str e) ;;;
       ret false).

(** [SharePointScraper.download_and_ingest_document]; the log lines
    read [document['name']], the one of the handler too. *)
Definition download_and_ingest_document (srv : server) (self : scraper)
    (document : Scraper.document) (download_path : string) : M state bool :=
  match bedrock self with
  | None => raise (ConfigurationError "Bedrock integration not configured")
  | Some ingest_document =>
      try_except
        (file_path <- Scraper.download_document srv (core self) document
                                                download_path ;;
         match file_path with
         | None => ret false
         | Some p =>
             if bool_decide (p = EmptyString) then ret false
             else
               match ingest_document p (Scraper.doc_id document)
                                     (Scraper.get_name document) with
               | Some e => raise e
               | None =>
                   name <- getitem "name" (Scraper.get_name document) ;;
                   logger INFO ("Successfully ingested document: " ++ name) ;;;
                   ret true
               end
         end)
        (fun e =>
           name <- getitem "name" (Scraper.get_name document) ;;
           logger ERROR ("Error downloading and ingesting "
                         ++ name ++ ": " ++ exn_str e) ;;;
           ret false)
  end.

(** The loop of [bulk_download_and_ingest] over [enumerate(documents)]
    from index [i], as [Scraper.bulk_download_loop]. *)
Fixpoint bulk_download_and_ingest_loop (srv : server) (self : scraper)
    (download_path : string) (progress_callback : bool) (total : Z)
    (i : Z) (docs : list Scraper.document)
    (results : gmap string bool) (calls : list (Z * Z))
  : M state (gmap string bool * list (Z * Z)) :=
  match docs with
  | [] => ret (results, calls)
  | document :: rest =>
      let doc_name := Scraper.doc_name document in
      results' <-
        try_except
          (success <- download_and_ingest_document srv self document
                                                   download_path ;;
           ret (<[doc_name := success]> results))
          (fun e =>
             logger ERROR ("Error processing " ++ doc_name ++ ": " ++ exn_str e) ;;;
             ret (<[doc_name := false]> results)) ;;
      let calls' :=
        if progress_callback then (calls ++ [(i + 1, total)])%list else calls in
      bulk_download_and_ingest_loop srv self download_path progress_callback
                                    total (i + 1) rest results' calls'
  end.

(** [SharePointScraper.bulk_download_and_ingest]; the second component
    of the result lists the calls of [progress_callback]. *)
Definition bulk_download_and_ingest (srv : server) (self : scraper)
    (documents : list Scraper.document) (download_path : string)
    (progress_callback : bool)
  : M state (gmap string bool * list (Z * Z)) :=
  match bedrock self with
  | None => raise (ConfigurationError "Bedrock integration not configured")
  | Some _ =>
      bulk_download_and_ingest_loop srv self download_path progress_callback
                                    (Z.of_nat (length documents)) 0 documents ∅ []
  end.

End Site.

(** ** [sharepoint_scraper/auth.py]: class [AuthCallbackHandler] *)

Module Callback.
Import PyStr.
Local Open Scope string_scope.

(** What the handler sends back: the page of [_send_success_response]
    with status 200, the page of [_send_error_response] with status 400,
    the bare status 404, or nothing at all. *)
Inductive answer :=
| SuccessPage
| ErrorPage
| NotFound
| NoReply.

Section Handler.

(** [urllib.parse.parse_qs(query)]: the keys of the query, each with its
    first value and the values that follow it. *)
Variable parse_qs : string -> gmap string (string * list string).

(** [AuthCallbackHandler.do_GET] for the request path [path]: the
    attributes [auth_code] and [auth_error] of [self.server] after the
    call, and what is sent back. *)
Definition do_GET (path : string) (server : Auth.callback)
  : Auth.callback * answer :=
  if contains ["?"%char] (chars path)
  then
    let query_params :=
      parse_qs (text (nth 1 (split "?"%char (chars path)) [])) in
    match query_params !! "code" with
    | Some (code, _) =>
        ({| Auth.auth_code := Some code;
            Auth.auth_error := Auth.auth_error server |}, SuccessPage)
    | None =>
        match query_params !! "error" with
        | Some _ =>
            ({| Auth.auth_code := Auth.auth_code server;
                Auth.auth_error :=
                  Some (match query_params !! "error_description" with
                        | Some (description, _) => description
                        | None => "Unknown error"
                        end) |}, ErrorPage)
        | None => (server, NoReply)
        end
    end
  else (server, NotFound).

(** The listener after the requests for [paths], in that order. *)
Definition serve (paths : list string) (server : Auth.callback) : Auth.callback :=
  fold_left (fun server path => (do_GET path server).1) paths server.

End Handler.

End Callback.

(** ** What a run adds to the trace and to the documents *)

Module Observe.
Import Py Graph Run.
Local Open Scope string_scope.

(** A computation that only adds events that satisfy [P] to the trace
    and documents that satisfy [Q] to the list [documents]. *)
Definition extends (P : event -> Prop) (Q : Scraper.document -> Prop)
    {A : Type} (m : M Scraper.state A) : Prop :=
  forall s, exists evs docs,
    trace (m s).2 = (trace s ++ evs)%list /\ Forall P evs
    /\ documents (m s).2 = (documents s ++ docs)%list /\ Forall Q docs.

(** A step of the enumeration as [self] is allowed to make it: a request
    carries the token of [self], and there is no pause. *)
Definition authorized (self : Scraper.scraper) (e : event) : Prop :=
  match e with
  | Get req =>
      headers req !! "Authorization"
      = Some ("Bearer " ++ fmt (Scraper.access_token self))
  | Sleep _ => False
  | Log _ _ => True
  end.

(** A descriptor as the enumeration builds it for the library
    [library_name] of the drive [drive_id]. *)
Definition described (drive_id : option string) (library_name : string)
    (d : Scraper.document) : Prop :=
  Scraper.doc_drive_id d = drive_id
  /\ Scraper.get_library d = Some library_name
  /\ Scraper.doc_unique_id d = Scraper.doc_id d
  /\ Scraper.get_name d = Some (Scraper.doc_name d)
  /\ Scraper.get_safe_name d
     = Some (Scraper._sanitize_filename (Scraper.doc_name d)).

(** A descriptor whose [safe_name] can name a file: it is not empty and
    holds none of the characters the sanitizer replaces. *)
Definition safely_named (d : Scraper.document) : Prop :=
  ∃ safe_name,
    Scraper.get_name d = Some (Scraper.doc_name d)
    /\ Scraper.get_safe_name d = Some safe_name
    /\ safe_name = Scraper._sanitize_filename (Scraper.doc_name d)
    /\ (0 < String.length safe_name)%nat
    /\ Forall (fun c => c ∉ Sanitizer.invalid_chars) (PyStr.chars safe_name).

(** A computation that, when it returns, returns the list [documents]
    of the state it ends in. *)
Definition returns_documents {D : Type} (m : M (Run.state D) (list D))
  : Prop :=
  forall s,
    match m s with
    | (Return docs, s') => docs = documents s'
    | (Raise _, _) => True
    end.

(** A computation that raises nothing but a [SharePointError] proper. *)
Definition raises_SharePointError {A : Type} (m : M Scraper.state A) : Prop :=
  forall s,
    match (m s).1 with
    | Return _ => True
    | Raise e => exists msg, e = SharePointError msg
    end.

(** Whether a turn of the retry loop of [download_document] gets as
    far as its request: a URL that is not pre-signed needs the headers
    of an authenticated [self]. *)
Definition sends (self : Scraper.scraper) (download_url : string) : bool :=
  PyStr.contains (PyStr.chars "@microsoft.graph.downloadUrl")
                 (PyStr.chars download_url)
  || negb (falsy (Scraper.access_token self)).

(** A step of a download as [self] is allowed to make it: a request for
    a pre-signed URL carries no header, any other request the token of
    [self] and the [Accept] header of a download. *)
Definition discreet (self : Scraper.scraper) (e : event) : Prop :=
  match e with
  | Get req =>
      if PyStr.contains (PyStr.chars "@microsoft.graph.downloadUrl")
                        (PyStr.chars (url req))
      then headers req = ∅
      else headers req !! "Authorization"
           = Some ("Bearer " ++ fmt (Scraper.access_token self))
           /\ headers req !! "Accept" = Some "application/octet-stream"
  | _ => True
  end.

(** The attempts of a download follow one schedule: up to three requests
    for the same URL, a pause of one second after the first and of two
    seconds after the second, none after the last one made. *)
Definition backoff_schedule (download_url : string) : list step :=
  [Request download_url; Pause 1000; Request download_url; Pause 2000;
   Request download_url].

(** What a run of the script's download adds to the trace: [n] requests
    and at most as many pauses, all of two seconds. *)
Definition paced (n : nat) (evs : list event) : Prop :=
  length (requests_of evs) = n
  /\ (length (pauses_of evs) <= n)%nat
  /\ Forall (fun e => e = Sleep 2000) (pauses_of evs).

End Observe.

(** ** What an authentication adds to its trace *)

Module Flow.
Import Py Auth.

Definition is_Waited (e : event) : bool :=
  match e with Waited => true | _ => false end.

Definition is_Post (e : event) : bool :=
  match e with Post _ _ => true | _ => false end.

Definition is_ListenerStarted (e : event) : bool :=
  match e with ListenerStarted => true | _ => false end.

Definition is_ListenerShutdown (e : event) : bool :=
  match e with ListenerShutdown => true | _ => false end.

(** A line of the log. *)
Definition is_Log (e : event) : bool :=
  match e with
  | LogInfo _ | LogError _ | LogTokenExchangeFailed _ _ => true
  | _ => false
  end.

(** The number of events of a trace that satisfy [p]. *)
Definition count (p : event -> bool) (evs : list event) : nat :=
  length (List.filter p evs).

(** The record of a listener that has received nothing yet. *)
Definition silent (cb : callback) : Prop :=
  auth_code cb = None /\ auth_error cb = None.

(** Whether the reply announces JSON in its [content-type] header. *)
Definition announces_json (r : reply) : bool :=
  PyStr.prefix_of (PyStr.chars "application/json")
                  (PyStr.chars (default EmptyString (content_type r))).

(** What a line of the error log tells about a reply: the status with
    the decoded body when the reply announces JSON and its body can be
    decoded, the status with an empty dictionary when it announces
    something else, and the message of the decoder, without the status,
    when it announces JSON and its body cannot be decoded. *)
Definition reports (r : reply) (line : event) : Prop :=
  if announces_json r
  then match body r with
       | Some error_data =>
           line = LogTokenExchangeFailed (status_code r) error_data
       | None => exists msg, line = LogError ("Token exchange error: " ++ msg)
       end
  else line = LogTokenExchangeFailed (status_code r) ∅.

End Flow.

(** ** More concrete sites and objects *)

Module Examples.
Import Py Graph Run.
Local Open Scope string_scope.

(** A scraper for the site [team] of the tenant [contoso], with a token
    and without the Bedrock integration. *)
Definition contoso : Site.scraper :=
  {| Site.site_url := "https://contoso.sharepoint.com/sites/team";
     Site.site_id := None;
     Site.access_token := Some "token";
     Site.bedrock := None |}.

(** [response.json()] where no reply has a body that decodes, with the
    exception of the older releases of [requests]. *)
Definition no_json (r : response) : option (gmap string string) := None.

Definition json_decode_error : exn := ValueError "Expecting value".

(** A listener that receives nothing, one that has a code and an error
    from the start, and a token endpoint that is never reached. *)
Definition unanswered : Auth.env :=
  {| Auth.client_secret := None;
     Auth.port_in_use := false;
     Auth.code_verifier := "verifier";
     Auth.code_challenge := "challenge";
     Auth.listener := fun _ => {| Auth.auth_code := None; Auth.auth_error := None |};
     Auth.token_endpoint := fun _ _ => Auth.Fails "unreachable" |}.

Definition refused : Auth.env :=
  {| Auth.client_secret := None;
     Auth.port_in_use := false;
     Auth.code_verifier := "verifier";
     Auth.code_challenge := "challenge";
     Auth.listener := fun _ => {| Auth.auth_code := Some "code123";
                                  Auth.auth_error := Some "access_denied" |};
     Auth.token_endpoint := fun _ _ => Auth.Fails "unreachable" |}.

(** The reply 200 that grants the token [token123]. *)
Definition granted : Auth.reply :=
  {| Auth.status_code := 200;
     Auth.content_type := Some "application/json";
     Auth.body := Some {[ "access_token" := "token123" ]} |}.

End Examples.

(** * Properties *)

(** ** The filename sanitizer *)

Section SanitizerFacts.
Import PyStr Sanitizer.

(** The two examples of the sanitizer's contract. *)
Example sanitize_empty : _sanitize_filename EmptyString = "unknown_file".
Proof. reflexivity. Qed.

Example sanitize_separators : _sanitize_filename "a/b:c" = "a_b_c".
Proof. reflexivity. Qed.

(** *** Stripping *)

(** What [lstrip], [rstrip] and [strip] return is a part of their
    argument that neither begins nor ends with a stripped character, so
    that stripping twice changes nothing. *)
Lemma lstrip_elem cs s c : c ∈ lstrip cs s → c ∈ s.
Proof.
  induction s as [|a s IH]; simpl; [done|].
  case_decide; [|done]. intros Hc. right. by apply IH.
Qed.

Lemma lstrip_head cs s c s' : lstrip cs s = c :: s' → c ∉ cs.
Proof.
  induction s as [|a s IH]; simpl; [done|].
  case_decide; [done|]. by intros [= <- _].
Qed.

Lemma lstrip_fixed cs c s : c ∉ cs → lstrip cs (c :: s) = c :: s.
Proof. intros Hc. simpl. by case_decide. Qed.

Lemma lstrip_idem cs s : lstrip cs (lstrip cs s) = lstrip cs s.
Proof.
  destruct (lstrip cs s) as [|c s'] eqn:E; [done|].
  apply lstrip_fixed. by eapply lstrip_head.
Qed.

Lemma lstrip_app_keep cs l h r :
  h ∉ cs → lstrip cs (l ++ h :: r) = lstrip cs l ++ h :: r.
Proof.
  intros Hh. induction l as [|a l IH]; simpl.
  - by case_decide.
  - by case_decide.
Qed.

Lemma rstrip_cons_keep cs h t : h ∉ cs → rstrip cs (h :: t) = h :: rstrip cs t.
Proof.
  intros Hh. unfold rstrip. rewrite reverse_cons.
  rewrite (lstrip_app_keep cs (reverse t) h []) by done.
  by rewrite reverse_app.
Qed.

Lemma rstrip_idem cs s : rstrip cs (rstrip cs s) = rstrip cs s.
Proof. unfold rstrip. by rewrite reverse_involutive, lstrip_idem. Qed.

Lemma rstrip_elem cs s c : c ∈ rstrip cs s → c ∈ s.
Proof.
  unfold rstrip. rewrite elem_of_reverse. intros Hc%lstrip_elem.
  by apply elem_of_reverse.
Qed.

Lemma strip_elem cs s c : c ∈ strip cs s → c ∈ s.
Proof. unfold strip. intros Hc%rstrip_elem. by eapply lstrip_elem. Qed.

Lemma strip_idem cs s : strip cs (strip cs s) = strip cs s.
Proof.
  unfold strip. destruct (lstrip cs s) as [|c t] eqn:E.
  - done.
  - assert (Hc : c ∉ cs) by (by eapply lstrip_head).
    rewrite rstrip_cons_keep by done.
    rewrite lstrip_fixed by done.
    by rewrite <- rstrip_cons_keep, rstrip_idem by done.
Qed.

(** *** Replacing *)

Lemma text_length l : String.length (text l) = length l.
Proof. induction l as [|a l IH]; simpl; [done|]. by rewrite IH. Qed.

Lemma chars_text l : chars (text l) = l.
Proof. apply list_ascii_of_string_of_list_ascii. Qed.

Lemma replace_notin old new s : old ∉ s → replace old new s = s.
Proof.
  induction s as [|a s IH]; simpl; [done|].
  intros Hs. apply not_elem_of_cons in Hs as [Ha Hs].
  case_decide; [congruence|]. by rewrite IH.
Qed.

Lemma replace_fold_map (cs : str) (new : ascii) (s : str) :
  new ∉ cs →
  fold_left (fun sanitized char => replace char new sanitized) cs s
  = map (fun c => if decide (c ∈ cs) then new else c) s.
Proof.
  intros Hnew. revert s. induction cs as [|a cs IH]; intros s; cbn [fold_left].
  - rewrite <- (map_id s) at 1. apply map_ext. intros c.
    destruct (decide (c ∈ [])) as [Hc|Hc]; [by apply elem_of_nil in Hc|done].
  - apply not_elem_of_cons in Hnew as [Hna Hncs].
    rewrite IH by done. unfold replace. rewrite map_map.
    apply map_ext. intros c.
    destruct (decide (c = a)) as [->|Hca].
    + destruct (decide (new ∈ cs)); [done|].
      destruct (decide (a ∈ a :: cs)) as [|Hn]; [done|].
      exfalso. apply Hn. left.
    + destruct (decide (c ∈ cs)) as [Hin|Hin];
        destruct (decide (c ∈ a :: cs)) as [Hin'|Hin']; try done.
      * exfalso. apply Hin'. by right.
      * exfalso. apply elem_of_cons in Hin' as [?|?]; done.
Qed.

(** The loop over [invalid_chars] maps every reserved character to the
    underscore, which is not reserved, and leaves the others. *)
Lemma underscore_valid : "_"%char ∉ invalid_chars.
Proof. apply (bool_decide_unpack _). by vm_compute. Qed.

Lemma replace_invalid_map s :
  replace_invalid s
  = map (fun c => if decide (c ∈ invalid_chars) then "_"%char else c) s.
Proof. apply replace_fold_map, underscore_valid. Qed.

Lemma replace_invalid_valid s c : c ∈ invalid_chars → c ∉ replace_invalid s.
Proof.
  intros Hc. rewrite replace_invalid_map. intros Hin.
  apply list_elem_of_fmap in Hin as (x & Hx & _).
  destruct (decide (x ∈ invalid_chars)); subst.
  - by apply underscore_valid.
  - done.
Qed.

Lemma replace_invalid_fixed s :
  (∀ c, c ∈ invalid_chars → c ∉ s) → replace_invalid s = s.
Proof.
  intros Hs. rewrite replace_invalid_map. rewrite <- (map_id s) at 2.
  apply map_ext_in. intros c Hc%list_elem_of_In.
  destruct (decide (c ∈ invalid_chars)) as [Hi|]; [|done].
  by destruct (Hs c Hi).
Qed.

Lemma stripped_valid s c : c ∈ invalid_chars → c ∉ stripped s.
Proof.
  intros Hc Hin. apply strip_elem in Hin. by eapply replace_invalid_valid.
Qed.

Lemma stripped_fixed s : stripped (stripped s) = stripped s.
Proof.
  unfold stripped at 1. rewrite replace_invalid_fixed.
  - apply strip_idem.
  - intros c Hc. by apply stripped_valid.
Qed.

(** *** Names that are not cut *)

Lemma unknown_file_fixed : sanitize_chars unknown_file = unknown_file.
Proof. by vm_compute. Qed.

Lemma sanitize_chars_short (s : str) :
  len (stripped s) <= 200 →
  sanitize_chars s = unknown_file
  ∨ (sanitize_chars s = stripped s ∧ stripped s ≠ []).
Proof.
  intros Hlen. unfold sanitize_chars.
  destruct s as [|a s]; [by left|].
  destruct (stripped (a :: s)) as [|b t] eqn:E; [by left|].
  right. destruct (200 <? len (b :: t)) eqn:Hlt; [lia|done].
Qed.

Lemma sanitize_chars_stripped (s : str) :
  stripped s ≠ [] → len (stripped s) <= 200 →
  sanitize_chars (stripped s) = stripped s.
Proof.
  intros Hne Hlen. unfold sanitize_chars.
  rewrite stripped_fixed.
  destruct (stripped s) as [|b t] eqn:E; [done|].
  destruct (200 <? len (b :: t)) eqn:Hlt; [lia|done].
Qed.

(** The fixed points of the sanitizer: a non-empty name of at most 200
    characters, without reserved character and without a dot or a space
    at either end, is returned as it is. *)
Lemma sanitize_chars_fixed (y : str) :
  y ≠ [] → (∀ c, c ∈ invalid_chars → c ∉ y) → strip (chars ". ") y = y →
  len y <= 200 → sanitize_chars y = y.
Proof.
  intros Hne Hvalid Hstrip Hlen. unfold sanitize_chars, stripped.
  rewrite replace_invalid_fixed, Hstrip by done.
  destruct y as [|b t]; [done|].
  destruct (200 <? len (b :: t)) eqn:Hlt; [lia|done].
Qed.

Lemma sanitize_chars_idem (s : str) :
  len (stripped s) <= 200 → sanitize_chars (sanitize_chars s) = sanitize_chars s.
Proof.
  intros Hlen.
  destruct (sanitize_chars_short s Hlen) as [->|[-> Hne]].
  - apply unknown_file_fixed.
  - by apply sanitize_chars_stripped.
Qed.

(** *** Names that are cut *)

Lemma rfind_from_ge c s i acc : -1 <= acc → 0 <= i → -1 <= rfind_from c s i acc.
Proof.
  revert i acc. induction s as [|x s IH]; intros i acc Hacc Hi; simpl; [done|].
  apply IH; [|lia]. case_decide; lia.
Qed.

(** [os.path.splitext] splits its argument in two. *)
Lemma splitext_app p : (splitext p).1 ++ (splitext p).2 = p.
Proof.
  unfold splitext.
  destruct (_ && _) eqn:E; simpl; [|by rewrite app_nil_r].
  apply andb_prop in E as [E _]. apply Z.ltb_lt in E.
  assert (-1 <= rfind "/" p) by (by apply rfind_from_ge).
  unfold slice_to, slice_from.
  destruct (0 <=? rfind "." p) eqn:E0; [|lia].
  apply take_drop.
Qed.

Lemma slice_to_elem k (s : str) c : c ∈ slice_to k s → c ∈ s.
Proof.
  unfold slice_to.
  destruct (0 <=? k); intros (i & Hi & _)%elem_of_take; by eapply list_elem_of_lookup_2.
Qed.

Lemma truncate_elem s c : c ∈ truncate s → c ∈ s.
Proof.
  unfold truncate. pose proof (splitext_app s) as Happ.
  destruct (splitext s) as [name ext]. simpl in Happ.
  rewrite <- Happ. rewrite !elem_of_app.
  intros [Hc%slice_to_elem|Hc]; auto.
Qed.

(** The cut leaves 200 characters when the extension has at most 200,
    and at least the whole extension otherwise. *)
Lemma truncate_length s :
  200 < len s → len (splitext s).2 <= 200 → len (truncate s) = 200.
Proof.
  unfold truncate, len. pose proof (splitext_app s) as Happ.
  destruct (splitext s) as [name ext]. simpl in *.
  intros Hs Hext. rewrite <- Happ, length_app in Hs.
  rewrite length_app. unfold slice_to, len.
  destruct (0 <=? 200 - Z.of_nat (length ext)) eqn:E; [|lia].
  rewrite length_take. lia.
Qed.

Lemma truncate_length_long_ext s :
  200 < len (splitext s).2 → len (splitext s).2 <= len (truncate s).
Proof.
  unfold truncate, len. destruct (splitext s) as [name ext]. simpl.
  rewrite length_app. lia.
Qed.

Lemma sanitize_chars_valid s c : c ∈ invalid_chars → c ∉ sanitize_chars s.
Proof.
  intros Hc. unfold sanitize_chars.
  assert (Hu : c ∉ unknown_file).
  { intros Hin. revert Hc.
    assert (Hall : Forall (fun c => c ∉ invalid_chars) unknown_file)
      by (apply (bool_decide_unpack _); by vm_compute).
    rewrite Forall_forall in Hall. by apply Hall. }
  destruct s as [|a s]; [done|].
  destruct (stripped (a :: s)) as [|b t] eqn:E; [done|].
  rewrite <- E. destruct (200 <? len (stripped (a :: s))).
  - intros Hin%truncate_elem. by eapply stripped_valid.
  - by apply stripped_valid.
Qed.

Lemma sanitize_chars_length s :
  len (splitext (stripped s)).2 <= 200 → len (sanitize_chars s) <= 200.
Proof.
  intros Hext. unfold sanitize_chars.
  destruct s as [|a s]; [vm_compute; discriminate|].
  destruct (stripped (a :: s)) as [|b t] eqn:E; [vm_compute; discriminate|].
  destruct (200 <? len (b :: t)) eqn:Hlt.
  - rewrite truncate_length; lia.
  - lia.
Qed.

(** No reserved character survives, whatever the input. *)
Lemma sanitize_filename_valid (x : string) (c : ascii) :
  c ∈ invalid_chars → c ∉ chars (_sanitize_filename x).
Proof.
  intros Hc. unfold _sanitize_filename. rewrite chars_text.
  by apply sanitize_chars_valid.
Qed.

(** The bound of 200 characters holds whenever the extension found by
    [os.path.splitext] has at most 200 characters. *)
Lemma sanitize_filename_length (x : string) :
  len (splitext (stripped (chars x))).2 <= 200 →
  (String.length (_sanitize_filename x) <= 200)%nat.
Proof.
  intros Hext. unfold _sanitize_filename. rewrite text_length.
  apply sanitize_chars_length in Hext. unfold len in Hext. lia.
Qed.

(** A name that is cut is cut to exactly 200 characters, under the same
    condition on its extension. *)
Lemma sanitize_filename_cut (x : string) :
  x ≠ EmptyString →
  200 < len (stripped (chars x)) →
  len (splitext (stripped (chars x))).2 <= 200 →
  String.length (_sanitize_filename x) = 200%nat.
Proof.
  intros Hx Hlong Hext. unfold _sanitize_filename, sanitize_chars.
  rewrite text_length.
  destruct (chars x) as [|a s] eqn:Ex.
  { destruct x; [done|discriminate]. }
  destruct (stripped (a :: s)) as [|b t] eqn:E; [vm_compute in Hlong; discriminate|].
  destruct (200 <? len (b :: t)) eqn:Hlt; [|lia].
  pose proof (truncate_length (b :: t) Hlong Hext) as Hcut.
  unfold len in Hcut. lia.
Qed.

(** C4, at the failing input: for the name [a.] followed by 250 times
    [b], the bound [200 - len(ext)] of the slice is negative, the stem is
    dropped and the whole extension is kept, so that the sanitized name
    has 251 characters, more than the 200 the claim allows. *)
Theorem sanitize_long_extension_has_251_characters :
  String.length (_sanitize_filename Scenario.long_extension_name) = 251%nat
  ∧ (splitext (stripped (chars Scenario.long_extension_name))).2
    = "."%char :: replicate 250 "b"%char.
Proof. split; by vm_compute. Qed.

(** C5, counterexample: for 199 times [a], a space and 10 times [b],
    the cut at 200 leaves a trailing space, which a second pass strips:
    sanitizing twice gives another name than sanitizing once. *)
Lemma sanitize_twice_differs_at_cut :
  _sanitize_filename Scenario.space_at_cut_name
    = text (replicate 199 "a"%char ++ [" "%char])
  ∧ _sanitize_filename (_sanitize_filename Scenario.space_at_cut_name)
    = text (replicate 199 "a"%char)
  ∧ String.eqb (_sanitize_filename (_sanitize_filename Scenario.space_at_cut_name))
               (_sanitize_filename Scenario.space_at_cut_name) = false.
Proof. repeat split; by vm_compute. Qed.

(** C5, amended: the sanitizer is idempotent on every input that it does
    not cut, that is, whose name after replacement and stripping has at
    most 200 characters. *)
Theorem sanitize_idempotent_when_not_cut (x : string) :
  len (stripped (chars x)) <= 200 →
  _sanitize_filename (_sanitize_filename x) = _sanitize_filename x.
Proof.
  intros Hlen. unfold _sanitize_filename. rewrite chars_text.
  by rewrite sanitize_chars_idem.
Qed.

(** The name [a/b:c], which becomes [a_b_c]. *)
Lemma sanitize_idempotent_when_not_cut_witness :
  len (stripped (chars "a/b:c")) <= 200
  ∧ _sanitize_filename (_sanitize_filename "a/b:c") = _sanitize_filename "a/b:c".
Proof.
  assert (H : len (stripped (chars "a/b:c")) <= 200) by (vm_compute; discriminate).
  split; [exact H|]. exact (sanitize_idempotent_when_not_cut "a/b:c" H).
Defined.

End SanitizerFacts.

(** ** The metadata snapshot *)

Section SnapshotFacts.
Import Py Utils.

Variable text : Type.
Variable json_dump : json -> dumped text.
Variable json_load : text -> option json.

Abbreviation load := (load_documents_metadata text json_load).
Abbreviation save := (save_documents_metadata text json_dump).

(** Every exception of the body is caught. *)
Lemma load_never_raises (input_file : string) (s : state text) :
  ∃ v s', load input_file s = (Return v, s').
Proof.
  unfold load_documents_metadata, try_except, bind, open_read_load.
  destruct (decide (input_file ∈ denied s)); [simpl; eauto|].
  destruct (files s !! input_file) as [t|]; [|simpl; eauto].
  destruct (json_load t) as [data|]; [|simpl; eauto].
  destruct data; simpl; eauto.
  destruct (dict_get "documents" d); simpl; eauto.
Qed.

(** A file with nothing to return gives the empty list. *)
Lemma load_unusable (input_file : string) (s : state text) :
  unusable text json_load input_file s →
  ∃ s', load input_file s = (Return (JList []), s').
Proof.
  unfold load_documents_metadata, try_except, bind, open_read_load.
  intros [Hd|Hm|t Ht Hl|t data Ht Hl Hn].
  - rewrite decide_True by done. simpl. eauto.
  - destruct (decide (input_file ∈ denied s)); [simpl; eauto|].
    rewrite Hm. simpl. eauto.
  - destruct (decide (input_file ∈ denied s)); [simpl; eauto|].
    rewrite Ht, Hl. simpl. eauto.
  - destruct (decide (input_file ∈ denied s)); [simpl; eauto|].
    rewrite Ht, Hl. destruct data; simpl in *; eauto; try done.
    rewrite Hn. simpl. eauto.
Qed.

(** C10: [load_documents_metadata] never raises: in every state of the
    files it returns a value, and it returns the empty list when the
    input file cannot be read, does not exist, does not hold JSON, or
    holds JSON that is neither a dictionary with the key [documents] nor
    a list. *)
Theorem load_documents_metadata_never_raises (input_file : string) (s : state text) :
  (∃ v s', load input_file s = (Return v, s'))
  ∧ (unusable text json_load input_file s →
     ∃ s', load input_file s = (Return (JList []), s')).
Proof. split; [apply load_never_raises|apply load_unusable]. Qed.




End SnapshotFacts.



(** A snapshot that cannot be written is lost the same way: the error
    is printed, and the load returns the empty list. *)
Lemma save_then_load_unwritable :
  ∃ s1 s2,
    Utils.save_documents_metadata Scenario.snapshot_text Scenario.strict_dump
      [Scenario.document_json Scenario.report]
      "/sharepoint_documents.json" Scenario.read_only_disk = (Py.Return tt, s1)
    ∧ Utils.load_documents_metadata Scenario.snapshot_text Scenario.strict_load
        "/sharepoint_documents.json" s1
      = (Py.Return (Utils.JList []), s2).
Proof. do 2 eexists. split; by vm_compute. Qed.

(** ** The token exchange *)

Section AuthFacts.
Import Py Auth.
Local Open Scope string_scope.

(** The wait loop returns the first record that holds a code or an error. *)
Lemma wait_for_callback_first (E : env) (k remaining waited : nat) (s : state) :
  (k <= remaining)%nat →
  (∀ j, (j < k)%nat →
        auth_code (listener E (waited + j)) = None
        ∧ auth_error (listener E (waited + j)) = None) →
  auth_code (listener E (waited + k)) ≠ None
  ∨ auth_error (listener E (waited + k)) ≠ None →
  ∃ s', wait_for_callback E remaining waited s = (Return (listener E (waited + k)%nat), s')
        ∧ self s' = self s.
Proof.
  revert remaining waited s. induction k as [|k IH]; intros remaining waited s Hk Hbefore Hat.
  - rewrite Nat.add_0_r in *. exists s. split; [|done].
    destruct remaining; simpl;
      destruct (auth_code (listener E waited)), (auth_error (listener E waited));
      try done; by destruct Hat.
  - destruct remaining as [|remaining]; [lia|].
    destruct (Hbefore 0%nat) as [Hc He]; [lia|]. rewrite Nat.add_0_r in Hc, He.
    simpl. rewrite Hc, He.
    unfold bind at 1. simpl.
    destruct (IH remaining (S waited)
                {| self := self s; trace := trace s ++ [Waited] |}) as (s' & Hs' & Hself).
    + lia.
    + intros j Hj. replace (S waited + j)%nat with (waited + S j)%nat by lia.
      apply Hbefore. lia.
    + by replace (S waited + k)%nat with (waited + S k)%nat by lia.
    + exists s'. split; [|done].
      replace (waited + S k)%nat with (S waited + k)%nat by lia. exact Hs'.
Qed.

(** A reply with a status other than 200 makes the exchange return [False]
    and leaves [self] as it was. *)
Lemma exchange_fails_on_status (E : env) (r : reply) (auth_code code_verifier : string)
    (s : state) :
  (∀ token_url token_data, token_endpoint E token_url token_data = Responds r) →
  status_code r ≠ 200 →
  ∃ s', _exchange_code_for_token E auth_code code_verifier s = (Return false, s')
        ∧ self s' = self s.
Proof.
  intros Hr Hstatus.
  unfold _exchange_code_for_token, try_except, bind, get, requests_post, bind, emit, modify.
  cbn [self trace]. rewrite Hr. cbn [ret].
  destruct (Z.eqb_spec (status_code r) 200) as [|_]; [done|].
  destruct (PyStr.prefix_of _ _).
  - unfold reply_json. destruct (body r); cbn; eauto.
  - cbn. eauto.
Qed.

(** In that case the status and the decoded body go to the log. *)
Lemma exchange_logs_status :
  trace (authenticate (Scenario.token_env Scenario.invalid_grant) Scenario.fresh_auth).2
    !! 4%nat
  = Some (LogTokenExchangeFailed 400 {[ "error" := "invalid_grant" ]}).
Proof. by vm_compute. Qed.

(** C9, counterexample: a reply 400 with a JSON body and a reply 500
    with an HTML body make [authenticate] raise the very same error, so
    the error carries neither the status code nor the body. *)
Lemma authentication_error_same_for_400_and_500 :
  (authenticate (Scenario.token_env Scenario.invalid_grant) Scenario.fresh_auth).1
  = Raise (AuthenticationError "Failed to exchange authorization code for token")
  ∧ (authenticate (Scenario.token_env Scenario.server_error) Scenario.fresh_auth).1
    = Raise (AuthenticationError "Failed to exchange authorization code for token").
Proof. split; by vm_compute. Qed.

End AuthFacts.

(** ** The batch download *)

Section BatchFacts.
Import Py Graph Run Scraper.

Variable srv : server.
Variable self : scraper.
Variable download_path : string.

(** A turn of the loop never raises. *)
Lemma download_result_returns (doc : document) (s : state) :
  ∃ r s', download_result srv self download_path doc s = (Return r, s').
Proof.
  unfold download_result, try_except, bind.
  destruct (download_document srv self doc download_path s) as [[[p|]|e] s1];
    cbn; eauto.
  destruct (negb _); cbn; eauto.
Qed.

(** A turn of the loop of [bulk_download] is [download_result] followed
    by the update of the dictionary and the call of the callback. *)
Lemma bulk_download_loop_cons (progress_callback : bool) (total i : Z)
    (doc : document) (rest : list document)
    (results : gmap string string) (calls : list (Z * Z)) (s : state) :
  bulk_download_loop srv self download_path progress_callback total i
                     (doc :: rest) results calls s
  = match download_result srv self download_path doc s with
    | (Return r, s1) =>
        bulk_download_loop srv self download_path progress_callback total (i + 1) rest
          (match r with Some p => <[doc_name doc := p]> results | None => results end)
          (if progress_callback then calls ++ [(i + 1, total)] else calls) s1
    | (Raise e, s1) => (Raise e, s1)
    end.
Proof.
  cbn [bulk_download_loop]. unfold download_result, try_except, bind.
  destruct (download_document srv self doc download_path s) as [[[p|]|e] s1];
    cbn; try done.
  destruct (negb _); cbn; done.
Qed.

(** The loop computes [successes] of the results of its documents, and
    calls the callback once per document. *)
Lemma bulk_download_loop_spec (progress_callback : bool) (total i : Z)
    (docs : list document) (results : gmap string string)
    (calls : list (Z * Z)) (s : state) :
  ∃ outs s',
    download_results srv self download_path docs s = (Return outs, s')
    ∧ length outs = length docs
    ∧ bulk_download_loop srv self download_path progress_callback total i docs
                         results calls s
      = (Return (successes docs outs results,
                 if progress_callback
                 then calls ++ map (fun k => (i + Z.of_nat k + 1, total)) (seq 0 (length docs))
                 else calls), s').
Proof.
  revert i results calls s.
  induction docs as [|doc rest IH]; intros i results calls s.
  - exists [], s. cbn. repeat split; try done.
    destruct progress_callback; by rewrite ?app_nil_r.
  - rewrite bulk_download_loop_cons. cbn [download_results]. unfold bind at 1.
    destruct (download_result_returns doc s) as (r & s1 & Hr). rewrite Hr.
    destruct (IH (i + 1)
                 (match r with Some p => <[doc_name doc := p]> results | None => results end)
                 (if progress_callback then calls ++ [(i + 1, total)] else calls) s1)
      as (outs & s' & Hres & Hlen & Hloop).
    exists (r :: outs), s'. unfold bind. rewrite Hres, Hloop.
    split; [reflexivity|]. split; [cbn; lia|].
    f_equal. f_equal. f_equal.
    + destruct r; done.
    + destruct progress_callback; [|done].
      rewrite <- app_assoc. f_equal. cbn. f_equal; [f_equal; lia|].
      rewrite <- seq_shift, map_map. apply map_ext. intros k. f_equal. lia.
Qed.

(** An entry of [successes] comes from the dictionary it started from or
    from a document that has that path. *)
Lemma successes_lookup (docs : list document) (outs : list (option string))
    (results : gmap string string) (n p : string) :
  successes docs outs results !! n = Some p →
  results !! n = Some p
  ∨ ∃ i doc, docs !! i = Some doc ∧ doc_name doc = n ∧ outs !! i = Some (Some p).
Proof.
  revert outs results. induction docs as [|doc docs IH]; intros outs results; [by left|].
  destruct outs as [|[q|] outs]; cbn [successes]; [by left| |].
  - intros [Hin|(i & d & Hd & Hn & Ho)]%IH.
    + destruct (decide (doc_name doc = n)) as [Heq|Hne].
      * rewrite Heq, lookup_insert_eq in Hin. injection Hin as ->.
        right. by exists 0%nat, doc.
      * rewrite lookup_insert_ne in Hin by done. by left.
    + right. by exists (S i), d.
  - intros [Hin|(i & d & Hd & Hn & Ho)]%IH; [by left|].
    right. by exists (S i), d.
Qed.

(** [successes] only adds names. *)
Lemma successes_mono (docs : list document) (outs : list (option string))
    (results : gmap string string) (n : string) :
  is_Some (results !! n) → is_Some (successes docs outs results !! n).
Proof.
  revert outs results. induction docs as [|doc docs IH]; intros outs results Hn; [done|].
  destruct outs as [|[q|] outs]; cbn [successes]; [done| |by apply IH].
  apply IH. destruct (decide (doc_name doc = n)) as [<-|Hne].
  - rewrite lookup_insert_eq. eauto.
  - by rewrite lookup_insert_ne.
Qed.

(** Every document that has a path has its name in [successes]. *)
Lemma successes_present (docs : list document) (outs : list (option string))
    (results : gmap string string) (i : nat) (doc : document) (p : string) :
  docs !! i = Some doc → outs !! i = Some (Some p) →
  is_Some (successes docs outs results !! doc_name doc).
Proof.
  revert outs results i. induction docs as [|d docs IH]; intros outs results i Hd Ho; [done|].
  destruct outs as [|o outs]; [done|].
  destruct i as [|i]; cbn in Hd, Ho.
  - injection Hd as ->. injection Ho as ->. cbn [successes].
    apply successes_mono. rewrite lookup_insert_eq. eauto.
  - destruct o; cbn [successes]; by eapply IH.
Qed.

(** With pairwise different names the mapping has one entry per
    document that has a path. *)
Lemma successes_size (docs : list document) (outs : list (option string))
    (results : gmap string string) :
  NoDup (doc_name <$> docs) →
  (∀ doc, doc ∈ docs → results !! doc_name doc = None) →
  length outs = length docs →
  size (successes docs outs results)
  = (size results + length (List.filter (fun o : option string => bool_decide (is_Some o)) outs))%nat.
Proof.
  revert outs results. induction docs as [|d docs IH]; intros outs results Hnd Hfresh Hlen.
  - destruct outs; [|done]. cbn. lia.
  - destruct outs as [|o outs]; [done|]. cbn in Hlen.
    apply NoDup_cons in Hnd as [Hd Hnd].
    destruct o as [p|]; cbn [successes List.filter].
    + rewrite IH; [| done | | lia].
      * rewrite map_size_insert_None by (apply Hfresh; left).
        rewrite bool_decide_true by eauto. cbn. lia.
      * intros doc Hdoc. rewrite lookup_insert_ne; [apply Hfresh; by right|].
        intros Heq. apply Hd. rewrite Heq. by apply list_elem_of_fmap_2.
    + rewrite IH; [| done | | lia].
      * rewrite bool_decide_false by (by intros [? ?]). done.
      * intros doc Hdoc. apply Hfresh. by right.
Qed.

(** The calls expected of the callback: as many as documents, with a
    first component that grows by one from 1 to the number of documents. *)
Lemma progress_calls_lookup (n i : nat) :
  (i < n)%nat → progress_calls n !! i = Some (Z.of_nat i + 1, Z.of_nat n).
Proof.
  intros Hi. unfold progress_calls. rewrite list_lookup_fmap, lookup_seq_lt by done. done.
Qed.

Lemma progress_calls_length (n : nat) : length (progress_calls n) = n.
Proof. unfold progress_calls. by rewrite length_map, length_seq. Qed.

Lemma progress_calls_increasing (n i j : nat) (a b : Z * Z) :
  (i < j)%nat → progress_calls n !! i = Some a → progress_calls n !! j = Some b →
  a.1 < b.1.
Proof.
  intros Hij Ha Hb.
  assert (j < n)%nat by (apply lookup_lt_Some in Hb; by rewrite progress_calls_length in Hb).
  rewrite progress_calls_lookup in Ha, Hb by lia.
  injection Ha as <-. injection Hb as <-. cbn. lia.
Qed.

Lemma progress_calls_last (n : nat) :
  last (progress_calls (S n)) = Some (Z.of_nat (S n), Z.of_nat (S n)).
Proof.
  rewrite last_lookup, progress_calls_length. cbn [Nat.pred].
  rewrite progress_calls_lookup by lia. f_equal. f_equal. lia.
Qed.

(** An entry of [successes] is the last path returned for a document
    of that name, or the entry it started from. *)
Lemma successes_last (docs : list document) (outs : list (option string))
    (results : gmap string string) (n : string) :
  successes docs outs results !! n
  = match last (paths_named n docs outs) with
    | Some p => Some p
    | None => results !! n
    end.
Proof.
  revert outs results. induction docs as [|doc docs IH]; intros outs results;
    [by destruct outs|].
  destruct outs as [|[p|] outs]; cbn [successes paths_named option_list];
    [done| |].
  - rewrite IH, last_app. case_bool_decide as Hn.
    + subst n. rewrite lookup_insert_eq. cbn [app].
      by destruct (last (paths_named _ docs outs)).
    + rewrite lookup_insert_ne by done. cbn [app].
      by destruct (last (paths_named _ docs outs)).
  - rewrite IH. by destruct (bool_decide _).
Qed.

(** C6, amended: for every list of descriptors, [bulk_download] returns
    (no failing download aborts the batch), and the dictionary it
    returns is keyed by document name: under a name it holds the path
    that [download_document] returned for the last document of that name
    that was downloaded, and it has no entry for a name none of whose
    documents was downloaded. It has one entry per downloaded document
    when the names are pairwise different. The progress callback, when
    supplied, is called once per document with [(1, N)], ..., [(N, N)]. *)
Theorem bulk_download_keeps_last_path_per_name (docs : list document)
    (progress_callback : bool) (s : state) :
  ∃ outs results calls s',
    download_results srv self download_path docs s = (Return outs, s')
    ∧ length outs = length docs
    ∧ bulk_download srv self docs download_path progress_callback s
      = (Return (results, calls), s')
    ∧ (∀ n, results !! n = last (paths_named n docs outs))
    ∧ (NoDup (doc_name <$> docs) →
         size results
         = length (List.filter (fun o : option string => bool_decide (is_Some o)) outs))
    ∧ calls = (if progress_callback then progress_calls (length docs) else []).
Proof.
  unfold bulk_download.
  destruct (bulk_download_loop_spec progress_callback (Z.of_nat (length docs)) 0 docs ∅ [] s)
    as (outs & s' & Hres & Hlen & Hloop).
  exists outs, (successes docs outs ∅),
    (if progress_callback then progress_calls (length docs) else []), s'.
  split; [done|]. split; [done|]. split.
  { rewrite Hloop. by destruct progress_callback. }
  split.
  { intros n. rewrite successes_last, lookup_empty.
    by destruct (last (paths_named n docs outs)). }
  split; [|done].
  intros Hnd. rewrite successes_size; [by rewrite map_size_empty|done| |done].
  intros doc _. apply lookup_empty.
Qed.

(** C6, counterexample: two documents named [report.pdf], one in the
    library [A] and one in the library [B]. When both are downloaded, two
    files are written but the dictionary has one entry, for the second.
    When the second is answered with 404, the name of the failing
    document is in the dictionary all the same, with the path of the
    first. *)
Lemma bulk_download_merges_documents_of_one_name :
  (bulk_download (Scenario.always (Scenario.ok_content "data")) Scenario.connected
     [Scenario.report_in "A"; Scenario.report_in "B"] "downloads" false
     initial_state).1
  = Return ({[ "report.pdf" := "downloads/B/report.pdf" ]}, [])
  ∧ files (bulk_download (Scenario.always (Scenario.ok_content "data"))
             Scenario.connected
             [Scenario.report_in "A"; Scenario.report_in "B"] "downloads" false
             initial_state).2
    = {[ "downloads/A/report.pdf" := "data"; "downloads/B/report.pdf" := "data" ]}
  ∧ (bulk_download
       (Scenario.scripted [Scenario.ok_content "data"] (status_only 404))
       Scenario.connected
       [Scenario.report_in "A"; Scenario.report_in "B"] "downloads" false
       initial_state).1
    = Return ({[ "report.pdf" := "downloads/A/report.pdf" ]}, []).
Proof. split; [|split]; vm_compute; reflexivity. Qed.

(** Five documents of which the second and the fourth are answered with
    404: the mapping has the three others, and the callback is called
    five times, with 1 to 5. *)
Lemma bulk_download_five_documents_two_missing :
  let run := bulk_download Scenario.two_missing Scenario.connected
                           Scenario.five_documents "downloads" true initial_state in
  match run.1 with
  | Return (results, calls) =>
      results = {[ "f1.txt" := "downloads/Documents/f1.txt";
                   "f3.txt" := "downloads/Documents/f3.txt";
                   "f5.txt" := "downloads/Documents/f5.txt" ]}
      ∧ size results = 3%nat
      ∧ calls = [(1, 5); (2, 5); (3, 5); (4, 5); (5, 5)]
  | Raise _ => False
  end.
Proof. vm_compute. repeat split; reflexivity. Qed.

End BatchFacts.

(** ** The enumeration *)

Section EnumerationFacts.
Import Py Graph Run Scraper.
Local Open Scope string_scope.

(** A listing answered with a status other than 200 ends the call: one
    request, one warning, no document. *)
Lemma scan_abandons_failing_folder (depth : nat) (srv : server) (self : scraper)
    (drive_id : option string) (folder_path library_name : string)
    (headers : gmap string string) (page_url : option string) (s : state)
    (r : response) :
  let req := {| url := items_url self drive_id folder_path page_url;
                headers := headers |} in
  srv (trace s) req = Responds r →
  status_code r ≠ 200 →
  _scan_drive_recursive (S depth) srv self drive_id folder_path library_name
                        headers page_url s
  = (Return tt, after_failed_listing req folder_path (status_code r) s).
Proof.
  intros req Hr Hstatus. cbn [_scan_drive_recursive].
  unfold try_except, bind at 1, requests_get. fold req. rewrite Hr.
  unfold bind, emit, modify, ret. cbn [trace documents files denied].
  destruct (Z.eqb_spec (status_code r) 200) as [|_]; [done|].
  cbn. unfold after_failed_listing. by rewrite <- app_assoc.
Qed.

(** The loop over the items of the parent then goes on with the items
    that follow the folder. *)
Lemma siblings_follow_failing_folder (depth : nat) (srv : server) (self : scraper)
    (drive_id : option string) (folder_path library_name : string)
    (headers : gmap string string) (item : entry) (rest : list entry) (s : state)
    (r : response) :
  let req := {| url := items_url self drive_id (new_path folder_path item) None;
                headers := headers |} in
  let body :=
    scan_item (fun new_path =>
                 _scan_drive_recursive (S depth) srv self drive_id new_path
                                       library_name headers None)
              drive_id folder_path library_name in
  e_file item = None → e_folder item = true →
  srv (trace s) req = Responds r →
  status_code r ≠ 200 →
  for_each (item :: rest) body s
  = for_each rest body
      (after_failed_listing req (new_path folder_path item) (status_code r) s).
Proof.
  intros req body Hfile Hfolder Hr Hstatus.
  cbn [for_each]. unfold bind at 1. unfold body at 1, scan_item.
  rewrite Hfile, Hfolder.
  by rewrite (scan_abandons_failing_folder depth srv self drive_id
                (new_path folder_path item) library_name headers None s r Hr Hstatus).
Qed.

(** A list of libraries answered with a status other than 200 ends
    [get_documents] with [SharePointError], after that one request. *)
Lemma get_documents_raises_on_drive_failure (depth : nat) (srv : server)
    (self : scraper) (s : state) (r : response) :
  falsy (site_id self) = false →
  falsy (access_token self) = false →
  (∀ tr req, url req = drives_url self → srv tr req = Responds r) →
  status_code r ≠ 200 →
  ∃ s',
    get_documents depth srv self s
    = (Raise (SharePointError
                ("Failed to get documents: Failed to get document libraries: "
                 ++ str_of_int (status_code r))), s')
    ∧ documents s' = []
    ∧ urls_of (trace s') = (urls_of (trace s) ++ [drives_url self])%list.
Proof.
  intros Hsite Htoken Hr Hstatus.
  unfold get_documents, is_authenticated.
  destruct (access_token self) as [tok|] eqn:Etok; [|done].
  rewrite Hsite. cbn [negb orb].
  unfold bind at 1, documents_new, modify.
  unfold try_except, bind at 1, logger, emit, modify.
  unfold bind at 1, get_auth_headers. rewrite Etok, Htoken.
  unfold ret at 1. unfold bind at 1, requests_get.
  cbn [trace documents files denied].
  rewrite Hr by done.
  unfold bind, emit, modify, ret. cbn [trace documents files denied].
  destruct (Z.eqb_spec (status_code r) 200) as [|_]; [done|].
  cbn. eexists. split; [reflexivity|]. cbn. split; [done|].
  unfold urls_of. rewrite !omap_app. cbn. by rewrite !app_nil_r.
Qed.

(** C3, amended: a listing of a folder that is answered with a status
    other than 200 costs one request and one warning, adds no document
    and returns normally, so that the loop over the items of the parent
    goes on with the siblings of that folder; a list of libraries that
    is answered with a status other than 200 makes [get_documents] raise
    [SharePointError]: no collection is returned. *)
Theorem enumeration_failure_semantics :
  (∀ (depth : nat) (srv : server) (self : scraper) (drive_id : option string)
     (folder_path library_name : string) (headers : gmap string string)
     (page_url : option string) (s : state) (r : response),
     let req := {| url := items_url self drive_id folder_path page_url;
                   headers := headers |} in
     srv (trace s) req = Responds r →
     status_code r ≠ 200 →
     _scan_drive_recursive (S depth) srv self drive_id folder_path library_name
                           headers page_url s
     = (Return tt, after_failed_listing req folder_path (status_code r) s))
  ∧ (∀ (depth : nat) (srv : server) (self : scraper) (drive_id : option string)
       (folder_path library_name : string) (headers : gmap string string)
       (item : entry) (rest : list entry) (s : state) (r : response),
       let req := {| url := items_url self drive_id (new_path folder_path item) None;
                     headers := headers |} in
       let body :=
         scan_item (fun new_path =>
                      _scan_drive_recursive (S depth) srv self drive_id new_path
                                            library_name headers None)
                   drive_id folder_path library_name in
       e_file item = None → e_folder item = true →
       srv (trace s) req = Responds r →
       status_code r ≠ 200 →
       for_each (item :: rest) body s
       = for_each rest body
           (after_failed_listing req (new_path folder_path item) (status_code r) s))
  ∧ (∀ (depth : nat) (srv : server) (self : scraper) (s : state) (r : response),
       falsy (site_id self) = false →
       falsy (access_token self) = false →
       (∀ tr req, url req = drives_url self → srv tr req = Responds r) →
       status_code r ≠ 200 →
       ∃ s',
         get_documents depth srv self s
         = (Raise (SharePointError
                     ("Failed to get documents: Failed to get document libraries: "
                      ++ str_of_int (status_code r))), s')
         ∧ documents s' = []
         ∧ urls_of (trace s') = (urls_of (trace s) ++ [drives_url self])%list).
Proof.
  split; [|split].
  - intros. by apply scan_abandons_failing_folder.
  - intros. by apply siblings_follow_failing_folder.
  - intros. by apply get_documents_raises_on_drive_failure.
Qed.

(** The folder [Broken] answered with 500, and the list of libraries
    answered with 503. *)
Lemma enumeration_failure_semantics_witness :
  _scan_drive_recursive 1 Scenario.site_with_broken_folder Scenario.connected
                        (Some "drive1") "Broken" "drive1" ∅ None initial_state
  = (Return tt,
     after_failed_listing
       {| url := items_url Scenario.connected (Some "drive1") "Broken" None;
          headers := ∅ |} "Broken" 500 initial_state)
  ∧ ∃ s',
      get_documents 1000 Scenario.site_unavailable Scenario.connected initial_state
      = (Raise (SharePointError
                  "Failed to get documents: Failed to get document libraries: 503"), s')
      ∧ documents s' = []
      ∧ urls_of (trace s') = [drives_url Scenario.connected].
Proof.
  destruct enumeration_failure_semantics as (Hfolder & _ & Hdrives). split.
  - apply (Hfolder 0%nat Scenario.site_with_broken_folder Scenario.connected
             (Some "drive1") "Broken" "drive1" ∅ None initial_state
             {| status_code := 500; content := EmptyString; json := None |}).
    + reflexivity.
    + cbn. lia.
  - apply (Hdrives 1000%nat Scenario.site_unavailable Scenario.connected initial_state
             {| status_code := 503; content := EmptyString; json := None |}).
    + reflexivity.
    + reflexivity.
    + reflexivity.
    + cbn. lia.
Defined.

(** C3, counterexample: when the list of libraries is answered with
    503, [get_documents] raises [SharePointError]; it does not return
    the (empty) collection. *)
Lemma get_documents_raises_at_503 :
  (get_documents 1000 Scenario.site_unavailable Scenario.connected initial_state).1
  = Raise (SharePointError
             "Failed to get documents: Failed to get document libraries: 503").
Proof. by vm_compute. Qed.

(** The siblings of a folder that cannot be listed are scanned: [Good]
    is listed after [Broken] was answered with 500. *)
Lemma broken_folder_does_not_stop_scan :
  let r := get_documents 1000 Scenario.site_with_broken_folder Scenario.connected
                         initial_state in
  (match r.1 with Return docs => Some (found_at <$> docs) | Raise _ => None end)
  = Some [("Good", "kept.txt")]
  ∧ warnings_of (trace r.2) = ["Failed to scan folder Broken: 500"].
Proof. split; by vm_compute. Qed.

(** The loop body of the package enters every folder, whatever its
    name. *)
Lemma scan_item_enters_every_folder (recurse : string → M state unit)
    (drive_id : option string) (folder_path library_name : string) (item : entry) :
  e_file item = None → e_folder item = true →
  scan_item recurse drive_id folder_path library_name item
  = recurse (new_path folder_path item).
Proof. intros Hfile Hfolder. unfold scan_item. by rewrite Hfile, Hfolder. Qed.

(** The loop body of the script skips every folder whose name begins
    with an underscore or is [Forms]: nothing is requested, added or
    logged for it. *)
Lemma script_scan_item_skips_system_folders (recurse : string → M Legacy.state unit)
    (drive_id : option string) (library_name : string) (item : entry)
    (s : Legacy.state) :
  e_folder item = true →
  Legacy.system_folder (default "Unknown" (e_name item)) = true →
  Legacy.scan_item recurse drive_id library_name item s = (Return tt, s).
Proof.
  intros Hfolder Hsystem. unfold Legacy.scan_item, try_except.
  by rewrite Hfolder, Hsystem.
Qed.

(** C2, at the failing input: on a library whose root holds the folders
    [Forms] and [_private], the enumeration of the package lists the
    children of both folders and returns the files found inside them. *)
Theorem enumeration_enters_system_folders :
  let run := get_documents 1000 Scenario.site_with_system_folders Scenario.connected
                           initial_state in
  (match run.1 with Return docs => Some (found_at <$> docs) | Raise _ => None end)
  = Some [("Forms", "template.dotx"); ("_private", "notes.txt");
          (EmptyString, "report.pdf")]
  ∧ urls_of (trace run.2)
    = ["https://graph.microsoft.com/v1.0/sites/site/drives";
       "https://graph.microsoft.com/v1.0/sites/site/drives/drive1/root/children";
       "https://graph.microsoft.com/v1.0/sites/site/drives/drive1/root:/Forms:/children";
       "https://graph.microsoft.com/v1.0/sites/site/drives/drive1/root:/_private:/children"].
Proof. split; by vm_compute. Qed.

(** The script skips both folders on the same site: it lists the root
    only and returns the one file of the root. *)
Lemma script_skips_system_folders :
  let run := Legacy.get_documents_graph 1000 Scenario.site_with_system_folders
                                        Scenario.connected_script Run.initial_state in
  (match run.1 with Return docs => Some (Legacy.found_at <$> docs) | Raise _ => None end)
  = Some [("report.pdf", "report.pdf")]
  ∧ urls_of (trace run.2)
    = ["https://graph.microsoft.com/v1.0/sites/site/drives";
       "https://graph.microsoft.com/v1.0/drives/drive1/root/children"].
Proof. split; by vm_compute. Qed.

End EnumerationFacts.

(** ** Pauses during the enumeration *)

Section PacingFacts.
Import Py Graph Run Scraper.
Local Open Scope string_scope.

(** [quiet] goes through the control flow, and holds of every step of
    the enumeration. *)
Lemma quiet_ret {A} (a : A) : quiet (ret a).
Proof. by intros s. Qed.

Lemma quiet_raise {A} (e : exn) : quiet (raise (A := A) e).
Proof. by intros s. Qed.

Lemma quiet_get : quiet get.
Proof. by intros s. Qed.

Lemma quiet_bind {A B} (m : M state A) (k : A → M state B) :
  quiet m → (∀ a, quiet (k a)) → quiet (bind m k).
Proof.
  intros Hm Hk s. unfold bind. specialize (Hm s).
  destruct (m s) as [[a|e] s1]; cbn in *; [|done].
  by rewrite Hk.
Qed.

Lemma quiet_try_except {A} (m : M state A) (h : exn → M state A) :
  quiet m → (∀ e, quiet (h e)) → quiet (try_except m h).
Proof.
  intros Hm Hh s. unfold try_except. specialize (Hm s).
  destruct (m s) as [[a|e] s1]; cbn in *; [done|].
  by rewrite Hh.
Qed.

Lemma quiet_for_each {A} (l : list A) (body : A → M state unit) :
  (∀ x, quiet (body x)) → quiet (for_each l body).
Proof.
  intros Hbody. induction l as [|x l IH]; cbn [for_each].
  - apply quiet_ret.
  - apply quiet_bind; [apply Hbody|]. intros _. apply IH.
Qed.

Lemma quiet_logger (lvl : level) (msg : string) : quiet (logger lvl msg).
Proof.
  intros s. unfold logger, emit, modify. cbn.
  unfold pauses_of. rewrite List.filter_app. cbn. by rewrite app_nil_r.
Qed.

Lemma quiet_requests_get (srv : server) (req : request) : quiet (requests_get srv req).
Proof.
  intros s. unfold requests_get.
  destruct (srv (trace s) req); cbn;
    unfold pauses_of; rewrite List.filter_app; cbn; by rewrite app_nil_r.
Qed.

Lemma quiet_response_json (r : response) : quiet (response_json r).
Proof. unfold response_json. destruct (json r); [apply quiet_ret|apply quiet_raise]. Qed.

Lemma quiet_documents_append (doc : document) : quiet (documents_append doc).
Proof. by intros s. Qed.

Lemma quiet_documents_new : quiet (documents_new (D := document)).
Proof. by intros s. Qed.

Lemma quiet_get_auth_headers (self : scraper) : quiet (get_auth_headers self).
Proof.
  unfold get_auth_headers. destruct (falsy _); [apply quiet_raise|apply quiet_ret].
Qed.

Lemma quiet_scan_item (recurse : string → M state unit) (drive_id : option string)
    (folder_path library_name : string) (item : entry) :
  (∀ p, quiet (recurse p)) →
  quiet (scan_item recurse drive_id folder_path library_name item).
Proof.
  intros Hrec. unfold scan_item.
  destruct (e_file item); [apply quiet_documents_append|].
  destruct (e_folder item); [apply Hrec|apply quiet_ret].
Qed.

Lemma quiet_scan (depth : nat) (srv : server) (self : scraper)
    (drive_id : option string) (folder_path library_name : string)
    (headers : gmap string string) (page_url : option string) :
  quiet (_scan_drive_recursive depth srv self drive_id folder_path library_name
                               headers page_url).
Proof.
  revert folder_path page_url.
  induction depth as [|depth IH]; intros folder_path page_url; cbn [_scan_drive_recursive].
  - apply quiet_raise.
  - apply quiet_try_except; [|intros e; apply quiet_logger].
    apply quiet_bind; [apply quiet_requests_get|]. intros response.
    destruct (negb _); [apply quiet_logger|].
    apply quiet_bind; [apply quiet_response_json|]. intros data.
    apply quiet_bind.
    + apply quiet_for_each. intros item. apply quiet_scan_item. intros p. apply IH.
    + intros _. destruct (negb _); [apply IH|apply quiet_ret].
Qed.

(** The enumeration of the package never pauses, whatever the site. *)
Lemma get_documents_never_pauses (depth : nat) (srv : server) (self : scraper)
    (s : state) :
  pauses_of (trace (get_documents depth srv self s).2) = pauses_of (trace s).
Proof.
  revert s. change (quiet (get_documents depth srv self)).
  unfold get_documents. destruct (_ || _); [apply quiet_raise|].
  apply quiet_bind; [apply quiet_documents_new|]. intros _.
  apply quiet_try_except.
  - apply quiet_bind; [apply quiet_logger|]. intros _.
    apply quiet_bind; [apply quiet_get_auth_headers|]. intros headers.
    apply quiet_bind; [apply quiet_requests_get|]. intros response.
    destruct (negb _); [apply quiet_raise|].
    apply quiet_bind; [apply quiet_response_json|]. intros data.
    apply quiet_bind; [apply quiet_logger|]. intros _.
    apply quiet_bind.
    + apply quiet_for_each. intros drive.
      apply quiet_bind; [apply quiet_logger|]. intros _.
      apply quiet_try_except; [apply quiet_scan|intros e; apply quiet_logger].
    + intros _. apply quiet_bind; [apply quiet_get|]. intros s.
      apply quiet_bind; [apply quiet_logger|]. intros _. apply quiet_ret.
  - intros e. apply quiet_bind; [apply quiet_logger|]. intros _. apply quiet_raise.
Qed.

(** C8, at the failing input: on a site with two libraries, the first
    with a folder, the enumeration of the package makes its four
    requests back to back: no pause stands between two listings, nor
    between the scans of the two libraries. *)
Theorem enumeration_has_no_pacing_delay :
  schedule_of
    (trace (get_documents 1000 Scenario.site_with_two_drives Scenario.connected
                          initial_state).2)
  = [Request "https://graph.microsoft.com/v1.0/sites/site/drives";
     Request "https://graph.microsoft.com/v1.0/sites/site/drives/drive1/root/children";
     Request "https://graph.microsoft.com/v1.0/sites/site/drives/drive1/root:/A:/children";
     Request "https://graph.microsoft.com/v1.0/sites/site/drives/drive2/root/children"].
Proof. by vm_compute. Qed.

(** The script pauses on the same site: half a second after the scan of
    a folder, one second after the scan of each library. *)
Lemma script_paces_enumeration :
  schedule_of
    (trace (Legacy.get_documents_graph 1000 Scenario.site_with_two_drives
                                       Scenario.connected_script Run.initial_state).2)
  = [Request "https://graph.microsoft.com/v1.0/sites/site/drives";
     Request "https://graph.microsoft.com/v1.0/drives/drive1/root/children";
     Request "https://graph.microsoft.com/v1.0/drives/drive1/items/A/children";
     Pause 500; Pause 1000;
     Request "https://graph.microsoft.com/v1.0/drives/drive2/root/children";
     Pause 1000].
Proof. by vm_compute. Qed.

End PacingFacts.

(** ** The local files *)

Section FileFacts.
Import Py Graph Run.

Variable D : Type.

(** [mkdir] touches nothing but the directories, and nothing at all
    when it raises. *)
Lemma mkdir_outcome (path : Pathlib.path) (s : state D) :
  ∃ r s',
    mkdir path s = (r, s')
    ∧ trace s' = trace s ∧ documents s' = documents s
    ∧ files s' = files s ∧ denied s' = denied s
    ∧ match r with Return _ => True | Raise _ => s' = s end.
Proof.
  unfold mkdir. destruct (Pathlib.has_null path); [by eexists _, _|].
  destruct (existsb _ _); by eexists _, _.
Qed.

(** [write_file] touches nothing but the file it writes, and nothing at
    all when it raises. *)
Lemma write_file_outcome (path : Pathlib.path) (data : string) (s : state D) :
  ∃ r s',
    write_file path data s = (r, s')
    ∧ trace s' = trace s ∧ documents s' = documents s
    ∧ dirs s' = dirs s ∧ denied s' = denied s
    ∧ match r with
      | Return _ => files s' = <[Pathlib.str_of path := data]> (files s)
      | Raise e => s' = s ∧ is_RequestException e = false
      end.
Proof.
  unfold write_file. destruct (Pathlib.has_null path); [by eexists _, _|].
  destruct (bool_decide _); [by eexists _, _|].
  destruct (is_dir s path); [by eexists _, _|].
  destruct (negb _); by eexists _, _.
Qed.

End FileFacts.

(** ** The download of one document *)

Section DownloadFacts.
Import Py Graph Run Scraper.
Local Open Scope string_scope.

(** The bounds of [requests_within] add up along the control flow; a
    request counts for one, the other steps for none. *)
Lemma within_mono {A} (n n' : nat) (m : M state A) :
  (n <= n')%nat → requests_within n m → requests_within n' m.
Proof. intros Hn Hm s. specialize (Hm s). lia. Qed.

Lemma within_ret {A} (a : A) : requests_within 0 (ret a).
Proof. intros s. cbn. lia. Qed.

Lemma within_raise {A} (e : exn) : requests_within 0 (raise (A := A) e).
Proof. intros s. cbn. lia. Qed.

Lemma within_bind {A B} (n k : nat) (m : M state A) (f : A → M state B) :
  requests_within n m → (∀ a, requests_within k (f a)) →
  requests_within (n + k) (bind m f).
Proof.
  intros Hm Hf s. unfold bind. specialize (Hm s).
  destruct (m s) as [[a|e] s1]; cbn in *; [|lia].
  specialize (Hf a s1). lia.
Qed.

Lemma within_try_except {A} (n k : nat) (m : M state A) (h : exn → M state A) :
  requests_within n m → (∀ e, requests_within k (h e)) →
  requests_within (n + k) (try_except m h).
Proof.
  intros Hm Hh s. unfold try_except. specialize (Hm s).
  destruct (m s) as [[a|e] s1]; cbn in *; [lia|].
  specialize (Hh e s1). lia.
Qed.

Lemma within_emit (e : event) : is_Get e = false → requests_within 0 (emit e).
Proof.
  intros He s. unfold emit, modify. cbn. unfold requests_of.
  rewrite List.filter_app. cbn. rewrite He, app_nil_r. lia.
Qed.

Lemma within_logger (lvl : level) (msg : string) : requests_within 0 (logger lvl msg).
Proof. by apply within_emit. Qed.

Lemma within_time_sleep (seconds : Z) : requests_within 0 (time_sleep seconds).
Proof. by apply within_emit. Qed.

Lemma within_requests_get (srv : server) (req : request) :
  requests_within 1 (requests_get (D := document) srv req).
Proof.
  intros s. unfold requests_get.
  destruct (srv (trace s) req); cbn; unfold requests_of;
    rewrite List.filter_app, length_app; cbn; reflexivity.
Qed.

Lemma within_mkdir (path : Pathlib.path) :
  requests_within 0 (mkdir (D := document) path).
Proof.
  intros s. unfold mkdir.
  destruct (Pathlib.has_null path); [cbn; unfold requests_of; lia|].
  destruct (existsb _ _); cbn; unfold requests_of; lia.
Qed.

Lemma within_write_file (path : Pathlib.path) (data : string) :
  requests_within 0 (write_file (D := document) path data).
Proof.
  intros s. unfold write_file.
  destruct (Pathlib.has_null path); [cbn; unfold requests_of; lia|].
  destruct (bool_decide _); [cbn; unfold requests_of; lia|].
  destruct (is_dir s path); [cbn; unfold requests_of; lia|].
  destruct (negb _); cbn; unfold requests_of; lia.
Qed.

Lemma within_getitem (key : string) (value : option string) :
  requests_within 0 (getitem (S := state) key value).
Proof. destruct value; [apply within_ret|apply within_raise]. Qed.

Lemma within_get_auth_headers (self : scraper) :
  requests_within 0 (get_auth_headers self).
Proof.
  unfold get_auth_headers. destruct (falsy _); [apply within_raise|apply within_ret].
Qed.

Lemma within_for_return {A B} (n : nat) (l : list A) (body : A → M state (option B)) :
  (∀ x, requests_within n (body x)) →
  requests_within (length l * n) (for_return l body).
Proof.
  intros Hbody. induction l as [|x l IH]; cbn [for_return length Nat.mul].
  - apply within_ret.
  - apply within_bind; [apply Hbody|]. intros [v|].
    + eapply within_mono; [|apply within_ret]. lia.
    + apply IH.
Qed.

(** One turn of the retry loop makes at most one request. *)
Lemma download_attempt_within (srv : server) (self : scraper)
    (download_url : string) (file_path : Pathlib.path) (attempt : Z) :
  requests_within 1 (download_attempt srv self download_url file_path attempt).
Proof.
  unfold download_attempt.
  apply (within_try_except 1 0).
  - apply (within_bind 1 0).
    + destruct (PyStr.contains _ _); [apply within_requests_get|].
      apply (within_bind 0 1); [apply within_get_auth_headers|].
      intros headers. apply within_requests_get.
    + intros response. destruct (Z.eqb _ _); [|apply within_raise].
      apply (within_bind 0 0); [apply within_write_file|]. intros _.
      apply (within_bind 0 0); [apply within_logger|]. intros _. apply within_ret.
  - intros e. destruct (is_RequestException e); [|apply within_raise].
    destruct (Z.eqb _ _); [apply within_raise|].
    apply (within_bind 0 0); [apply within_logger|]. intros _.
    apply (within_bind 0 0); [apply within_time_sleep|]. intros _. apply within_ret.
Qed.

(** A download makes at most three requests, whatever the server does. *)
Lemma download_document_at_most_three_requests (srv : server) (self : scraper)
    (doc : document) (download_path : string) (s : state) :
  (length (requests_of (trace (download_document srv self doc download_path s).2))
   <= length (requests_of (trace s)) + 3)%nat.
Proof.
  revert s. change (requests_within 3 (download_document srv self doc download_path)).
  unfold download_document.
  apply (within_try_except 3 0).
  - apply (within_bind 0 3); [apply within_mkdir|]. intros _.
    apply (within_bind 0 3); [apply within_getitem|]. intros name.
    apply (within_bind 0 3); [apply within_getitem|]. intros name'.
    apply (within_bind 0 3); [apply within_logger|]. intros _.
    apply (within_bind 0 3).
    + destruct (falsy _); [|apply within_ret].
      destruct (_ || _); [apply within_raise|apply within_ret].
    + intros download_url.
      apply (within_for_return 1 (range max_retries)).
      intros attempt. apply download_attempt_within.
  - intros e. apply (within_bind 0 0); [apply within_getitem|]. intros name.
    apply (within_bind 0 0); [apply within_logger|]. intros _. apply within_ret.
Qed.

(** A download raises for a descriptor without the key [name] only,
    and then it raises [KeyError]: the handler reads [document['name']]
    for its log line. *)
Lemma download_document_returns (srv : server) (self : scraper)
    (doc : document) (download_path : string) (s : state) :
  ∃ r s',
    download_document srv self doc download_path s = (r, s')
    ∧ match get_name doc with
      | Some _ => ∃ v, r = Return v
      | None => r = Raise (KeyError "name")
      end.
Proof.
  unfold download_document, try_except.
  destruct (get_name doc) as [name|] eqn:En.
  - match goal with |- context [match ?m s with _ => _ end] =>
      destruct (m s) as [[r|e] s1] end; cbn; eauto.
  - unfold bind at 1.
    destruct (mkdir_outcome document (library_path doc download_path) s)
      as ([[]|e] & s0 & Hm & _); rewrite Hm; cbn; eauto.
Qed.

(** Against a server that answers every request with the same status
    other than 200 (401, 403, 404, and 500 as well), a turn of the loop
    raises an error that the loop does not catch, after one request at
    most and without a pause. *)
Lemma download_attempt_raises_on_status (srv : server) (self : scraper)
    (download_url : string) (file_path : Pathlib.path) (attempt : Z) (r : response) (s : state) :
  (∀ tr req, srv tr req = Responds r) →
  status_code r ≠ 200 →
  ∃ e s' evs,
    download_attempt srv self download_url file_path attempt s = (Raise e, s')
    ∧ trace s' = (trace s ++ evs)%list
    ∧ (length (requests_of evs) <= 1)%nat
    ∧ pauses_of evs = [].
Proof.
  intros Hr Hstatus. unfold download_attempt, try_except, bind at 1.
  destruct (PyStr.contains _ _).
  - unfold requests_get. rewrite Hr. cbn.
    destruct (Z.eqb_spec (status_code r) 200) as [|_]; [done|]. cbn.
    do 3 eexists. split; [reflexivity|]. cbn. split; [reflexivity|]. cbn. split; [lia|done].
  - unfold bind at 1, get_auth_headers. destruct (falsy _); cbn.
    { exists (AuthenticationError "Not authenticated. Call authenticate() first."), s, [].
      rewrite app_nil_r. cbn. repeat split; lia. }
    unfold requests_get. rewrite Hr. cbn.
    destruct (Z.eqb_spec (status_code r) 200) as [|_]; [done|]. cbn.
    do 3 eexists. split; [reflexivity|]. cbn. split; [reflexivity|]. cbn. split; [lia|done].
Qed.

(** Hence such a download ends after one request at most, without a
    pause and without a path: a status 401, 403 or 404 is not retried,
    and neither is a status 500. *)
Lemma download_document_no_retry_on_status (srv : server) (self : scraper)
    (doc : document) (download_path : string) (r : response) (s : state) :
  (∀ tr req, srv tr req = Responds r) →
  status_code r ≠ 200 →
  is_Some (get_name doc) →
  ∃ s', download_document srv self doc download_path s = (Return None, s')
        ∧ (length (requests_of (trace s')) <= length (requests_of (trace s)) + 1)%nat
        ∧ pauses_of (trace s') = pauses_of (trace s).
Proof.
  intros Hr Hstatus [name Hname].
  assert (Hbody : ∀ download_url s0,
    ∃ e s' evs,
      for_return (range max_retries)
        (download_attempt srv self download_url (file_path doc download_path name)) s0
      = (Raise e, s')
      ∧ trace s' = (trace s0 ++ evs)%list
      ∧ (length (requests_of evs) <= 1)%nat ∧ pauses_of evs = []).
  { intros download_url s0.
    destruct (download_attempt_raises_on_status srv self download_url
                (file_path doc download_path name) 0 r s0 Hr Hstatus)
      as (e & s' & evs & Hat & Htr & Hreq & Hp).
    exists e, s', evs. split; [|done].
    change (range max_retries) with [0; 1; 2]. cbn [for_return]. unfold bind.
    by rewrite Hat. }
  assert (Hfin : ∀ e (s1 : state) evs,
    trace s1 = (trace s ++ evs)%list →
    (length (requests_of evs) <= 1)%nat → pauses_of evs = [] →
    ∃ s', (name <- getitem "name" (Some name) ;;
           logger ERROR ("Error downloading " ++ name ++ ": " ++ exn_str e) ;;;
           ret (None : option string))%py s1 = (Return None, s')
          ∧ (length (requests_of (trace s')) <= length (requests_of (trace s)) + 1)%nat
          ∧ pauses_of (trace s') = pauses_of (trace s)).
  { intros e s1 evs Htr Hreq Hp. cbn.
    eexists. split; [reflexivity|]. cbn.
    rewrite Htr. unfold requests_of, pauses_of in *.
    rewrite !List.filter_app, !length_app. cbn.
    rewrite Hp, !app_nil_r. split; [lia|done]. }
  unfold download_document, try_except, bind at 1. rewrite Hname.
  destruct (mkdir_outcome document (library_path doc download_path) s)
    as ([[]|e0] & s0 & Hm & Htr0 & _); rewrite Hm.
  2:{ apply (Hfin e0 s0 []); [by rewrite app_nil_r|cbn; lia|done]. }
  unfold bind at 1. cbn [getitem ret]. unfold bind at 1. cbn [ret].
  unfold bind at 1, logger, emit, modify. cbn [trace documents files dirs denied].
  unfold bind at 1.
  destruct (falsy (doc_download_url doc)).
  - destruct (_ || _); cbn [raise ret].
    { apply (Hfin _ _ [Log INFO ("Downloading: " ++ name)]); cbn [trace];
        [by rewrite Htr0|cbn; lia|done]. }
    match goal with |- context [for_return _ (download_attempt _ _ ?u _) ?s1] =>
      destruct (Hbody u s1) as (e & s' & evs & Hfor & Htr & Hreq & Hp)
    end.
    rewrite Hfor.
    apply (Hfin e s' (Log INFO ("Downloading: " ++ name) :: evs)); [|done|done].
    rewrite Htr. cbn [trace]. by rewrite Htr0, <- app_assoc.
  - cbn [ret].
    match goal with |- context [for_return _ (download_attempt _ _ ?u _) ?s1] =>
      destruct (Hbody u s1) as (e & s' & evs & Hfor & Htr & Hreq & Hp)
    end.
    rewrite Hfor.
    apply (Hfin e s' (Log INFO ("Downloading: " ++ name) :: evs)); [|done|done].
    rewrite Htr. cbn [trace]. by rewrite Htr0, <- app_assoc.
Qed.

(** C1, at the failing input: against the endpoint that answers 500,
    500, then 200, [download_document] makes one request, does not
    pause, writes no file and returns [None]: the first 500 raises
    [DownloadError], which the retry loop does not catch. *)
Theorem download_gives_up_after_first_500 :
  let run := download_document Scenario.recovering Scenario.connected Scenario.report
                               "downloads" initial_state in
  run.1 = Return None
  ∧ schedule_of (trace run.2)
    = [Request "https://graph.microsoft.com/v1.0/sites/site/drives/drive1/items/report.pdf/content"]
  ∧ files run.2 = ∅.
Proof. repeat split; by vm_compute. Qed.

(** Against the endpoint that always answers 403 the download fails
    after one request. *)
Lemma download_forbidden_fails_after_one_attempt :
  let run := download_document Scenario.forbidden Scenario.connected Scenario.report
                               "downloads" initial_state in
  run.1 = Return None
  ∧ schedule_of (trace run.2)
    = [Request "https://graph.microsoft.com/v1.0/sites/site/drives/drive1/items/report.pdf/content"].
Proof. split; by vm_compute. Qed.

(** Two failures of the connection are retried, after 1 s and 2 s, and
    the third attempt succeeds. *)
Lemma download_retries_connection_failures :
  let run := download_document Scenario.flaky Scenario.connected Scenario.report
                               "downloads" initial_state in
  let content_url :=
    "https://graph.microsoft.com/v1.0/sites/site/drives/drive1/items/report.pdf/content" in
  run.1 = Return (Some "downloads/Documents/report.pdf")
  ∧ schedule_of (trace run.2)
    = [Request content_url; Pause 1000; Request content_url; Pause 2000;
       Request content_url]
  ∧ files run.2 !! "downloads/Documents/report.pdf" = Some "%PDF".
Proof. repeat split; by vm_compute. Qed.

(** A connection that always fails is tried three times. *)
Lemma download_gives_up_after_three_connection_failures :
  let run := download_document Scenario.unreachable Scenario.connected Scenario.report
                               "downloads" initial_state in
  let content_url :=
    "https://graph.microsoft.com/v1.0/sites/site/drives/drive1/items/report.pdf/content" in
  run.1 = Return None
  ∧ schedule_of (trace run.2)
    = [Request content_url; Pause 1000; Request content_url; Pause 2000;
       Request content_url].
Proof. split; by vm_compute. Qed.

(** The download loop of the script retries a status 500: against the
    endpoint that answers 500, 500, then 200 its third attempt succeeds. *)
Lemma script_download_recovers_from_500 :
  let run := Legacy.download_and_ingest_document Scenario.recovering (fun _ _ => None)
               Scenario.connected_script Scenario.report_script "downloads"
               Run.initial_state in
  let content_url :=
    "https://graph.microsoft.com/v1.0/sites/site/drives/drive1/items/report.pdf/content" in
  run.1 = Return (Some true)
  ∧ schedule_of (trace run.2)
    = [Request content_url; Pause 2000; Request content_url; Pause 2000;
       Request content_url].
Proof. split; by vm_compute. Qed.

(** Against the endpoint that always answers 403 the script stops after
    one request. *)
Lemma script_download_forbidden_fails_after_one_attempt :
  let run := Legacy.download_and_ingest_document Scenario.forbidden (fun _ _ => None)
               Scenario.connected_script Scenario.report_script "downloads"
               Run.initial_state in
  run.1 = Return (Some false)
  ∧ schedule_of (trace run.2)
    = [Request "https://graph.microsoft.com/v1.0/sites/site/drives/drive1/items/report.pdf/content"].
Proof. split; by vm_compute. Qed.

End DownloadFacts.

(** ** The sanitizer never returns the empty name *)

Section SanitizerTotal.
Import PyStr Sanitizer.

Lemma truncate_nonempty y : y ≠ [] → truncate y ≠ [].
Proof.
  intros Hy. unfold truncate.
  pose proof (splitext_app y) as Happ.
  destruct (splitext y) as [name ext]. simpl in Happ.
  intros [Hn ->]%app_eq_nil. rewrite app_nil_r in Happ. subst name.
  destruct y as [|c y]; [done|]. by vm_compute in Hn.
Qed.

Lemma sanitize_chars_nonempty s : sanitize_chars s ≠ [].
Proof.
  unfold sanitize_chars. destruct s as [|a s]; [done|].
  destruct (stripped (a :: s)) as [|c y] eqn:E; [done|].
  destruct (200 <? _); [|done]. by apply truncate_nonempty.
Qed.

Lemma sanitize_filename_nonempty (x : string) :
  (0 < String.length (_sanitize_filename x))%nat.
Proof.
  unfold _sanitize_filename. rewrite text_length.
  pose proof (sanitize_chars_nonempty (chars x)).
  destruct (sanitize_chars (chars x)); [done|]. simpl. lia.
Qed.

End SanitizerTotal.

Section SanitizerContract.
Import PyStr Sanitizer.

(** X1: whatever the name, the sanitizer returns a name that is not
    empty and holds none of the characters of [invalid_chars]. *)
Theorem sanitize_filename_is_a_usable_name (x : string) :
  (0 < String.length (_sanitize_filename x))%nat
  ∧ Forall (fun c => c ∉ invalid_chars) (chars (_sanitize_filename x)).
Proof.
  split; [apply sanitize_filename_nonempty|].
  apply Forall_forall. intros c Hc Hi. by eapply sanitize_filename_valid.
Qed.

(** X2: when the extension of the cleaned name has at most 200
    characters, the result has at most 200; a name that is cut has
    exactly 200 and keeps its extension. *)
Theorem sanitize_filename_cut_keeps_the_extension (x : string) :
  len (splitext (stripped (chars x))).2 <= 200 →
  (String.length (_sanitize_filename x) <= 200)%nat
  ∧ (200 < len (stripped (chars x)) →
     String.length (_sanitize_filename x) = 200%nat
     ∧ ∃ stem, chars (_sanitize_filename x)
               = stem ++ (splitext (stripped (chars x))).2).
Proof.
  intros Hext. split; [by apply sanitize_filename_length|].
  intros Hlong. assert (Hx : x ≠ EmptyString).
  { intros ->. revert Hlong. by vm_compute. }
  split; [by apply sanitize_filename_cut|].
  unfold _sanitize_filename. rewrite chars_text. unfold sanitize_chars.
  destruct (chars x) as [|a l] eqn:Ex.
  { destruct x; [done|discriminate]. }
  destruct (stripped (a :: l)) as [|c y] eqn:Es.
  { revert Hlong. by vm_compute. }
  apply Z.ltb_lt in Hlong. rewrite Hlong. unfold truncate.
  destruct (splitext (c :: y)) as [name ext]. by eexists.
Qed.

End SanitizerContract.

(** A name of 300 letters and the extension [.txt]. *)
Lemma sanitize_filename_cut_keeps_the_extension_witness :
  let x := PyStr.text (replicate 300 "a"%char ++ PyStr.chars ".txt") in
  (String.length (Sanitizer._sanitize_filename x) <= 200)%nat
  ∧ (200 < PyStr.len (Sanitizer.stripped (PyStr.chars x)) →
     String.length (Sanitizer._sanitize_filename x) = 200%nat
     ∧ ∃ stem, PyStr.chars (Sanitizer._sanitize_filename x)
               = stem ++ (PyStr.splitext (Sanitizer.stripped (PyStr.chars x))).2).
Proof.
  apply (sanitize_filename_cut_keeps_the_extension
           (PyStr.text (replicate 300 "a"%char ++ PyStr.chars ".txt"))).
  vm_compute. discriminate.
Defined.

(** ** What the enumeration requests and collects *)

Section ObserveFacts.
Import Py Graph Run Scraper Observe.

Variable P : event → Prop.
Variable Q : document → Prop.

Lemma extends_ret {A} (a : A) : extends P Q (ret a).
Proof. intros s. exists [], []. cbn. by rewrite !app_nil_r. Qed.

Lemma extends_raise {A} (e : exn) : extends P Q (raise (A := A) e).
Proof. intros s. exists [], []. cbn. by rewrite !app_nil_r. Qed.

Lemma extends_get : extends P Q (get (S := state)).
Proof. intros s. exists [], []. cbn. by rewrite !app_nil_r. Qed.

Lemma extends_bind {A B} (m : M state A) (f : A → M state B) :
  extends P Q m → (∀ a, extends P Q (f a)) → extends P Q (bind m f).
Proof.
  intros Hm Hf s. unfold bind.
  destruct (Hm s) as (evs & docs & Ht & HP & Hd & HQ).
  destruct (m s) as [[a|e] s1]; cbn in *.
  - destruct (Hf a s1) as (evs' & docs' & Ht' & HP' & Hd' & HQ').
    exists (evs ++ evs'), (docs ++ docs').
    rewrite Ht', Ht, Hd', Hd, !app_assoc.
    by rewrite !Forall_app.
  - by exists evs, docs.
Qed.

Lemma extends_bind_val {A B} (R : A → Prop) (m : M state A)
    (f : A → M state B) :
  (∀ s a s', m s = (Return a, s') → R a) →
  extends P Q m → (∀ a, R a → extends P Q (f a)) → extends P Q (bind m f).
Proof.
  intros HR Hm Hf s. unfold bind.
  destruct (Hm s) as (evs & docs & Ht & HP & Hd & HQ).
  destruct (m s) as [[a|e] s1] eqn:E; cbn in *.
  - destruct (Hf a (HR _ _ _ E) s1) as (evs' & docs' & Ht' & HP' & Hd' & HQ').
    exists (evs ++ evs'), (docs ++ docs').
    rewrite Ht', Ht, Hd', Hd, !app_assoc.
    by rewrite !Forall_app.
  - by exists evs, docs.
Qed.

Lemma extends_try_except {A} (m : M state A) (h : exn → M state A) :
  extends P Q m → (∀ e, extends P Q (h e)) → extends P Q (try_except m h).
Proof.
  intros Hm Hh s. unfold try_except.
  destruct (Hm s) as (evs & docs & Ht & HP & Hd & HQ).
  destruct (m s) as [[a|e] s1]; cbn in *.
  - by exists evs, docs.
  - destruct (Hh e s1) as (evs' & docs' & Ht' & HP' & Hd' & HQ').
    exists (evs ++ evs'), (docs ++ docs').
    rewrite Ht', Ht, Hd', Hd, !app_assoc.
    by rewrite !Forall_app.
Qed.

Lemma extends_for_each {A} (l : list A) (body : A → M state unit) :
  (∀ x, x ∈ l → extends P Q (body x)) → extends P Q (for_each l body).
Proof.
  induction l as [|x l IH]; intros Hbody; cbn [for_each].
  - apply extends_ret.
  - apply extends_bind; [apply Hbody; by left|].
    intros _. apply IH. intros y Hy. apply Hbody. by right.
Qed.

Lemma extends_for_return {A B} (l : list A) (body : A → M state (option B)) :
  (∀ x, extends P Q (body x)) → extends P Q (for_return l body).
Proof.
  intros Hbody. induction l as [|x l IH]; cbn [for_return].
  - apply extends_ret.
  - apply extends_bind; [apply Hbody|]. intros [v|]; [apply extends_ret|apply IH].
Qed.

Lemma extends_emit (e : event) : P e → extends P Q (emit e).
Proof.
  intros He s. exists [e], []. cbn.
  split; [done|]. split; [by apply Forall_singleton|].
  split; [by rewrite app_nil_r|done].
Qed.

Lemma extends_requests_get (srv : server) (req : request) :
  P (Get req) → extends P Q (requests_get srv req).
Proof.
  intros He s. exists [Get req], []. unfold requests_get.
  destruct (srv (trace s) req); cbn;
    (split; [done|]; split; [by apply Forall_singleton|];
     split; [by rewrite app_nil_r|done]).
Qed.

Lemma extends_response_json (r : response) :
  extends P Q (response_json (D := document) r).
Proof.
  unfold response_json. destruct (json r); [apply extends_ret|apply extends_raise].
Qed.

Lemma extends_documents_append (doc : document) :
  Q doc → extends P Q (documents_append doc).
Proof.
  intros Hd s. exists [], [doc]. cbn.
  split; [by rewrite app_nil_r|]. split; [done|].
  split; [done|by apply Forall_singleton].
Qed.

Lemma extends_get_auth_headers (self : scraper) :
  extends P Q (get_auth_headers self).
Proof.
  unfold get_auth_headers.
  destruct (falsy _); [apply extends_raise|apply extends_ret].
Qed.

Lemma extends_mkdir (path : Pathlib.path) :
  extends P Q (mkdir (D := document) path).
Proof.
  intros s. exists [], [].
  destruct (mkdir_outcome document path s) as (r & s' & -> & Ht & Hd & _).
  cbn [snd]. by rewrite Ht, Hd, !app_nil_r.
Qed.

Lemma extends_write_file (path : Pathlib.path) (data : string) :
  extends P Q (write_file (D := document) path data).
Proof.
  intros s. exists [], [].
  destruct (write_file_outcome document path data s) as (r & s' & -> & Ht & Hd & _).
  cbn [snd]. by rewrite Ht, Hd, !app_nil_r.
Qed.

Lemma extends_getitem (key : string) (value : option string) :
  extends P Q (getitem (S := state) key value).
Proof. destruct value; [apply extends_ret|apply extends_raise]. Qed.

End ObserveFacts.

Section CollectFacts.
Import Py Graph Run Scraper Observe.
Local Open Scope string_scope.

Lemma extends_weaken (P P' : event → Prop) (Q Q' : document → Prop)
    {A} (m : M state A) :
  (∀ e, P e → P' e) → (∀ d, Q d → Q' d) → extends P Q m → extends P' Q' m.
Proof.
  intros HP HQ Hm s. destruct (Hm s) as (evs & docs & Ht & HPs & Hd & HQs).
  exists evs, docs. repeat split; try done.
  - eapply Forall_impl; [exact HPs|done].
  - eapply Forall_impl; [exact HQs|done].
Qed.

(** The headers of the requests of a scan are the ones it was given, it
    makes no pause, and every descriptor it adds belongs to the library
    it scans. *)
Lemma scan_extends (depth : nat) (srv : server) (self : scraper)
    (drive_id : option string) (folder_path library_name : string)
    (hdrs : gmap string string) (page_url : option string) :
  extends (fun e => match e with
                    | Get req => headers req = hdrs
                    | Sleep _ => False
                    | Log _ _ => True
                    end)
          (described drive_id library_name)
          (_scan_drive_recursive depth srv self drive_id folder_path
                                 library_name hdrs page_url).
Proof.
  revert folder_path page_url.
  induction depth as [|depth IH]; intros folder_path page_url;
    cbn [_scan_drive_recursive].
  - apply extends_raise.
  - apply extends_try_except; [|intros e; by apply extends_emit].
    apply extends_bind; [by apply extends_requests_get|]. intros r.
    destruct (negb _); [by apply extends_emit|].
    apply extends_bind; [apply extends_response_json|]. intros data.
    apply extends_bind.
    + apply extends_for_each. intros item _. unfold scan_item.
      destruct (e_file item).
      * apply extends_documents_append. by repeat split.
      * destruct (e_folder item); [apply IH|apply extends_ret].
    + intros _. destruct (negb _); [apply IH|apply extends_ret].
Qed.

Lemma safely_named_of_described drive_id library_name d :
  described drive_id library_name d → safely_named d.
Proof.
  intros (_ & _ & _ & Hname & Hn). eexists.
  split; [done|]. split; [done|]. split; [done|]. split.
  - apply sanitize_filename_nonempty.
  - apply Forall_forall. intros c Hc Hi.
    by eapply sanitize_filename_valid.
Qed.

Lemma returns_documents_bind {A} (m : M state A)
    (f : A → M state (list document)) :
  (∀ a, returns_documents (f a)) → returns_documents (bind m f).
Proof.
  intros Hf s. unfold bind. destruct (m s) as [[a|e] s1]; [apply Hf|done].
Qed.

Lemma authorization_header (self : scraper) (hdrs : gmap string string)
    (s s' : state) :
  get_auth_headers self s = (Return hdrs, s') →
  hdrs !! "Authorization" = Some ("Bearer " ++ fmt (access_token self)).
Proof.
  unfold get_auth_headers. destruct (falsy _); [done|].
  intros [= <- _]. by rewrite lookup_insert_eq.
Qed.

(** What [get_documents] adds to the trace, and the list it leaves in
    [documents] when it got as far as [documents = []]. *)
Lemma get_documents_extends (depth : nat) (srv : server) (self : scraper)
    (s : state) :
  ∃ r s' evs docs,
    get_documents depth srv self s = (r, s')
    ∧ trace s' = (trace s ++ evs)%list
    ∧ Forall (authorized self) evs
    ∧ documents s'
      = (if negb (is_authenticated self) || falsy (site_id self)
         then documents s else docs)
    ∧ Forall safely_named docs.
Proof.
  unfold get_documents. destruct (negb _ || _).
  { eexists _, _, [], []. split; [done|]. cbn. by rewrite app_nil_r. }
  unfold bind at 1. cbn [documents_new modify].
  match goal with
  | |- context [try_except ?m ?h ?s0] =>
      assert (H : extends (authorized self) safely_named (try_except m h));
      [|destruct (H s0) as (evs & docs & Ht & HP & Hd & HQ);
        destruct (try_except m h s0) as [r s'];
        by exists r, s', evs, docs]
  end.
  apply extends_try_except.
  2:{ intros e. apply extends_bind; [by apply extends_emit|].
      intros _. apply extends_raise. }
  apply extends_bind; [by apply extends_emit|]. intros _.
  apply (extends_bind_val _ _
           (fun hdrs => hdrs !! "Authorization"
                        = Some ("Bearer " ++ fmt (access_token self))));
    [intros s0 hdrs s1; apply authorization_header
    |apply extends_get_auth_headers|].
  intros hdrs Hauth.
  apply extends_bind; [by apply extends_requests_get|]. intros r.
  destruct (negb _); [apply extends_raise|].
  apply extends_bind; [apply extends_response_json|]. intros data.
  apply extends_bind; [by apply extends_emit|]. intros _.
  apply extends_bind.
  - apply extends_for_each. intros drive _.
    apply extends_bind; [by apply extends_emit|]. intros _.
    apply extends_try_except; [|intros e; by apply extends_emit].
    eapply extends_weaken; [| |apply scan_extends].
    + intros [req| |]; cbn; [by intros ->|done|done].
    + intros d. apply safely_named_of_described.
  - intros _. apply extends_bind; [apply extends_get|]. intros s2.
    apply extends_bind; [by apply extends_emit|]. intros _. apply extends_ret.
Qed.

Lemma get_documents_returns_documents (depth : nat) (srv : server)
    (self : scraper) :
  returns_documents (get_documents depth srv self).
Proof.
  unfold get_documents. destruct (negb _ || _); [done|].
  apply returns_documents_bind. intros _ s. unfold try_except.
  match goal with |- context [?m s] =>
    assert (H : returns_documents m); [|specialize (H s); destruct (m s) as [[docs|e] s1]]
  end.
  - apply returns_documents_bind. intros _.
    apply returns_documents_bind. intros hdrs.
    apply returns_documents_bind. intros r.
    destruct (negb _); [done|].
    apply returns_documents_bind. intros data.
    apply returns_documents_bind. intros _.
    apply returns_documents_bind. intros _.
    intros s0. by cbn.
  - done.
  - by cbn.
Qed.

Lemma get_documents_raises_SharePointError (depth : nat) (srv : server)
    (self : scraper) :
  raises_SharePointError (get_documents depth srv self).
Proof.
  intros s. unfold get_documents. destruct (negb _ || _); [by eexists|].
  unfold bind at 1. cbn [documents_new modify]. unfold try_except.
  match goal with |- context [match ?m ?s0 with _ => _ end] =>
    destruct (m s0) as [[docs|e] s1]
  end; [done|]. cbn. by eexists.
Qed.

(** X3: [get_documents] sends its token with every request, makes no
    pause, and raises nothing but [SharePointError]. *)
Theorem get_documents_requests_carry_the_token (depth : nat) (srv : server)
    (self : scraper) (s : state) :
  ∃ r s' evs,
    get_documents depth srv self s = (r, s')
    ∧ trace s' = (trace s ++ evs)%list
    ∧ Forall (authorized self) evs
    ∧ match r with
      | Return _ => True
      | Raise e => ∃ msg, e = SharePointError msg
      end.
Proof.
  destruct (get_documents_extends depth srv self s)
    as (r & s' & evs & docs & Hrun & Ht & HP & _).
  exists r, s', evs. repeat split; try done.
  pose proof (get_documents_raises_SharePointError depth srv self s) as H.
  by rewrite Hrun in H.
Qed.

(** X4: the descriptors [get_documents] returns are the list it built,
    each with a [safe_name] that is the sanitized [name]: not empty and
    free of the characters the sanitizer replaces. *)
Theorem get_documents_returns_safely_named_documents (depth : nat)
    (srv : server) (self : scraper) (s : state) :
  match get_documents depth srv self s with
  | (Return docs, s') => docs = documents s' ∧ Forall safely_named docs
  | (Raise e, s') => ∃ msg, e = SharePointError msg
  end.
Proof.
  destruct (get_documents_extends depth srv self s)
    as (r & s' & evs & docs & Hrun & _ & _ & Hd & HQ).
  pose proof (get_documents_returns_documents depth srv self s) as Hr.
  pose proof (get_documents_raises_SharePointError depth srv self s) as He.
  rewrite Hrun in *. cbn in He. destruct r as [ds|e]; [|done].
  split; [done|]. subst ds. rewrite Hd.
  destruct (negb _ || _) eqn:Ec; [|done].
  revert Hrun. unfold get_documents. by rewrite Ec.
Qed.

End CollectFacts.

(** ** The schedule and the files of a download *)

Section DownloadOutcome.
Import Py Graph Run Scraper Observe.
Local Open Scope string_scope.

Lemma schedule_of_app (l l' : list event) :
  schedule_of (l ++ l') = (schedule_of l ++ schedule_of l')%list.
Proof. unfold schedule_of. apply omap_app. Qed.

(** One turn of the retry loop: what it returns, what it adds to the
    trace and what it does to the files. *)
Lemma download_attempt_outcome (srv : server) (self : scraper)
    (download_url : string) (file_path : Pathlib.path) (attempt : Z) (s : state) :
  ∃ r s' evs,
    download_attempt srv self download_url file_path attempt s = (r, s')
    ∧ trace s' = (trace s ++ evs)%list
    ∧ documents s' = documents s ∧ denied s' = denied s
    ∧ match r with
      | Return (Some p) =>
          p = Pathlib.str_of file_path
          ∧ (∃ data, files s' = <[p := data]> (files s))
          ∧ schedule_of evs = [Request download_url]
      | Return None =>
          files s' = files s
          ∧ schedule_of evs = [Request download_url; Pause (1000 * 2 ^ attempt)]
          ∧ Z.eqb attempt (max_retries - 1) = false
      | Raise e =>
          files s' = files s
          ∧ schedule_of evs
            = (if sends self download_url then [Request download_url] else [])
      end
    ∧ (sends self download_url = false → ∃ e, r = Raise e).
Proof.
  unfold download_attempt, try_except, bind, sends.
  destruct (PyStr.contains _ _); cbn [orb].
  - unfold requests_get. destruct (srv (trace s) _) as [r|msg]; cbn.
    + destruct (Z.eqb (status_code r) 200).
      * unfold write_file.
        destruct (Pathlib.has_null file_path);
          [cbn; eexists _, _, [_]; repeat split; eauto; done|].
        destruct (bool_decide (_ ∈ _));
          [cbn; eexists _, _, [_]; repeat split; eauto; done|].
        destruct (is_dir _ file_path);
          [cbn; eexists _, _, [_]; repeat split; eauto; done|].
        destruct (negb (is_dir _ _)); cbn.
        -- eexists _, _, [_]. repeat split; eauto; done.
        -- eexists _, _, [_; _]. rewrite <- app_assoc. repeat split; eauto; done.
      * cbn. eexists _, _, [_]. repeat split; eauto; done.
    + destruct (Z.eqb attempt (max_retries - 1)) eqn:E; cbn.
      * eexists _, _, [_]. repeat split; eauto; done.
      * eexists _, _, [_; _; _]. rewrite <- !app_assoc. repeat split; eauto; done.
  - unfold get_auth_headers. destruct (falsy _); cbn.
    { eexists _, _, []. rewrite app_nil_r. repeat split; eauto. }
    unfold requests_get. destruct (srv (trace s) _) as [r|msg]; cbn.
    + destruct (Z.eqb (status_code r) 200).
      * unfold write_file.
        destruct (Pathlib.has_null file_path);
          [cbn; eexists _, _, [_]; repeat split; eauto; done|].
        destruct (bool_decide (_ ∈ _));
          [cbn; eexists _, _, [_]; repeat split; eauto; done|].
        destruct (is_dir _ file_path);
          [cbn; eexists _, _, [_]; repeat split; eauto; done|].
        destruct (negb (is_dir _ _)); cbn.
        -- eexists _, _, [_]. repeat split; eauto; done.
        -- eexists _, _, [_; _]. rewrite <- app_assoc. repeat split; eauto; done.
      * cbn. eexists _, _, [_]. repeat split; eauto; done.
    + destruct (Z.eqb attempt (max_retries - 1)) eqn:E; cbn.
      * eexists _, _, [_]. repeat split; eauto; done.
      * eexists _, _, [_; _; _]. rewrite <- !app_assoc. repeat split; eauto; done.
Qed.

Lemma retry_loop_outcome (srv : server) (self : scraper)
    (download_url : string) (file_path : Pathlib.path) (s : state) :
  ∃ r s' evs n,
    for_return (range max_retries)
      (download_attempt srv self download_url file_path) s = (r, s')
    ∧ trace s' = (trace s ++ evs)%list
    ∧ documents s' = documents s ∧ denied s' = denied s
    ∧ (n <= 3)%nat
    ∧ schedule_of evs = take (2 * n - 1) (backoff_schedule download_url)
    ∧ match r with
      | Return (Some p) =>
          p = Pathlib.str_of file_path ∧ ∃ data, files s' = <[p := data]> (files s)
      | Return None => False
      | Raise e => files s' = files s
      end.
Proof.
  change (range max_retries) with [0; 1; 2]. cbn [for_return]. unfold bind.
  destruct (download_attempt_outcome srv self download_url file_path 0 s)
    as (r0 & s0 & evs0 & -> & Ht0 & Hd0 & Hn0 & H0 & Hno0).
  destruct (sends self download_url) eqn:Esends.
  2:{ destruct (Hno0 eq_refl) as [e ->]. destruct H0 as (Hf & Hs).
      exists (Raise e), s0, evs0, 0%nat. rewrite Hs.
      repeat split; try done; lia. }
  clear Hno0. destruct r0 as [[p|]|e].
  { destruct H0 as (-> & Hf & Hs).
    exists (Return (Some (Pathlib.str_of file_path))), s0, evs0, 1%nat.
    cbn. rewrite Hs. repeat split; try done; lia. }
  2:{ destruct H0 as (Hf & Hs).
      exists (Raise e), s0, evs0, 1%nat. rewrite Hs.
      repeat split; try done; lia. }
  destruct H0 as (Hf0 & Hs0 & _).
  destruct (download_attempt_outcome srv self download_url file_path 1 s0)
    as (r1 & s1 & evs1 & -> & Ht1 & Hd1 & Hn1 & H1 & _).
  rewrite Esends in H1.
  destruct r1 as [[p|]|e].
  { destruct H1 as (-> & Hf & Hs).
    exists (Return (Some (Pathlib.str_of file_path))), s1, (evs0 ++ evs1)%list, 2%nat.
    cbn. rewrite schedule_of_app, Hs0, Hs, Ht1, Ht0, Hd1, Hn1, app_assoc.
    rewrite <- Hf0. repeat split; try done; lia. }
  2:{ destruct H1 as (Hf & Hs).
      exists (Raise e), s1, (evs0 ++ evs1)%list, 2%nat.
      rewrite schedule_of_app, Hs0, Hs, Ht1, Ht0, Hd1, Hn1, app_assoc, Hf.
      repeat split; try done; lia. }
  destruct H1 as (Hf1 & Hs1 & _).
  destruct (download_attempt_outcome srv self download_url file_path 2 s1)
    as (r2 & s2 & evs2 & -> & Ht2 & Hd2 & Hn2 & H2 & _).
  rewrite Esends in H2.
  destruct r2 as [[p|]|e].
  { destruct H2 as (-> & Hf & Hs).
    exists (Return (Some (Pathlib.str_of file_path))), s2, (evs0 ++ evs1 ++ evs2)%list, 3%nat.
    cbn. rewrite !schedule_of_app, Hs0, Hs1, Hs, Ht2, Ht1, Ht0, Hd2, Hd1, Hn2, Hn1.
    rewrite <- Hf0, <- Hf1, !app_assoc. repeat split; try done; lia. }
  { by destruct H2 as (_ & _ & ?). }
  destruct H2 as (Hf & Hs).
  exists (Raise e), s2, (evs0 ++ evs1 ++ evs2)%list, 3%nat.
  rewrite !schedule_of_app, Hs0, Hs1, Hs, Ht2, Ht1, Ht0, Hd2, Hd1, Hn2, Hn1.
  rewrite Hf, Hf1, !app_assoc. repeat split; try done; lia.
Qed.

Lemma download_document_outcome (srv : server) (self : scraper)
    (doc : document) (download_path : string) (s : state) :
  ∃ r s' evs u n,
    download_document srv self doc download_path s = (r, s')
    ∧ trace s' = (trace s ++ evs)%list
    ∧ documents s' = documents s ∧ denied s' = denied s
    ∧ (n <= 3)%nat
    ∧ schedule_of evs = take (2 * n - 1) (backoff_schedule u)
    ∧ match get_name doc with
      | None => r = Raise (KeyError "name") ∧ files s' = files s
      | Some name =>
          match r with
          | Return (Some p) =>
              p = Pathlib.str_of (file_path doc download_path name)
              ∧ ∃ data, files s' = <[p := data]> (files s)
          | Return None => files s' = files s
          | Raise _ => False
          end
      end.
Proof.
  unfold download_document, try_except. unfold bind at 1.
  destruct (mkdir_outcome document (library_path doc download_path) s)
    as ([[]|e0] & s0 & Hm & Ht0 & Hd0 & Hf0 & Hn0 & _); rewrite Hm;
    destruct (get_name doc) as [name|].
  2:{ cbn. eexists _, _, [], EmptyString, 0%nat. rewrite app_nil_r.
      repeat split; eauto. }
  2:{ cbn. eexists _, _, [_], EmptyString, 0%nat. rewrite Ht0.
      repeat split; eauto. }
  2:{ cbn. eexists _, _, [], EmptyString, 0%nat. rewrite app_nil_r.
      repeat split; eauto. }
  cbn [getitem]. unfold bind at 1. cbn [ret]. unfold bind at 1. cbn [ret].
  unfold bind at 1. cbn [logger emit modify].
  unfold bind at 1.
  assert (Hloop : ∀ u,
    ∃ r s' evs n,
      for_return (range max_retries)
        (download_attempt srv self u (file_path doc download_path name))
        {| trace := trace s0 ++ [Log INFO ("Downloading: " ++ name)];
           documents := documents s0; files := files s0; dirs := dirs s0;
           denied := denied s0 |} = (r, s')
      ∧ trace s' = (trace s ++ Log INFO ("Downloading: " ++ name) :: evs)%list
      ∧ documents s' = documents s ∧ denied s' = denied s
      ∧ (n <= 3)%nat
      ∧ schedule_of evs = take (2 * n - 1) (backoff_schedule u)
      ∧ match r with
        | Return (Some p) =>
            p = Pathlib.str_of (file_path doc download_path name)
            ∧ ∃ data, files s' = <[p := data]> (files s)
        | Return None => False
        | Raise e => files s' = files s
        end).
  { intros u.
    match goal with
    | |- context [for_return _ (download_attempt _ _ u ?fp) ?s1] =>
        destruct (retry_loop_outcome srv self u fp s1)
          as (r & s' & evs & n & Hrun & Ht & Hd & Hn & Hle & Hs & Hr)
    end.
    cbn [trace documents files denied] in Ht, Hd, Hn, Hr.
    rewrite Hf0 in Hr.
    exists r, s', evs, n. split; [exact Hrun|].
    rewrite Ht, <- app_assoc, Ht0, Hd, Hd0, Hn, Hn0.
    by repeat split. }
  assert (Hend : ∀ u r s1 evs n,
    trace s1 = (trace s ++ Log INFO ("Downloading: " ++ name) :: evs)%list →
    documents s1 = documents s → denied s1 = denied s →
    (n <= 3)%nat →
    schedule_of evs = take (2 * n - 1) (backoff_schedule u) →
    match r with
    | Return (Some p) =>
        p = Pathlib.str_of (file_path doc download_path name)
        ∧ ∃ data, files s1 = <[p := data]> (files s)
    | Return None => False
    | Raise e => files s1 = files s
    end →
    ∃ r' s' evs' u' n',
      match r with
      | Return a => (Return a, s1)
      | Raise e =>
          (name <- getitem "name" (Some name) ;;
           logger ERROR ("Error downloading " ++ name ++ ": " ++ exn_str e) ;;;
           ret (None : option string))%py s1
      end = (r', s')
      ∧ trace s' = (trace s ++ evs')%list
      ∧ documents s' = documents s ∧ denied s' = denied s
      ∧ (n' <= 3)%nat
      ∧ schedule_of evs' = take (2 * n' - 1) (backoff_schedule u')
      ∧ match r' with
        | Return (Some p) =>
            p = Pathlib.str_of (file_path doc download_path name)
            ∧ ∃ data, files s' = <[p := data]> (files s)
        | Return None => files s' = files s
        | Raise _ => False
        end).
  { intros u r s1 evs n Ht Hd Hn Hle Hs Hr. destruct r as [[p|]|e]; [|done|].
    - exists (Return (Some p)), s1,
        (Log INFO ("Downloading: " ++ name) :: evs), u, n.
      repeat split; try done; by destruct Hr.
    - cbn. eexists _, _,
        (Log INFO ("Downloading: " ++ name) :: evs ++ [Log ERROR _])%list, u, n.
      split; [reflexivity|]. cbn [trace documents files denied].
      rewrite Ht, <- app_assoc.
      change (schedule_of (?e :: evs ++ ?l)) with (schedule_of (evs ++ l)).
      rewrite schedule_of_app, Hs.
      change (schedule_of [Log ERROR ?m]) with (@nil step).
      rewrite app_nil_r. repeat split; eauto. }
  destruct (falsy (doc_download_url doc)).
  - destruct (falsy (doc_drive_id doc) || falsy (doc_id doc)); cbn [raise ret].
    + apply (Hend EmptyString (Raise _) _ [] 0%nat); cbn [trace documents denied files];
        try done; [by rewrite Ht0|lia].
    + match goal with
      | |- context [for_return _ (download_attempt _ _ ?u _) _] =>
          destruct (Hloop u) as (r & s' & evs & n & -> & Ht & Hd & Hn & Hle & Hs & Hr);
          by apply (Hend u r s' evs n)
      end.
  - cbn [ret].
    match goal with
    | |- context [for_return _ (download_attempt _ _ ?u _) _] =>
        destruct (Hloop u) as (r & s' & evs & n & -> & Ht & Hd & Hn & Hle & Hs & Hr);
        by apply (Hend u r s' evs n)
    end.
Qed.

(** X5: a download makes up to three requests, all for the same URL, with
    a pause of one second after the first and of two seconds after the
    second; nothing else is requested and there is no other pause. *)
Theorem download_document_follows_backoff_schedule (srv : server)
    (self : scraper) (doc : document) (download_path : string) (s : state) :
  ∃ evs u n,
    trace (download_document srv self doc download_path s).2
    = (trace s ++ evs)%list
    ∧ (n <= 3)%nat
    ∧ schedule_of evs = take (2 * n - 1) (backoff_schedule u).
Proof.
  destruct (download_document_outcome srv self doc download_path s)
    as (r & s' & evs & u & n & -> & Ht & _ & _ & Hn & Hs & _).
  by exists evs, u, n.
Qed.

(** A download directory written with a trailing slash: [pathlib] drops
    the slash, the file holds the body of the reply, and the directories
    of the library were created. *)
Lemma download_with_trailing_slash :
  let run := download_document (Scenario.always (Scenario.ok_content "%PDF"))
               Scenario.connected Scenario.report "downloads/" initial_state in
  run.1 = Return (Some "downloads/Documents/report.pdf")
  ∧ files run.2 !! "downloads/Documents/report.pdf" = Some "%PDF"
  ∧ dirs run.2 = {[ "downloads"; "downloads/Documents" ]}.
Proof. repeat split; by vm_compute. Qed.

(** A descriptor whose [safe_name] is empty names the directory of its
    library: the file cannot be opened and the download returns [None]. *)
Lemma download_with_empty_safe_name :
  let run := download_document (Scenario.always (Scenario.ok_content "%PDF"))
               Scenario.connected Scenario.report_without_safe_name
               "downloads" initial_state in
  run.1 = Return None ∧ files run.2 = ∅.
Proof. split; by vm_compute. Qed.

(** A descriptor without the key [name] makes the download raise
    [KeyError]: the handler reads the name for its log line. *)
Lemma download_without_name :
  (download_document (Scenario.always (Scenario.ok_content "%PDF"))
     Scenario.connected Scenario.nameless "downloads" initial_state).1
  = Raise (KeyError "name").
Proof. by vm_compute. Qed.


Lemma download_attempt_discreet (srv : server) (self : scraper)
    (download_url : string) (file_path : Pathlib.path) (attempt : Z) :
  extends (discreet self) (fun _ => False)
          (download_attempt srv self download_url file_path attempt).
Proof.
  unfold download_attempt. apply extends_try_except.
  - apply extends_bind.
    + destruct (PyStr.contains _ _) eqn:Ec.
      * apply extends_requests_get. unfold discreet. cbn [url headers].
        by rewrite Ec.
      * apply (extends_bind_val _ _
                 (fun hdrs => hdrs !! "Authorization"
                              = Some ("Bearer " ++ fmt (access_token self))));
          [intros s0 hdrs s1; apply authorization_header
          |apply extends_get_auth_headers|].
        intros hdrs Hauth. apply extends_requests_get.
        unfold discreet. cbn [url headers]. rewrite Ec.
        split; [by rewrite lookup_insert_ne|by rewrite lookup_insert_eq].
    + intros r. destruct (Z.eqb _ _); [|apply extends_raise].
      apply extends_bind; [apply extends_write_file|]. intros _.
      apply extends_bind; [by apply extends_emit|]. intros _. apply extends_ret.
  - intros e. destruct (is_RequestException e); [|apply extends_raise].
    destruct (Z.eqb _ _); [apply extends_raise|].
    apply extends_bind; [by apply extends_emit|]. intros _.
    apply extends_bind; [by apply extends_emit|]. intros _. apply extends_ret.
Qed.

(** X7: a download sends the token of [self] to the Graph endpoint only:
    a request for a pre-signed URL carries no header at all, every other
    request the token and the [Accept] header of a download; the list of
    documents is not touched. *)
Theorem download_document_keeps_the_token_from_presigned_urls (srv : server)
    (self : scraper) (doc : document) (download_path : string) (s : state) :
  ∃ evs,
    trace (download_document srv self doc download_path s).2
    = (trace s ++ evs)%list
    ∧ Forall (discreet self) evs
    ∧ documents (download_document srv self doc download_path s).2 = documents s.
Proof.
  assert (H : extends (discreet self) (fun _ => False)
                (download_document srv self doc download_path)).
  2:{ destruct (H s) as (evs & docs & Ht & HP & Hd & HQ).
      exists evs. split; [done|]. split; [done|].
      destruct docs as [|d docs]; [by rewrite Hd, app_nil_r|].
      by apply Forall_cons in HQ as [[] _]. }
  unfold download_document. apply extends_try_except.
  - apply extends_bind; [apply extends_mkdir|]. intros _.
    apply extends_bind; [apply extends_getitem|]. intros name.
    apply extends_bind; [apply extends_getitem|]. intros name'.
    apply extends_bind; [by apply extends_emit|]. intros _.
    apply extends_bind.
    + destruct (falsy (doc_download_url doc)); [|apply extends_ret].
      destruct (_ || _); [apply extends_raise|apply extends_ret].
    + intros download_url. apply extends_for_return. intros attempt.
      apply download_attempt_discreet.
  - intros e. apply extends_bind; [apply extends_getitem|]. intros name.
    apply extends_bind; [by apply extends_emit|]. intros _.
    apply extends_ret.
Qed.

End DownloadOutcome.

(** ** The requests of a batch *)

Section RequestBounds.
Import Py Graph Run Scraper.
Local Open Scope string_scope.

Lemma bulk_download_loop_within (srv : server) (self : scraper)
    (download_path : string) (progress_callback : bool) (total i : Z)
    (docs : list document) (results : gmap string string)
    (calls : list (Z * Z)) :
  requests_within (length docs * 3)
    (bulk_download_loop srv self download_path progress_callback total i docs
                        results calls).
Proof.
  revert i results calls.
  induction docs as [|doc rest IH]; intros i results calls;
    cbn [bulk_download_loop length Nat.mul].
  - apply within_ret.
  - apply within_bind; [|intros results'; apply IH].
    change 3%nat with (3 + 0)%nat.
    apply within_try_except.
    + change 3%nat with (3 + 0)%nat. apply within_bind.
      * intros s. apply download_document_at_most_three_requests.
      * intros [p|].
        -- destruct (negb _); [apply within_ret|].
           change 0%nat with (0 + 0)%nat.
           apply within_bind; [apply within_logger|intros _; apply within_ret].
        -- change 0%nat with (0 + 0)%nat.
           apply within_bind; [apply within_logger|intros _; apply within_ret].
    + intros e. change 0%nat with (0 + 0)%nat.
      apply within_bind; [apply within_logger|intros _; apply within_ret].
Qed.

(** X8: a batch of [n] documents makes at most [3 n] requests. *)
Theorem bulk_download_makes_at_most_three_requests_per_document
    (srv : server) (self : scraper) (docs : list document)
    (download_path : string) (progress_callback : bool) (s : state) :
  (length (requests_of
             (trace (bulk_download srv self docs download_path
                                   progress_callback s).2))
   <= length (requests_of (trace s)) + 3 * length docs)%nat.
Proof.
  unfold bulk_download.
  pose proof (bulk_download_loop_within srv self download_path progress_callback
                (Z.of_nat (length docs)) 0 docs ∅ [] s) as H.
  lia.
Qed.

End RequestBounds.

(** ** The connection to the site *)

Section ConnectionFacts.
Import Py Graph Run Site Observe.
Local Open Scope string_scope.

(** The lookup URL of the site [team] of [contoso]. *)
Example api_url_of_a_team_site :
  (api_url Examples.contoso Scraper.initial_state).1
  = Return "https://graph.microsoft.com/v1.0/sites/contoso.sharepoint.com:/sites/team".
Proof. reflexivity. Qed.

Variable json_object : response → option (gmap string string).
Variable json_error : exn.

Abbreviation attempt_connection := (connection_attempt json_object json_error).
Abbreviation setup := (_setup_site_connection json_object json_error).

(** One turn of the retry loop: one request, and a pause when the turn
    asks for another one. The state changes by its trace only. *)
Lemma connection_attempt_outcome (srv : server) (self : scraper)
    (api_url : string) (hdrs : gmap string string) (attempt : Z) (s : state) :
  ∃ r s' evs,
    attempt_connection srv self api_url hdrs attempt s = (r, s')
    ∧ trace s' = (trace s ++ evs)%list
    ∧ documents s' = documents s ∧ files s' = files s ∧ denied s' = denied s
    ∧ match r with
      | Return (Some (b, self')) =>
          b = true ∧ (∃ id, self' = set_site_id self id)
          ∧ schedule_of evs = [Request api_url]
      | Return None =>
          schedule_of evs = [Request api_url; Pause (1000 * 2 ^ attempt)]
          ∧ Z.eqb attempt (max_retries - 1) = false
      | Raise e => schedule_of evs = [Request api_url]
      end.
Proof.
  unfold connection_attempt, try_except, bind, requests_get.
  destruct (srv (trace s) _) as [r|msg]; cbn.
  - destruct (Z.eqb (status_code r) 200).
    { unfold response_object. destruct (json_object r) as [data|]; cbn.
      - destruct (data !! "id") as [id|]; cbn.
        + eexists _, _, [_; _]. rewrite <- app_assoc. repeat split; eauto.
        + eexists _, _, [_]. repeat split; eauto.
      - destruct (is_RequestException json_error); cbn.
        + destruct (Z.eqb attempt (max_retries - 1)) eqn:E; cbn.
          * eexists _, _, [_]. repeat split; eauto.
          * eexists _, _, [_; _; _]. rewrite <- !app_assoc.
            repeat split; eauto.
        + eexists _, _, [_]. repeat split; eauto. }
    destruct (Z.eqb (status_code r) 404); cbn.
    { eexists _, _, [_]. repeat split; eauto. }
    destruct (Z.eqb (status_code r) 403); cbn.
    { eexists _, _, [_]. repeat split; eauto. }
    unfold response_object. destruct (json_object r) as [data|]; cbn.
    + eexists _, _, [_]. repeat split; eauto.
    + destruct (is_RequestException json_error); cbn.
      * destruct (Z.eqb attempt (max_retries - 1)) eqn:E; cbn.
        -- eexists _, _, [_]. repeat split; eauto.
        -- eexists _, _, [_; _; _]. rewrite <- !app_assoc.
           repeat split; eauto.
      * eexists _, _, [_]. repeat split; eauto.
  - destruct (Z.eqb attempt (max_retries - 1)) eqn:E; cbn.
    + eexists _, _, [_]. repeat split; eauto.
    + eexists _, _, [_; _; _]. rewrite <- !app_assoc. repeat split; eauto.
Qed.

Lemma connection_loop_outcome (srv : server) (self : scraper)
    (api_url : string) (hdrs : gmap string string) (s : state) :
  ∃ r s' evs n,
    for_return (range max_retries)
      (attempt_connection srv self api_url hdrs) s = (r, s')
    ∧ trace s' = (trace s ++ evs)%list
    ∧ documents s' = documents s ∧ files s' = files s ∧ denied s' = denied s
    ∧ (1 <= n <= 3)%nat
    ∧ schedule_of evs = take (2 * n - 1) (backoff_schedule api_url)
    ∧ match r with
      | Return (Some (b, self')) => b = true ∧ ∃ id, self' = set_site_id self id
      | Return None => False
      | Raise e => True
      end.
Proof.
  change (range max_retries) with [0; 1; 2]. cbn [for_return]. unfold bind.
  destruct (connection_attempt_outcome srv self api_url hdrs 0 s)
    as (r0 & s0 & evs0 & -> & Ht0 & Hd0 & Hf0 & Hn0 & H0).
  destruct r0 as [[[b self']|]|e].
  { destruct H0 as (-> & Hid & Hs). eexists _, s0, evs0, 1%nat.
    cbn. rewrite Hs. repeat split; try done; lia. }
  2:{ eexists _, s0, evs0, 1%nat. rewrite H0. repeat split; try done; lia. }
  destruct H0 as (Hs0 & _).
  destruct (connection_attempt_outcome srv self api_url hdrs 1 s0)
    as (r1 & s1 & evs1 & -> & Ht1 & Hd1 & Hf1 & Hn1 & H1).
  destruct r1 as [[[b self']|]|e].
  { destruct H1 as (-> & Hid & Hs). eexists _, s1, (evs0 ++ evs1)%list, 2%nat.
    cbn. rewrite schedule_of_app, Hs0, Hs, Ht1, Ht0, Hd1, Hf1, Hn1, app_assoc.
    repeat split; try done; lia. }
  2:{ eexists _, s1, (evs0 ++ evs1)%list, 2%nat.
      rewrite schedule_of_app, Hs0, H1, Ht1, Ht0, Hd1, Hf1, Hn1, app_assoc.
      repeat split; try done; lia. }
  destruct H1 as (Hs1 & _).
  destruct (connection_attempt_outcome srv self api_url hdrs 2 s1)
    as (r2 & s2 & evs2 & -> & Ht2 & Hd2 & Hf2 & Hn2 & H2).
  destruct r2 as [[[b self']|]|e].
  { destruct H2 as (-> & Hid & Hs).
    eexists _, s2, (evs0 ++ evs1 ++ evs2)%list, 3%nat.
    cbn. rewrite !schedule_of_app, Hs0, Hs1, Hs, Ht2, Ht1, Ht0.
    rewrite Hd2, Hd1, Hf2, Hf1, Hn2, Hn1, !app_assoc.
    repeat split; try done; lia. }
  { by destruct H2 as (_ & ?). }
  eexists _, s2, (evs0 ++ evs1 ++ evs2)%list, 3%nat.
  rewrite !schedule_of_app, Hs0, Hs1, H2, Ht2, Ht1, Ht0.
  rewrite Hd2, Hd1, Hf2, Hf1, Hn2, Hn1, !app_assoc.
  repeat split; try done; lia.
Qed.

Lemma setup_outcome (srv : server) (self : scraper) (s : state) :
  ∃ b self' s' evs u n,
    setup srv self s = (Return (b, self'), s')
    ∧ trace s' = (trace s ++ evs)%list
    ∧ documents s' = documents s ∧ files s' = files s ∧ denied s' = denied s
    ∧ (n <= 3)%nat
    ∧ schedule_of evs = take (2 * n - 1) (backoff_schedule u)
    ∧ (if b then ∃ id, self' = set_site_id self id else self' = self).
Proof.
  unfold _setup_site_connection, try_except. unfold bind at 1.
  unfold Scraper.get_auth_headers. destruct (falsy _); cbn.
  { eexists false, self, _, [_], EmptyString, 0%nat. repeat split; eauto. }
  unfold bind at 1. unfold api_url. destruct (PyStr.contains _ _); cbn.
  2:{ eexists false, self, _, [_], EmptyString, 0%nat. repeat split; eauto. }
  unfold bind at 1.
  match goal with
  | |- context [for_return _ (connection_attempt _ _ _ _ ?u ?h) ?s1] =>
      destruct (connection_loop_outcome srv self u h s1)
        as (r & s' & evs & n & -> & Ht & Hd & Hf & Hn & Hle & Hs & Hr)
  end.
  destruct r as [[[b self']|]|e]; [| done |].
  - destruct Hr as (-> & Hid). cbn.
    eexists true, self', s', evs, _, n. repeat split; eauto. lia.
  - eexists false, self, _, (evs ++ [Log ERROR _])%list, _, n.
    cbn [ret logger emit modify bind trace documents files denied].
    rewrite Ht, <- !app_assoc, schedule_of_app, Hs.
    change (schedule_of [Log ERROR ?m]) with (@nil step).
    rewrite app_nil_r. repeat split; eauto. lia.
Qed.

(** X9: the site lookup never raises. It returns [True] with [site_id] set,
    or [False] with [self] as it was; it makes up to three requests for
    one URL with the pauses of the backoff schedule, and leaves the
    documents and the files alone. *)
Theorem setup_site_connection_sets_site_id_or_nothing (srv : server)
    (self : scraper) (s : state) :
  ∃ b self' s' evs u n,
    setup srv self s = (Return (b, self'), s')
    ∧ (if b then is_Some (site_id self') else self' = self)
    ∧ site_url self' = site_url self
    ∧ access_token self' = access_token self
    ∧ trace s' = (trace s ++ evs)%list
    ∧ (n <= 3)%nat
    ∧ schedule_of evs = take (2 * n - 1) (backoff_schedule u)
    ∧ documents s' = documents s ∧ files s' = files s.
Proof.
  destruct (setup_outcome srv self s)
    as (b & self' & s' & evs & u & n & Hrun & Ht & Hd & Hf & _ & Hn & Hs & Hb).
  exists b, self', s', evs, u, n. split; [done|].
  destruct b.
  - destruct Hb as [id ->]. cbn. repeat split; eauto.
  - subst self'. repeat split; eauto.
Qed.

(** X10: a lookup answered 404 or 403 is not tried again: [False] after at
    most one request and without a pause, [self] as it was. *)
Theorem setup_site_connection_gives_up_on_404_and_403 (srv : server)
    (self : scraper) (r : response) (s : state) :
  (∀ tr req, srv tr req = Responds r) →
  status_code r = 404 ∨ status_code r = 403 →
  ∃ s' evs,
    setup srv self s = (Return (false, self), s')
    ∧ trace s' = (trace s ++ evs)%list
    ∧ (length (requests_of evs) <= 1)%nat
    ∧ pauses_of evs = [].
Proof.
  intros Hsrv Hcode.
  unfold _setup_site_connection, try_except. unfold bind at 1.
  unfold Scraper.get_auth_headers. destruct (falsy _); cbn.
  { eexists _, [_]. repeat split; eauto. }
  unfold bind at 1. unfold api_url. destruct (PyStr.contains _ _); cbn.
  2:{ eexists _, [_]. repeat split; eauto. }
  change (range max_retries) with [0; 1; 2]. cbn [for_return].
  unfold bind, connection_attempt, try_except, bind, requests_get.
  rewrite Hsrv. cbn.
  destruct Hcode as [-> | ->]; cbn.
  - eexists _, [_; _]. rewrite <- app_assoc. repeat split; eauto.
  - eexists _, [_; _]. rewrite <- app_assoc. repeat split; eauto.
Qed.

End ConnectionFacts.

(** The lookup of the site [team] of [contoso] against an endpoint that
    answers 403. *)
Lemma setup_site_connection_gives_up_on_404_and_403_witness :
  ∃ s' evs,
    Site._setup_site_connection Examples.no_json Examples.json_decode_error
      Scenario.forbidden Examples.contoso Scraper.initial_state
    = (Py.Return (false, Examples.contoso), s')
    ∧ Run.trace s' = (Run.trace Scraper.initial_state ++ evs)%list
    ∧ (length (Graph.requests_of evs) <= 1)%nat
    ∧ Graph.pauses_of evs = [].
Proof.
  apply (setup_site_connection_gives_up_on_404_and_403
           Examples.no_json Examples.json_decode_error Scenario.forbidden
           Examples.contoso (Graph.Build_response 403 EmptyString None)).
  - reflexivity.
  - right. reflexivity.
Defined.

Section ConstructorFacts.
Import Py Graph Run Site Observe PyStr Paths.
Local Open Scope string_scope.

Variable json_object : response → option (gmap string string).
Variable json_error : exn.

Lemma text_chars (x : string) : text (chars x) = x.
Proof. apply string_of_list_ascii_of_string. Qed.

Lemma rstrip_not_endswith (c : ascii) (y : str) :
  endswith [c] y = false → rstrip [c] y = y.
Proof.
  unfold endswith, rstrip. change (reverse [c]) with [c].
  destruct (reverse y) as [|a t] eqn:E; simpl.
  - intros _. by rewrite <- E, reverse_involutive.
  - case_bool_decide as Ha; simpl; [done|]. intros _.
    destruct (decide (a ∈ [c])) as [Hin|Hin].
    + apply list_elem_of_singleton in Hin. by subst.
    + by rewrite <- E, reverse_involutive.
Qed.

(** X11: a URL in lower case that [validate_url] accepts is accepted by
    the constructor, which keeps it as it is. *)
Theorem validated_url_is_accepted_unchanged (srv : server) (url : string)
    (auth_token : option string)
    (ingest : option (string → option string → option string → option exn))
    (s : state) :
  validate_url url = true →
  lower (chars url) = chars url →
  ∃ self s',
    __init__ json_object json_error srv url auth_token ingest s = (Return self, s')
    ∧ site_url self = url
    ∧ access_token self = auth_token.
Proof.
  unfold validate_url. intros Hv Hl.
  destruct (chars url) as [|a y] eqn:Ey; [done|].
  rewrite Hl in Hv.
  apply andb_prop in Hv as [Hv Hend]. apply andb_prop in Hv as [_ Hin].
  apply negb_true_iff in Hend.
  unfold __init__. cbn [Site.site_url].
  rewrite Ey, (rstrip_not_endswith _ _ Hend), <- Ey, text_chars.
  rewrite bool_decide_eq_false_2 by (intros ->; done).
  rewrite Ey, Hin. cbn [negb orb].
  unfold bind at 1. cbn [logger emit modify].
  destruct (Scraper.is_authenticated _); [|by eexists _, _].
  unfold bind.
  match goal with
  | |- context [_setup_site_connection _ _ _ ?self0 ?s0] =>
      destruct (setup_outcome json_object json_error srv self0 s0)
        as (b & self' & s' & evs & u & n & -> & _ & _ & _ & _ & _ & _ & Hb)
  end.
  exists self', s'. split; [done|].
  destruct b; [destruct Hb as [id ->]|subst self']; done.
Qed.

End ConstructorFacts.

(** The constructor on the URL of the site [team] of [contoso], without
    a token. *)
Lemma validated_url_is_accepted_unchanged_witness :
  ∃ self s',
    Site.__init__ Examples.no_json Examples.json_decode_error Scenario.forbidden
      "https://contoso.sharepoint.com/sites/team" None None Scraper.initial_state
    = (Py.Return self, s')
    ∧ Site.site_url self = "https://contoso.sharepoint.com/sites/team"
    ∧ Site.access_token self = None.
Proof.
  apply (validated_url_is_accepted_unchanged
           Examples.no_json Examples.json_decode_error Scenario.forbidden
           "https://contoso.sharepoint.com/sites/team" None None
           Scraper.initial_state); reflexivity.
Defined.

(** ** The connection test *)

Section ConnectionTest.
Import Py Graph Run Site Observe.
Local Open Scope string_scope.

(** X12: the connection test never raises. It asks for the site and then
    for its libraries, with the token of [self] and without a pause, and
    returns [True] only when both were asked for; an object that is not
    authenticated or not connected makes no request. *)
Theorem test_connection_asks_for_site_and_libraries (srv : server)
    (self : scraper) (s : state) :
  ∃ b s' evs,
    test_connection srv self s = (Return b, s')
    ∧ trace s' = (trace s ++ evs)%list
    ∧ Forall (authorized (core self)) evs
    ∧ (if b
       then urls_of evs = [graph ++ "/sites/" ++ fmt (site_id self);
                           Scraper.drives_url (core self)]
       else (length (requests_of evs) <= 2)%nat)
    ∧ (Scraper.is_authenticated (core self) = false ∨ falsy (site_id self) = true →
       requests_of evs = []).
Proof.
  unfold test_connection, try_except.
  destruct (Scraper.is_authenticated (core self)) eqn:Eauth; cbn [negb].
  2:{ cbn. eexists false, _, [_]. repeat split; eauto.
      by apply Forall_singleton. }
  destruct (falsy (site_id self)) eqn:Esite.
  { cbn. eexists false, _, [_]. repeat split; eauto.
    by apply Forall_singleton. }
  unfold bind at 1. cbn [logger emit modify]. unfold bind at 1.
  unfold Scraper.get_auth_headers.
  destruct (falsy (Scraper.access_token (core self))) eqn:Etok; cbn [ret raise].
  { cbn. eexists false, _, [_; _]. rewrite <- ?app_assoc.
    split; [done|]. split; [done|]. split; [by repeat constructor|].
    split; [cbn; lia|]. by intros [|]. }
  set (hdrs := <["Authorization" := _]> _).
  assert (Hauth : hdrs !! "Authorization"
                  = Some ("Bearer " ++ fmt (Scraper.access_token (core self))))
    by (unfold hdrs; by rewrite lookup_insert_eq).
  clearbody hdrs.
  unfold bind at 1, requests_get. cbn [trace].
  destruct (srv _ _) as [r1|msg1]; cbn [bind emit modify ret raise].
  2:{ cbn. eexists false, _, [_; _; _]. rewrite <- ?app_assoc.
      split; [done|]. split; [done|]. split; [by repeat constructor|].
      split; [cbn; lia|]. by intros [|]. }
  destruct (negb (Z.eqb (status_code r1) 200)).
  { cbn. eexists false, _, [_; _; _]. rewrite <- ?app_assoc.
    split; [done|]. split; [done|]. split; [by repeat constructor|].
    split; [cbn; lia|]. by intros [|]. }
  unfold bind at 1. cbn [trace].
  destruct (srv _ _) as [r2|msg2]; cbn [bind emit modify ret raise].
  2:{ cbn. eexists false, _, [_; _; _; _]. rewrite <- ?app_assoc.
      split; [done|]. split; [done|]. split; [by repeat constructor|].
      split; [cbn; lia|]. by intros [|]. }
  destruct (negb (Z.eqb (status_code r2) 200)).
  { cbn. eexists false, _, [_; _; _; _]. rewrite <- ?app_assoc.
    split; [done|]. split; [done|]. split; [by repeat constructor|].
    split; [cbn; lia|]. by intros [|]. }
  unfold response_json. destruct (json r2) as [data|]; cbn.
  - eexists true, _, [_; _; _; _]. rewrite <- ?app_assoc.
    split; [done|]. split; [done|]. split; [by repeat constructor|].
    split; [done|]. by intros [|].
  - eexists false, _, [_; _; _; _]. rewrite <- ?app_assoc.
    split; [done|]. split; [done|]. split; [by repeat constructor|].
    split; [cbn; lia|]. by intros [|].
Qed.

Variable json_object : response → option (gmap string string).
Variable json_error : exn.

(** X13: the site information is asked for once, with the token of
    [self] and without a pause. What is returned is the body of a reply
    200; every failure, the missing connection among them, is raised as
    a [SharePointError]. *)
Theorem get_site_info_asks_once (srv : server) (self : scraper) (s : state) :
  ∃ r s' evs,
    get_site_info json_object json_error srv self s = (r, s')
    ∧ trace s' = (trace s ++ evs)%list
    ∧ Forall (authorized (core self)) evs
    ∧ (length (requests_of evs) <= 1)%nat
    ∧ match r with
      | Return data =>
          ∃ reply, status_code reply = 200 ∧ json_object reply = Some data
      | Raise e => ∃ msg, e = SharePointError msg
      end.
Proof.
  unfold get_site_info.
  destruct (negb _ || _).
  { eexists _, _, []. rewrite app_nil_r. repeat split; eauto. }
  unfold try_except, bind at 1, Scraper.get_auth_headers.
  destruct (falsy (Scraper.access_token (core self))); cbn [ret raise].
  { cbn. eexists _, _, [_]. repeat split; eauto. by repeat constructor. }
  set (hdrs := <["Authorization" := _]> _).
  assert (Hauth : hdrs !! "Authorization"
                  = Some ("Bearer " ++ fmt (Scraper.access_token (core self))))
    by (unfold hdrs; by rewrite lookup_insert_eq).
  clearbody hdrs.
  unfold bind at 1, requests_get.
  destruct (srv _ _) as [reply|msg]; cbn [bind emit modify ret raise].
  2:{ cbn. eexists _, _, [_; _]. rewrite <- ?app_assoc.
      split; [done|]. split; [done|]. split; [by repeat constructor|].
      split; [cbn; lia|by eexists]. }
  destruct (Z.eqb_spec (status_code reply) 200) as [H200|_].
  - unfold response_object. destruct (json_object reply) as [data|] eqn:Ej; cbn.
    + eexists _, _, [_]. split; [done|]. split; [done|].
      split; [by repeat constructor|]. split; [cbn; lia|by exists reply].
    + eexists _, _, [_; _]. rewrite <- ?app_assoc.
      split; [done|]. split; [done|]. split; [by repeat constructor|].
      split; [cbn; lia|by eexists].
  - cbn. eexists _, _, [_; _]. rewrite <- ?app_assoc.
    split; [done|]. split; [done|]. split; [by repeat constructor|].
    split; [cbn; lia|by eexists].
Qed.

End ConnectionTest.

(** ** Download and ingestion *)

Section IngestFacts.
Import Py Graph Run Site Observe.
Local Open Scope string_scope.

Variable srv : server.
Variable self : scraper.
Variable download_path : string.

(** No part of a path is empty, so that the text of a path is not. *)
Lemma Path_parts (p : string) :
  Forall (fun part => part ≠ []) (Pathlib.parts (Pathlib.Path p)).
Proof.
  apply Forall_forall. intros part Hin%list_elem_of_In.
  apply List.filter_In in Hin as [_ Hpart]. unfold Pathlib.is_part in Hpart.
  intros ->. by rewrite bool_decide_true in Hpart.
Qed.

Lemma joinpath_parts (p : Pathlib.path) (other : string) :
  Forall (fun part => part ≠ []) (Pathlib.parts p) →
  Forall (fun part => part ≠ []) (Pathlib.parts (Pathlib.joinpath p other)).
Proof.
  intros Hp. unfold Pathlib.joinpath.
  destruct (Pathlib.root_of _); [|apply Path_parts].
  cbn. apply Forall_app. split; [done|apply Path_parts].
Qed.

Lemma str_of_not_empty (p : Pathlib.path) :
  Forall (fun part => part ≠ []) (Pathlib.parts p) →
  Pathlib.str_of p ≠ EmptyString.
Proof.
  unfold Pathlib.str_of. intros Hp.
  destruct (Pathlib.root p) as [|c r]; [|done].
  destruct (Pathlib.parts p) as [|part ps]; [done|].
  apply Forall_cons in Hp as [Hpart _].
  destruct part as [|c part]; [done|]. by destruct ps.
Qed.

Lemma file_path_not_empty (doc : Scraper.document) (name : string) :
  Pathlib.str_of (Scraper.file_path doc download_path name) ≠ EmptyString.
Proof.
  apply str_of_not_empty. unfold Scraper.file_path, Scraper.library_path.
  apply joinpath_parts. destruct (negb _); repeat apply joinpath_parts;
    apply Path_parts.
Qed.

(** X14: without the integration the method raises [ConfigurationError]
    before it does anything. With it, a descriptor without the key
    [name] makes it raise [KeyError], the files being as they were; for a
    descriptor with a name it never raises: it returns [True] when the
    file was downloaded and its ingestion did not raise, and [False]
    either with the files as they were or with the file kept although
    its ingestion raised. *)
Theorem download_and_ingest_document_outcome (doc : Scraper.document)
    (s : state) :
  match bedrock self with
  | None =>
      download_and_ingest_document srv self doc download_path s
      = (Raise (ConfigurationError "Bedrock integration not configured"), s)
  | Some ingest_document =>
      ∃ r s',
        download_and_ingest_document srv self doc download_path s = (r, s')
        ∧ match Scraper.get_name doc with
          | None => r = Raise (KeyError "name") ∧ files s' = files s
          | Some name =>
              let p := Pathlib.str_of (Scraper.file_path doc download_path name) in
              let ingested :=
                ingest_document p (Scraper.doc_id doc) (Some name) in
              match r with
              | Return true => is_Some (files s' !! p) ∧ ingested = None
              | Return false =>
                  files s' = files s
                  ∨ (is_Some (files s' !! p) ∧ is_Some ingested)
              | Raise _ => False
              end
          end
  end.
Proof.
  unfold download_and_ingest_document.
  destruct (bedrock self) as [ingest_document|]; [|done].
  unfold try_except, bind.
  destruct (download_document_outcome srv (core self) doc download_path s)
    as (r & s' & evs & u & n & -> & _ & _ & _ & _ & _ & Hr).
  destruct (Scraper.get_name doc) as [name|] eqn:En.
  2:{ destruct Hr as [-> Hf]. cbn. by eexists _, _. }
  cbn zeta. destruct r as [[p|]|e]; [| |done]; cbn.
  2:{ exists (Return false), s'. split; [done|]. by left. }
  destruct Hr as (-> & data & Hf).
  assert (Hin : is_Some (files s' !! Pathlib.str_of
                                       (Scraper.file_path doc download_path name))).
  { rewrite Hf, lookup_insert_eq. by eexists. }
  case_bool_decide as Hp; cbn.
  { by destruct (file_path_not_empty doc name). }
  destruct (ingest_document _ _ _) as [e|] eqn:Ei; cbn.
  - eexists (Return false), _. split; [done|]. right. cbn. split; [done|by eexists].
  - eexists (Return true), _. split; [done|]. cbn. by split.
Qed.

Lemma calls_shift (calls : list (Z * Z)) (i total : Z) (n : nat) :
  ((calls ++ [(i + 1, total)])
   ++ map (fun k => (i + 1 + Z.of_nat k + 1, total)) (seq 0 n))%list
  = (calls ++ map (fun k => (i + Z.of_nat k + 1, total)) (seq 0 (S n)))%list.
Proof.
  rewrite <- app_assoc. f_equal. cbn [seq map app].
  replace (i + Z.of_nat 0 + 1) with (i + 1) by lia. f_equal.
  rewrite <- seq_shift, map_map. apply map_ext. intros k.
  replace (i + Z.of_nat (S k) + 1) with (i + 1 + Z.of_nat k + 1) by lia.
  done.
Qed.

(** The loop of the batch: a key for every document, whatever became of
    it, and a call of the callback after each. *)
Lemma bulk_download_and_ingest_loop_spec (progress_callback : bool)
    (total i : Z) (docs : list Scraper.document)
    (results : gmap string bool) (calls : list (Z * Z)) (s : state) :
  is_Some (bedrock self) →
  ∃ results' s',
    bulk_download_and_ingest_loop srv self download_path progress_callback
                                  total i docs results calls s
    = (Return (results',
               if progress_callback
               then (calls ++ map (fun k => (i + Z.of_nat k + 1, total))
                                  (seq 0 (length docs)))%list
               else calls), s')
    ∧ dom results' = dom results ∪ list_to_set (Scraper.doc_name <$> docs).
Proof.
  intros Hb. revert i results calls s.
  induction docs as [|doc rest IH]; intros i results calls s.
  - cbn. exists results, s. split.
    + destruct progress_callback; by rewrite ?app_nil_r.
    + cbn. by rewrite union_empty_r_L.
  - cbn [bulk_download_and_ingest_loop]. unfold bind, try_except.
    destruct (download_and_ingest_document srv self doc download_path s)
      as [[b|e] s0]; cbn [logger emit modify ret].
    all: match goal with
         | |- context [bulk_download_and_ingest_loop _ _ _ _ _ _ _ (<[_ := ?b]> _) _ ?s1] =>
             destruct (IH (i + 1) (<[Scraper.doc_name doc := b]> results)
                          (if progress_callback
                           then (calls ++ [(i + 1, total)])%list
                           else calls) s1)
               as (results' & s' & Hrun & Hdom)
         end.
    all: cbn [ret]; rewrite Hrun.
    all: exists results', s'; split.
    all: try (destruct progress_callback; [|done];
              cbn [length]; by rewrite calls_shift).
    all: rewrite Hdom, dom_insert_L; cbn [fmap list_fmap list_to_set];
      rewrite (comm_L (∪) {[Scraper.doc_name doc]} (dom results));
      by rewrite <- (assoc_L (∪)).
Qed.

(** X15: without the integration the batch raises [ConfigurationError]
    before it does anything. With it, it never raises and its result has
    a key for the name of every document, downloaded or not; the callback
    is called once per document with [(1, n)], ..., [(n, n)]. *)
Theorem bulk_download_and_ingest_accounts_for_every_document
    (docs : list Scraper.document) (progress_callback : bool) (s : state) :
  match bedrock self with
  | None =>
      bulk_download_and_ingest srv self docs download_path progress_callback s
      = (Raise (ConfigurationError "Bedrock integration not configured"), s)
  | Some _ =>
      ∃ results s',
        bulk_download_and_ingest srv self docs download_path progress_callback s
        = (Return (results,
                   if progress_callback
                   then Scraper.progress_calls (length docs) else []), s')
        ∧ dom results = list_to_set (Scraper.doc_name <$> docs)
  end.
Proof.
  unfold bulk_download_and_ingest.
  destruct (bedrock self) as [ing|] eqn:Eb; [|done].
  destruct (bulk_download_and_ingest_loop_spec progress_callback
              (Z.of_nat (length docs)) 0 docs ∅ [] s)
    as (results & s' & Hrun & Hdom); [by rewrite Eb|].
  exists results, s'. split.
  - rewrite Hrun. by destruct progress_callback.
  - by rewrite Hdom, dom_empty_L, union_empty_l_L.
Qed.

End IngestFacts.

(** ** URLs and paths *)

Section PathFacts.
Import PyStr Sanitizer Paths.

Lemma split_from_notin c piece s :
  c ∉ s → split_from c piece s = [piece ++ s].
Proof.
  revert piece. induction s as [|x s IH]; intros piece Hc; simpl.
  - by rewrite app_nil_r.
  - apply not_elem_of_cons in Hc as [Hx Hs].
    destruct (decide (x = c)); [by subst|].
    rewrite IH by done. by rewrite <- app_assoc.
Qed.

Lemma slash_invalid : "/"%char ∈ invalid_chars.
Proof. apply (bool_decide_unpack _). by vm_compute. Qed.

Lemma stripped_not_dots s : stripped s ∉ [chars "."; chars ".."].
Proof.
  unfold stripped, strip.
  destruct (lstrip (chars ". ") (replace_invalid s)) as [|c t] eqn:E.
  - apply (bool_decide_unpack _). by vm_compute.
  - assert (Hc : c ∉ chars ". ") by (by eapply lstrip_head).
    rewrite rstrip_cons_keep by done.
    intros Hin. apply Hc.
    apply elem_of_cons in Hin as [Hin|Hin].
    + injection Hin as -> _. by left.
    + apply list_elem_of_singleton in Hin. injection Hin as -> _. by left.
Qed.

(** The separators are replaced before the path is split, so there is
    one component: the sanitized text cut at 100 characters. *)
Lemma sanitize_path_chars_eq path :
  sanitize_path_chars path
  = if bool_decide (stripped path = []) then unknown else limit (stripped path).
Proof.
  unfold sanitize_path_chars. destruct path as [|a path]; [done|].
  generalize (stripped_valid (a :: path) _ slash_invalid).
  generalize (stripped_not_dots (a :: path)).
  generalize (stripped (a :: path)) as y. intros y Hdots Hslash.
  unfold split. rewrite split_from_notin by done.
  cbn [app List.filter map]. unfold kept.
  case_bool_decide as Hy; cbn [negb andb map]; [done|].
  rewrite bool_decide_eq_false_2 by done. cbn [negb map join].
  done.
Qed.

Lemma limit_length y : len (limit y) <= 100.
Proof.
  unfold limit, len. destruct (100 <? _) eqn:E.
  - unfold slice_to. simpl. rewrite length_take. lia.
  - apply Z.ltb_ge in E. done.
Qed.

Lemma limit_elem y c : c ∈ limit y → c ∈ y.
Proof.
  unfold limit. destruct (100 <? _); [|done].
  unfold slice_to. simpl. intros Hc.
  apply elem_of_take in Hc as (i & Hi & _). by eapply list_elem_of_lookup_2.
Qed.

Lemma limit_nonempty y : y ≠ [] → limit y ≠ [].
Proof.
  unfold limit. destruct (100 <? _); [|done].
  destruct y; [done|]. by vm_compute.
Qed.

(** X16: [sanitize_path] returns one component. *)
Theorem sanitize_path_is_one_short_component (path : string) :
  (1 <= String.length (sanitize_path path) <= 100)%nat
  ∧ Forall (fun c => c ∉ invalid_chars) (chars (sanitize_path path)).
Proof.
  unfold sanitize_path. rewrite text_length, chars_text, sanitize_path_chars_eq.
  case_bool_decide as Hy.
  - split; [vm_compute; lia|]. apply (bool_decide_unpack _). by vm_compute.
  - split.
    + pose proof (limit_length (stripped (chars path))) as Hl.
      pose proof (limit_nonempty _ Hy) as Hn. unfold len in Hl.
      destruct (limit (stripped (chars path))); [done|]. simpl in *. lia.
    + apply Forall_forall. intros c Hc%limit_elem Hi.
      by eapply stripped_valid.
Qed.

End PathFacts.

(** ** The summary of a document list *)

Section SummaryFacts.
Import Summary.
Local Open Scope string_scope.

Lemma stats_eq (c c' z z' : Z) :
  c = c' → z = z' →
  Some {| count := c; size := z |} = Some {| count := c'; size := z' |}.
Proof. by intros -> ->. Qed.

Lemma count_in_library_lookup (doc : Scraper.document)
    (libraries : gmap string library_stats) (library : string) :
  count_in_library doc libraries !! library
  = if bool_decide (library_of doc = library)
    then Some {| count := count (default {| count := 0; size := 0 |}
                                         (libraries !! library)) + 1;
                 size := size (default {| count := 0; size := 0 |}
                                       (libraries !! library))
                         + size_of doc |}
    else libraries !! library.
Proof.
  unfold count_in_library. case_bool_decide as Hl.
  - subst library. rewrite !lookup_alter_eq.
    destruct (libraries !! library_of doc) as [st|] eqn:E.
    + by rewrite E.
    + by rewrite lookup_insert_eq.
  - rewrite !lookup_alter_ne by done.
    destruct (libraries !! library_of doc); [done|].
    by rewrite lookup_insert_ne.
Qed.

Lemma count_file_type_lookup (doc : Scraper.document)
    (file_types : gmap string Z) (ext : string) :
  default 0 (count_file_type doc file_types !! ext)
  = default 0 (file_types !! ext)
    + (if bool_decide (extension (name_of doc) = Some ext) then 1 else 0).
Proof.
  unfold count_file_type.
  destruct (extension (name_of doc)) as [e|];
    [|rewrite bool_decide_eq_false_2 by done; lia].
  destruct (decide (e = ext)) as [->|Hne].
  - rewrite lookup_insert_eq, bool_decide_eq_true_2 by done. done.
  - rewrite lookup_insert_ne, bool_decide_eq_false_2 by congruence. cbn. lia.
Qed.

Lemma summarize_loop_spec (documents : list Scraper.document)
    (libraries : gmap string library_stats) (total_size : Z)
    (file_types : gmap string Z) :
  ∃ libraries' file_types',
    summarize_loop documents (libraries, total_size, file_types)
    = (libraries', total_size + sizes documents, file_types')
    ∧ (∀ library,
         libraries' !! library
         = match in_library library documents with
           | [] => libraries !! library
           | ds =>
               Some {| count := count (default {| count := 0; size := 0 |}
                                                (libraries !! library))
                                + Z.of_nat (length ds);
                       size := size (default {| count := 0; size := 0 |}
                                             (libraries !! library))
                               + sizes ds |}
           end)
    ∧ (∀ ext,
         default 0 (file_types' !! ext)
         = default 0 (file_types !! ext)
           + Z.of_nat (length (with_extension ext documents))).
Proof.
  revert libraries total_size file_types.
  induction documents as [|doc rest IH]; intros libraries total_size file_types.
  - exists libraries, file_types. cbn. split; [f_equal; f_equal; lia|].
    split; [done|]. intros ext. lia.
  - unfold summarize_loop. cbn [fold_left].
    destruct (IH (count_in_library doc libraries)
                 (total_size + size_of doc)
                 (count_file_type doc file_types))
      as (libraries' & file_types' & Hrun & Hlib & Hext).
    exists libraries', file_types'. split; [|split].
    + unfold summarize_loop in Hrun. rewrite Hrun. cbn [sizes foldr].
      f_equal. f_equal. unfold sizes. lia.
    + intros library. rewrite Hlib, count_in_library_lookup.
      unfold in_library. cbn [List.filter].
      case_bool_decide as Hl.
      * destruct (List.filter _ rest) as [|d ds] eqn:Ef.
        -- apply stats_eq; cbn; lia.
        -- change (sizes (doc :: d :: ds))
             with (size_of doc + sizes (d :: ds)).
           apply stats_eq; cbn [default from_option id count size length]; lia.
      * done.
    + intros ext. rewrite Hext, count_file_type_lookup.
      unfold with_extension. cbn [List.filter].
      case_bool_decide; cbn [length]; lia.
Qed.

Variable log_floor : Z → Z.
Variable scaled : Z → Z → Py.result string.

Abbreviation format := (format_file_size log_floor scaled).
Abbreviation summarize := (summarize_documents log_floor scaled).

(** What [format_file_size] raises: [ValueError] for a negative size,
    and [IndexError] for a size whose logarithm is past the last unit. *)
Lemma format_file_size_negative (size_bytes : Z) :
  size_bytes < 0 →
  format size_bytes = Py.Raise (Py.ValueError "math domain error").
Proof.
  intros Hn. unfold format_file_size.
  destruct (Z.eqb_spec size_bytes 0) as [|_]; [lia|].
  destruct (Z.ltb_spec size_bytes 0); [done|lia].
Qed.

Lemma format_file_size_past_the_units (size_bytes : Z) (s : string) :
  0 < size_bytes →
  scaled size_bytes (log_floor size_bytes) = Py.Return s →
  5 <= log_floor size_bytes →
  format size_bytes = Py.Raise (Py.IndexError "list index out of range").
Proof.
  intros Hn Hs Hi. unfold format_file_size.
  destruct (Z.eqb_spec size_bytes 0) as [|_]; [lia|].
  destruct (Z.ltb_spec size_bytes 0); [lia|].
  rewrite Hs. unfold list_getitem. cbn [length size_names].
  destruct (Z.ltb_spec (log_floor size_bytes) 0); [lia|].
  destruct (Z.leb_spec 0 (log_floor size_bytes)); [|lia].
  destruct (Z.ltb_spec (log_floor size_bytes) (Z.of_nat 5)); [lia|done].
Qed.

(** The summary of a list that is not empty is built from the result
    of the loop and the formatted total. *)
Lemma summarize_documents_cons (doc : Scraper.document)
    (rest : list Scraper.document) :
  ∃ libraries' file_types',
    summarize_loop (doc :: rest) (∅, 0, ∅)
    = (libraries', sizes (doc :: rest), file_types')
    ∧ summarize (doc :: rest)
      = match format (sizes (doc :: rest)) with
        | Py.Raise e => Py.Raise e
        | Py.Return formatted =>
            Py.Return {| total := Z.of_nat (length (doc :: rest));
                         libraries := libraries';
                         total_size := sizes (doc :: rest);
                         total_size_formatted := Some formatted;
                         file_types := file_types' |}
        end
    ∧ (∀ library,
         libraries' !! library
         = match in_library library (doc :: rest) with
           | [] => None
           | ds => Some {| count := Z.of_nat (length ds); size := sizes ds |}
           end)
    ∧ (∀ ext,
         default 0 (file_types' !! ext)
         = Z.of_nat (length (with_extension ext (doc :: rest)))).
Proof.
  destruct (summarize_loop_spec (doc :: rest) ∅ 0 ∅)
    as (libraries' & file_types' & Hrun & Hlib & Hext).
  rewrite Z.add_0_l in Hrun.
  exists libraries', file_types'. split; [done|]. split; [|split].
  - unfold summarize_documents. by rewrite Hrun.
  - intros library. rewrite Hlib, lookup_empty.
    destruct (in_library library (doc :: rest)); [done|].
    apply stats_eq; cbn [default from_option id count size]; lia.
  - intros ext. rewrite Hext, lookup_empty. cbn. lia.
Qed.

(** X17: when [summarize_documents] returns, the summary counts every
    document once: [total] is the length of the list and [total_size]
    the sum of the sizes; a library has an entry exactly when a document
    names it, with the number and the sizes of its documents; an
    extension is counted once for each document whose name ends in it,
    whatever the case of its letters; the formatted total is absent for
    the empty list only. It raises exactly what [format_file_size] raises
    on the total of a list that is not empty: [ValueError] when the total
    is negative, [IndexError] when the logarithm of the total is 5 or
    more. *)
Theorem summarize_documents_counts_every_document
    (documents : list Scraper.document) :
  match summarize documents with
  | Py.Return summary =>
      total summary = Z.of_nat (length documents)
      ∧ total_size summary = sizes documents
      ∧ (∀ library,
           libraries summary !! library
           = match in_library library documents with
             | [] => None
             | ds => Some {| count := Z.of_nat (length ds); size := sizes ds |}
             end)
      ∧ (∀ ext,
           default 0 (file_types summary !! ext)
           = Z.of_nat (length (with_extension ext documents)))
      ∧ match documents with
        | [] => total_size_formatted summary = None
        | _ => ∃ formatted,
                 format (sizes documents) = Py.Return formatted
                 ∧ total_size_formatted summary = Some formatted
        end
  | Py.Raise e =>
      documents ≠ [] ∧ format (sizes documents) = Py.Raise e
  end
  ∧ (documents ≠ [] → sizes documents < 0 →
     summarize documents = Py.Raise (Py.ValueError "math domain error"))
  ∧ (documents ≠ [] → 0 < sizes documents →
     5 <= log_floor (sizes documents) →
     (∃ s, scaled (sizes documents) (log_floor (sizes documents)) = Py.Return s) →
     summarize documents = Py.Raise (Py.IndexError "list index out of range")).
Proof.
  destruct documents as [|doc rest].
  { split; [by cbn|]. by split. }
  destruct (summarize_documents_cons doc rest)
    as (libraries' & file_types' & _ & -> & Hlib & Hext).
  split; [|split].
  - destruct (format (sizes (doc :: rest))) as [formatted|e] eqn:Ef; [|done].
    cbn [total total_size libraries file_types total_size_formatted].
    split; [done|]. split; [done|]. split; [done|]. split; [done|].
    by exists formatted.
  - intros _ Hneg. by rewrite format_file_size_negative.
  - intros _ Hpos Hi [t Ht]. by rewrite (format_file_size_past_the_units _ t).
Qed.

End SummaryFacts.

(** ** The interactive authentication *)

Section FlowFacts.
Import Py Auth Flow.
Local Open Scope string_scope.

Lemma count_app (p : event → bool) (l l' : list event) :
  count p (l ++ l') = (count p l + count p l')%nat.
Proof. unfold count. by rewrite List.filter_app, length_app. Qed.

Lemma count_replicate_Waited (p : event → bool) (k : nat) :
  count p (replicate k Waited) = if p Waited then k else 0%nat.
Proof.
  unfold count. induction k as [|k IH]; cbn; [by destruct (p Waited)|].
  destruct (p Waited); cbn; by rewrite ?IH.
Qed.

Lemma count_logs (p : event → bool) (logs : list event) :
  (∀ e, is_Log e = true → p e = false) →
  forallb is_Log logs = true → count p logs = 0%nat.
Proof.
  intros Hp. unfold count. induction logs as [|e logs IH]; cbn; [done|].
  intros [He Hl]%andb_prop. by rewrite (Hp e He), IH.
Qed.

(** The wait loop waits [k] seconds, for the first [k] at which the
    listener holds something, and for all the seconds it may when the
    listener stays silent. *)
Lemma wait_for_callback_outcome (E : env) (remaining waited : nat) (s : state) :
  ∃ k,
    (k <= remaining)%nat
    ∧ wait_for_callback E remaining waited s
      = (Return (listener E (waited + k)%nat),
         {| self := self s; trace := trace s ++ replicate k Waited |})
    ∧ (∀ j, (j < k)%nat → silent (listener E (waited + j)%nat))
    ∧ ((k < remaining)%nat → ¬ silent (listener E (waited + k)%nat)).
Proof.
  revert waited s. induction remaining as [|remaining IH]; intros waited s.
  - exists 0%nat. rewrite Nat.add_0_r. split; [done|]. split.
    + cbn. destruct (auth_code (listener E waited)),
        (auth_error (listener E waited)), s; cbn; by rewrite app_nil_r.
    + split; intros; lia.
  - destruct (auth_code (listener E waited)) as [c|] eqn:Ec.
    { exists 0%nat. rewrite Nat.add_0_r. split; [lia|]. split.
      - cbn. rewrite Ec. destruct s; cbn; by rewrite app_nil_r.
      - split; [intros; lia|]. intros _ [H _]. by rewrite Ec in H. }
    destruct (auth_error (listener E waited)) as [c|] eqn:Ee.
    { exists 0%nat. rewrite Nat.add_0_r. split; [lia|]. split.
      - cbn. rewrite Ec, Ee. destruct s; cbn; by rewrite app_nil_r.
      - split; [intros; lia|]. intros _ [_ H]. by rewrite Ee in H. }
    destruct (IH (S waited) {| self := self s; trace := trace s ++ [Waited] |})
      as (k & Hk & Hrun & Hbefore & Hat).
    exists (S k). split; [lia|]. split.
    + cbn [wait_for_callback]. rewrite Ec, Ee. unfold bind. cbn [emit modify].
      rewrite Hrun. cbn [self trace]. rewrite <- app_assoc.
      by replace (waited + S k)%nat with (S waited + k)%nat by lia.
    + split.
      * intros [|j] Hj.
        -- by rewrite Nat.add_0_r.
        -- replace (waited + S j)%nat with (S waited + j)%nat by lia.
           apply Hbefore. lia.
      * intros Hlt. replace (waited + S k)%nat with (S waited + k)%nat by lia.
        apply Hat. lia.
Qed.

Lemma token_data_lookup (secret : option string) (data : gmap string string)
    (k : string) :
  k ≠ "client_secret" →
  (if negb (falsy secret) then <["client_secret" := fmt secret]> data else data)
    !! k = data !! k.
Proof.
  intros Hk. destruct (negb _); [|done]. by rewrite lookup_insert_ne.
Qed.

(** The exchange never raises and makes one request, which carries the
    code and the verifier; the lines it logs apart, the trace has
    nothing else. The token changes when the exchange succeeds only. *)
Lemma exchange_outcome (E : env) (code verifier : string) (s : state) :
  ∃ b s' url data logs,
    _exchange_code_for_token E code verifier s = (Return b, s')
    ∧ trace s' = (trace s ++ Post url data :: logs)%list
    ∧ forallb is_Log logs = true
    ∧ data !! "grant_type" = Some "authorization_code"
    ∧ data !! "code" = Some code
    ∧ data !! "code_verifier" = Some verifier
    ∧ data !! "client_id" = Some (client_id (self s))
    ∧ data !! "redirect_uri" = Some (redirect_uri (self s))
    ∧ (if b
       then ∃ r resp tok,
              token_endpoint E url data = Responds r
              ∧ status_code r = 200
              ∧ body r = Some resp
              ∧ resp !! "access_token" = Some tok
              ∧ access_token (self s') = Some tok
              ∧ token_response (self s') = Some resp
       else access_token (self s') = access_token (self s)).
Proof.
  unfold _exchange_code_for_token, try_except. unfold bind at 1. cbn [get].
  set (url := if negb (falsy (tenant_id (self s))) then _ else _).
  set (data := if negb (falsy (client_secret E)) then _ else _).
  assert (Hdata : data !! "grant_type" = Some "authorization_code"
                  ∧ data !! "code" = Some code
                  ∧ data !! "code_verifier" = Some verifier
                  ∧ data !! "client_id" = Some (client_id (self s))
                  ∧ data !! "redirect_uri" = Some (redirect_uri (self s))).
  { unfold data. rewrite !token_data_lookup by done.
    repeat split;
      by rewrite ?lookup_insert_ne, lookup_insert_eq by done. }
  destruct Hdata as (H1 & H2 & H3 & H4 & H5).
  unfold bind at 1, requests_post, bind at 1. cbn [emit modify].
  destruct (token_endpoint E url data) as [r|msg] eqn:Er; cbn [ret raise].
  2:{ cbn. eexists false, _, url, data, [_]. cbn. rewrite <- ?app_assoc. repeat split; eauto. }
  destruct (Z.eqb_spec (status_code r) 200) as [H200|_].
  - unfold reply_json. destruct (body r) as [resp|] eqn:Eb; cbn.
    2:{ eexists false, _, url, data, [_]. cbn. rewrite <- ?app_assoc. repeat split; eauto. }
    destruct (resp !! "access_token") as [tok|] eqn:Etok; cbn.
    + eexists true, _, url, data, [_]. cbn. rewrite <- ?app_assoc.
      repeat split; eauto. by exists r, resp, tok.
    + eexists false, _, url, data, [_]. cbn. rewrite <- ?app_assoc. repeat split; eauto.
  - destruct (PyStr.prefix_of _ _).
    + unfold reply_json. destruct (body r); cbn.
      * eexists false, _, url, data, [_]. cbn. rewrite <- ?app_assoc. repeat split; eauto.
      * eexists false, _, url, data, [_]. cbn. rewrite <- ?app_assoc. repeat split; eauto.
    + cbn. eexists false, _, url, data, [_]. cbn. rewrite <- ?app_assoc. repeat split; eauto.
Qed.

(** X18: the exchange never raises and sends one token request, which
    carries the grant type, the code, the verifier, the client and the
    redirect URI; apart from that request it only logs. It returns [True]
    only for a reply 200 whose body holds a token, which it stores. *)
Theorem exchange_sends_one_token_request (E : env) (code verifier : string)
    (s : state) :
  ∃ b s' url data logs,
    _exchange_code_for_token E code verifier s = (Return b, s')
    ∧ trace s' = (trace s ++ Post url data :: logs)%list
    ∧ count is_Post logs = 0%nat
    ∧ data !! "grant_type" = Some "authorization_code"
    ∧ data !! "code" = Some code
    ∧ data !! "code_verifier" = Some verifier
    ∧ data !! "client_id" = Some (client_id (self s))
    ∧ data !! "redirect_uri" = Some (redirect_uri (self s))
    ∧ (if b
       then ∃ r resp tok,
              token_endpoint E url data = Responds r
              ∧ status_code r = 200
              ∧ body r = Some resp
              ∧ resp !! "access_token" = Some tok
              ∧ access_token (self s') = Some tok
       else access_token (self s') = access_token (self s)).
Proof.
  destruct (exchange_outcome E code verifier s)
    as (b & s' & url & data & logs & Hrun & Ht & Hlogs & H1 & H2 & H3 & H4 & H5 & Hb).
  exists b, s', url, data, logs. repeat split; try done.
  - apply count_logs; [by intros []|done].
  - destruct b; [|done].
    destruct Hb as (r & resp & tok & ? & ? & ? & ? & ? & _). by exists r, resp, tok.
Qed.

(** X19: whatever the listener and the token endpoint do, an
    authentication waits at most 300 seconds, sends at most one token
    request, shuts down the listener if it started it, raises nothing but
    [AuthenticationError], and returns the token it has stored; when it
    raises, the token of [self] is the one it had. *)
Theorem authenticate_keeps_its_contract (E : env) (s : state) :
  ∃ r s' evs,
    authenticate E s = (r, s')
    ∧ trace s' = (trace s ++ evs)%list
    ∧ (count is_Waited evs <= timeout)%nat
    ∧ (count is_Post evs <= 1)%nat
    ∧ count is_ListenerStarted evs = (if port_in_use E then 0 else 1)%nat
    ∧ count is_ListenerShutdown evs = count is_ListenerStarted evs
    ∧ match r with
      | Return tok => access_token (self s') = Some tok
      | Raise e =>
          is_AuthenticationError e = true
          ∧ access_token (self s') = access_token (self s)
      end.
Proof.
  unfold authenticate, try_except at 1, bind at 1, emit at 1, modify at 1.
  unfold bind at 1, get at 1. cbn [self trace].
  destruct (port_in_use E).
  { cbn. eexists _, _, [_; _]. rewrite <- app_assoc. cbn.
    repeat split; eauto; cbn; unfold timeout; lia. }
  unfold bind at 1, ret at 1. unfold bind at 1, emit at 1, modify at 1.
  unfold try_finally, bind at 1, emit at 1, modify at 1. cbn [self trace].
  unfold bind at 1.
  match goal with |- context [wait_for_callback E timeout 0 ?s0] =>
    destruct (wait_for_callback_outcome E timeout 0 s0)
      as (k & Hk & -> & _ & _)
  end.
  cbn [self trace Nat.add].
  match goal with
  | |- context [BrowserOpened ?u ?p] =>
      pose (pre := [LogInfo "Starting interactive OAuth authentication (supports MFA)...";
                    ListenerStarted; BrowserOpened u p]);
      assert (Hpre : ∀ l,
        ((((trace s
            ++ [LogInfo "Starting interactive OAuth authentication (supports MFA)..."])
           ++ [ListenerStarted]) ++ [BrowserOpened u p]) ++ l
         = trace s ++ pre ++ l)%list)
        by (intros l; by rewrite <- !app_assoc)
  end.
  assert (Hcount : ∀ l,
            count is_Waited (pre ++ l) = count is_Waited l
            ∧ count is_Post (pre ++ l) = count is_Post l
            ∧ count is_ListenerStarted (pre ++ l) = S (count is_ListenerStarted l)
            ∧ count is_ListenerShutdown (pre ++ l) = count is_ListenerShutdown l).
  { intros l. by rewrite !count_app. }
  clearbody pre.
  destruct (negb (falsy (auth_error (listener E k)))).
  { cbn. eexists _, _, (pre ++ replicate k Waited ++ [ListenerShutdown])%list.
    split; [done|]. cbn. split; [by rewrite <- Hpre, <- !app_assoc|].
    destruct (Hcount (replicate k Waited ++ [ListenerShutdown])%list)
      as (-> & -> & -> & ->).
    rewrite !count_app, !count_replicate_Waited. cbn. repeat split; lia. }
  destruct (auth_code (listener E k)) as [code|].
  2:{ cbn. eexists _, _, (pre ++ replicate k Waited ++ [ListenerShutdown])%list.
      split; [done|]. cbn. split; [by rewrite <- Hpre, <- !app_assoc|].
      destruct (Hcount (replicate k Waited ++ [ListenerShutdown])%list)
        as (-> & -> & -> & ->).
      rewrite !count_app, !count_replicate_Waited. cbn. repeat split; lia. }
  unfold bind at 1.
  match goal with |- context [_exchange_code_for_token E code ?v ?s1] =>
    destruct (exchange_outcome E code v s1)
      as (b & s2 & url & data & logs & -> & Ht & Hlogs & _ & _ & _ & _ & _ & Hb)
  end.
  cbn [self trace] in Ht, Hb.
  assert (HW : count is_Waited logs = 0%nat) by (apply count_logs; [by intros []|done]).
  assert (HP : count is_Post logs = 0%nat) by (apply count_logs; [by intros []|done]).
  assert (HS : count is_ListenerStarted logs = 0%nat)
    by (apply count_logs; [by intros []|done]).
  assert (HD : count is_ListenerShutdown logs = 0%nat)
    by (apply count_logs; [by intros []|done]).
  destruct b; cbn.
  - destruct Hb as (r & resp & tok & _ & _ & _ & _ & Htok & _).
    eexists _, _, (pre ++ replicate k Waited ++ Post url data :: logs
                   ++ [LogInfo "Authentication successful!"; ListenerShutdown])%list.
    split; [done|]. cbn. rewrite Ht, Htok, <- Hpre, <- !app_assoc. cbn.
    split; [done|].
    destruct (Hcount (replicate k Waited ++ Post url data :: logs
                      ++ [LogInfo "Authentication successful!"; ListenerShutdown])%list)
      as (-> & -> & -> & ->).
    rewrite !count_app, !count_replicate_Waited.
    change (Post url data :: logs ++ ?l)%list
      with ([Post url data] ++ logs ++ l)%list.
    rewrite !count_app, HW, HP, HS, HD. cbn. repeat split; lia.
  - eexists _, _, (pre ++ replicate k Waited ++ Post url data :: logs
                   ++ [ListenerShutdown])%list.
    split; [done|]. cbn. rewrite Ht, Hb, <- Hpre, <- !app_assoc. cbn.
    split; [done|].
    destruct (Hcount (replicate k Waited ++ Post url data :: logs
                      ++ [ListenerShutdown])%list)
      as (-> & -> & -> & ->).
    rewrite !count_app, !count_replicate_Waited.
    change (Post url data :: logs ++ ?l)%list
      with ([Post url data] ++ logs ++ l)%list.
    rewrite !count_app, HW, HP, HS, HD. cbn. repeat split; lia.
Qed.

(** The wait loop stops at the first second at which the listener holds
    something. *)
Lemma wait_for_callback_at (E : env) (k : nat) (s : state) :
  (k <= timeout)%nat →
  (∀ j, (j < k)%nat → silent (listener E j)) →
  ¬ silent (listener E k) →
  wait_for_callback E timeout 0 s
  = (Return (listener E k),
     {| self := self s; trace := trace s ++ replicate k Waited |}).
Proof.
  intros Hk Hbefore Hat.
  destruct (wait_for_callback_outcome E timeout 0 s)
    as (k' & Hk' & -> & Hbefore' & Hat').
  cbn [Nat.add] in *.
  destruct (lt_eq_lt_dec k' k) as [[Hlt'| ->]|Hgt]; [| done |].
  - destruct Hat'; [lia|]. by apply Hbefore.
  - destruct Hat. by apply Hbefore'.
Qed.

Lemma wait_for_callback_silent (E : env) (s : state) :
  (∀ j, (j <= timeout)%nat → silent (listener E j)) →
  wait_for_callback E timeout 0 s
  = (Return (listener E timeout),
     {| self := self s; trace := trace s ++ replicate timeout Waited |}).
Proof.
  intros Hsilent.
  destruct (wait_for_callback_outcome E timeout 0 s)
    as (k' & Hk' & -> & Hbefore' & Hat').
  cbn [Nat.add] in *.
  destruct (decide (k' = timeout)) as [->|Hne]; [done|].
  destruct Hat'; [lia|]. apply Hsilent. lia.
Qed.

Ltac enter_authenticate Hport :=
  unfold authenticate, try_except at 1, bind at 1, emit at 1, modify at 1;
  unfold bind at 1, get at 1; cbn [self trace]; rewrite Hport;
  unfold bind at 1, ret at 1; unfold bind at 1, emit at 1, modify at 1;
  unfold try_finally, bind at 1, emit at 1, modify at 1; cbn [self trace];
  unfold bind at 1.

(** X20: when the listener receives nothing for 300 seconds, the
    authentication waits for them all and fails with the timeout
    message, without a token request; [self] is as it was. *)
Theorem authenticate_times_out (E : env) (s : state) :
  port_in_use E = false →
  (∀ j, (j <= timeout)%nat → silent (listener E j)) →
  ∃ s' evs,
    authenticate E s
    = (Raise (AuthenticationError "Authentication timeout - no response received"),
       s')
    ∧ self s' = self s
    ∧ trace s' = (trace s ++ evs)%list
    ∧ count is_Waited evs = timeout
    ∧ count is_Post evs = 0%nat.
Proof.
  intros Hport Hsilent. enter_authenticate Hport.
  rewrite wait_for_callback_silent by done.
  destruct (Hsilent timeout) as [Hc He]; [done|]. rewrite Hc, He. cbn.
  eexists _, (_ :: _ :: _ :: replicate timeout Waited ++ [_])%list.
  split; [done|]. split; [done|]. cbn [trace].
  split; [by rewrite <- !app_assoc|].
  change (?a :: ?b :: ?c :: ?l)%list with ([a; b; c] ++ l)%list.
  rewrite !count_app, !count_replicate_Waited. by cbn.
Qed.

(** X21: an error recorded by the listener ends the authentication with
    the message [OAuth error: ...], also when a code is recorded with it;
    no token request is sent and [self] is as it was. *)
Theorem authenticate_reports_the_oauth_error (E : env) (k : nat)
    (description : string) (s : state) :
  port_in_use E = false →
  (k <= timeout)%nat →
  (∀ j, (j < k)%nat → silent (listener E j)) →
  auth_error (listener E k) = Some description →
  String.length description ≠ 0%nat →
  ∃ s' evs,
    authenticate E s
    = (Raise (AuthenticationError ("OAuth error: " ++ description)), s')
    ∧ self s' = self s
    ∧ trace s' = (trace s ++ evs)%list
    ∧ count is_Waited evs = k
    ∧ count is_Post evs = 0%nat.
Proof.
  intros Hport Hk Hbefore Herr Hdesc. enter_authenticate Hport.
  rewrite (wait_for_callback_at E k) by (try done; intros [_ H]; by rewrite Herr in H).
  rewrite Herr. cbn [falsy fmt].
  rewrite bool_decide_eq_false_2 by (intros ->; done). cbn.
  eexists _, (_ :: _ :: _ :: replicate k Waited ++ [_])%list.
  split; [done|]. split; [done|]. cbn [trace].
  split; [by rewrite <- !app_assoc|].
  change (?a :: ?b :: ?c :: ?l)%list with ([a; b; c] ++ l)%list.
  rewrite !count_app, !count_replicate_Waited. cbn. lia.
Qed.

(** A reply 200 whose body holds a token makes the exchange succeed. *)
Lemma exchange_succeeds (E : env) (r : reply) (resp : gmap string string)
    (tok code verifier : string) (s : state) :
  (∀ token_url token_data, token_endpoint E token_url token_data = Responds r) →
  status_code r = 200 →
  body r = Some resp →
  resp !! "access_token" = Some tok →
  ∃ url data,
    _exchange_code_for_token E code verifier s
    = (Return true,
       {| self := {| client_id := client_id (self s);
                     tenant_id := tenant_id (self s);
                     redirect_uri := redirect_uri (self s);
                     access_token := Some tok;
                     token_response := Some resp |};
          trace := trace s ++ [Post url data;
                               LogInfo "Successfully obtained access token"] |}).
Proof.
  intros Hr Hstatus Hbody Htok.
  unfold _exchange_code_for_token, try_except, bind, get, requests_post, bind,
    emit, modify.
  cbn [self trace]. rewrite Hr. cbn [ret]. rewrite Hstatus. cbn [Z.eqb Pos.eqb].
  unfold reply_json. rewrite Hbody. cbn. rewrite Htok. cbn.
  eexists _, _. by rewrite <- app_assoc.
Qed.

(** X22: a code recorded by the listener and a reply 200 with a token
    make the authentication return that token and store it in [self],
    with the reply it came in; it has waited until the code came and has
    sent one token request. *)
Theorem authenticate_returns_the_token (E : env) (r : reply)
    (resp : gmap string string) (tok code : string) (k : nat) (s : state) :
  port_in_use E = false →
  (k <= timeout)%nat →
  (∀ j, (j < k)%nat → silent (listener E j)) →
  auth_code (listener E k) = Some code →
  falsy (auth_error (listener E k)) = true →
  (∀ token_url token_data, token_endpoint E token_url token_data = Responds r) →
  status_code r = 200 →
  body r = Some resp →
  resp !! "access_token" = Some tok →
  ∃ s' evs,
    authenticate E s = (Return tok, s')
    ∧ access_token (self s') = Some tok
    ∧ token_response (self s') = Some resp
    ∧ trace s' = (trace s ++ evs)%list
    ∧ count is_Waited evs = k
    ∧ count is_Post evs = 1%nat
    ∧ last evs = Some ListenerShutdown.
Proof.
  intros Hport Hk Hbefore Hcode Herr Hr Hstatus Hbody Htok.
  enter_authenticate Hport.
  rewrite (wait_for_callback_at E k)
    by (try done; intros [H _]; by rewrite Hcode in H).
  rewrite Herr, Hcode. cbn [negb]. unfold bind at 1.
  match goal with |- context [_exchange_code_for_token E code ?v ?s1] =>
    destruct (exchange_succeeds E r resp tok code v s1 Hr Hstatus Hbody Htok)
      as (url & data & ->)
  end.
  cbn.
  eexists _, (_ :: _ :: _ :: replicate k Waited ++ [_; _; _; _])%list.
  split; [done|]. split; [done|]. split; [done|]. cbn [trace].
  split; [by rewrite <- !app_assoc|].
  rewrite !last_cons, last_app.
  change (?a :: ?b :: ?c :: ?l)%list with ([a; b; c] ++ l)%list.
  rewrite !count_app, !count_replicate_Waited. cbn.
  repeat split; lia.
Qed.

(** A reply with a status other than 200 makes the exchange return
    [False] after it has written one line to the error log. *)
Lemma exchange_reports_the_reply (E : env) (r : reply)
    (code verifier : string) (s : state) :
  (∀ token_url token_data, token_endpoint E token_url token_data = Responds r) →
  status_code r ≠ 200 →
  ∃ token_url token_data line,
    _exchange_code_for_token E code verifier s
    = (Return false,
       {| self := self s;
          trace := trace s ++ [Post token_url token_data; line] |})
    ∧ reports r line.
Proof.
  intros Hr Hstatus.
  unfold _exchange_code_for_token, try_except, bind, get, requests_post, bind,
    emit, modify.
  cbn [self trace]. rewrite Hr. cbn [ret].
  destruct (Z.eqb_spec (status_code r) 200) as [|_]; [done|].
  unfold reports, announces_json. destruct (PyStr.prefix_of _ _).
  - unfold reply_json. destruct (body r); cbn.
    + eexists _, _, _. split; [by rewrite <- app_assoc|done].
    + eexists _, _, _. split; [by rewrite <- app_assoc|]. by eexists.
  - cbn. eexists _, _, _. split; [by rewrite <- app_assoc|done].
Qed.

(** C9, amended: when the listener has recorded a code and the token
    endpoint answers with any status other than 200, [authenticate]
    fails with an [AuthenticationError] whose message is the fixed text
    [Failed to exchange authorization code for token], whatever the
    status and the body of the reply, and [self] keeps no token. Of the
    reply, one line of the error log is all that is kept: it follows the
    token request and is the last line of the authentication; it shows
    the status and the decoded body when the reply announces JSON and
    the body can be decoded, the status and an empty dictionary when the
    reply announces another content type, and only the message of the
    decoder when the reply announces JSON that cannot be decoded. *)
Theorem authenticate_fails_with_fixed_message (E : env) (r : reply) (code : string)
    (k : nat) (s : state) :
  port_in_use E = false →
  (k <= timeout)%nat →
  (∀ j, (j < k)%nat →
        auth_code (listener E j) = None ∧ auth_error (listener E j) = None) →
  auth_code (listener E k) = Some code →
  falsy (auth_error (listener E k)) = true →
  (∀ token_url token_data, token_endpoint E token_url token_data = Responds r) →
  status_code r ≠ 200 →
  ∃ s' auth_url auth_params token_url token_data line,
    authenticate E s
    = (Raise (AuthenticationError "Failed to exchange authorization code for token"), s')
    ∧ self s' = self s
    ∧ trace s'
      = (trace s
         ++ [LogInfo "Starting interactive OAuth authentication (supports MFA)...";
             ListenerStarted; BrowserOpened auth_url auth_params]
         ++ replicate k Waited
         ++ [Post token_url token_data; line; ListenerShutdown])%list
    ∧ reports r line.
Proof.
  intros Hport Hk Hbefore Hcode Herr Hr Hstatus.
  enter_authenticate Hport.
  rewrite (wait_for_callback_at E k)
    by (try done; intros [H _]; by rewrite Hcode in H).
  rewrite Herr, Hcode. cbn [negb]. unfold bind at 1.
  match goal with |- context [_exchange_code_for_token E code ?v ?s1] =>
    destruct (exchange_reports_the_reply E r code v s1 Hr Hstatus)
      as (token_url & token_data & line & -> & Hline)
  end.
  cbn.
  eexists _, _, _, token_url, token_data, line.
  split; [done|]. split; [done|]. split; [|done].
  cbn [trace]. by rewrite <- !app_assoc.
Qed.

End FlowFacts.

(** The reply 400 [invalid_grant] to the code [code123]: the log shows
    the status and the body, the error does not. *)
Lemma authenticate_fails_with_fixed_message_witness :
  ∃ s' auth_url auth_params token_url token_data line,
    Auth.authenticate (Scenario.token_env Scenario.invalid_grant) Scenario.fresh_auth
    = (Py.Raise (Py.AuthenticationError
                   "Failed to exchange authorization code for token"), s')
    ∧ Auth.self s' = Auth.self Scenario.fresh_auth
    ∧ Auth.trace s'
      = (Auth.trace Scenario.fresh_auth
         ++ [Auth.LogInfo "Starting interactive OAuth authentication (supports MFA)...";
             Auth.ListenerStarted; Auth.BrowserOpened auth_url auth_params]
         ++ replicate 0 Auth.Waited
         ++ [Auth.Post token_url token_data; line; Auth.ListenerShutdown])%list
    ∧ Flow.reports Scenario.invalid_grant line.
Proof.
  apply (authenticate_fails_with_fixed_message
           (Scenario.token_env Scenario.invalid_grant) Scenario.invalid_grant
           "code123" 0).
  - reflexivity.
  - unfold Auth.timeout. lia.
  - intros j Hj. lia.
  - reflexivity.
  - reflexivity.
  - reflexivity.
  - simpl. lia.
Defined.

(** The three lines of the log: for a reply 400 with a JSON body, for a
    reply 500 with an HTML body, and for a reply 502 that announces JSON
    and holds none. *)
Lemma exchange_log_lines :
  Auth.trace (Auth.authenticate (Scenario.token_env Scenario.invalid_grant)
                                Scenario.fresh_auth).2 !! 4%nat
  = Some (Auth.LogTokenExchangeFailed 400 {[ "error" := "invalid_grant" ]})
  ∧ Auth.trace (Auth.authenticate (Scenario.token_env Scenario.server_error)
                                  Scenario.fresh_auth).2 !! 4%nat
    = Some (Auth.LogTokenExchangeFailed 500 ∅)
  ∧ Auth.trace (Auth.authenticate (Scenario.token_env Scenario.bad_gateway)
                                  Scenario.fresh_auth).2 !! 4%nat
    = Some (Auth.LogError "Token exchange error: Expecting value").
Proof. repeat split; by vm_compute. Qed.

(** A listener that stays silent. *)
Lemma authenticate_times_out_witness :
  ∃ s' evs,
    Auth.authenticate Examples.unanswered Scenario.fresh_auth
    = (Py.Raise (Py.AuthenticationError
                   "Authentication timeout - no response received"), s')
    ∧ Auth.self s' = Auth.self Scenario.fresh_auth
    ∧ Auth.trace s' = (Auth.trace Scenario.fresh_auth ++ evs)%list
    ∧ Flow.count Flow.is_Waited evs = Auth.timeout
    ∧ Flow.count Flow.is_Post evs = 0%nat.
Proof.
  apply (authenticate_times_out Examples.unanswered Scenario.fresh_auth).
  - reflexivity.
  - intros j _. split; reflexivity.
Defined.

(** A listener that holds a code and the error [access_denied]. *)
Lemma authenticate_reports_the_oauth_error_witness :
  ∃ s' evs,
    Auth.authenticate Examples.refused Scenario.fresh_auth
    = (Py.Raise (Py.AuthenticationError "OAuth error: access_denied"), s')
    ∧ Auth.self s' = Auth.self Scenario.fresh_auth
    ∧ Auth.trace s' = (Auth.trace Scenario.fresh_auth ++ evs)%list
    ∧ Flow.count Flow.is_Waited evs = 0%nat
    ∧ Flow.count Flow.is_Post evs = 0%nat.
Proof.
  apply (authenticate_reports_the_oauth_error Examples.refused 0 "access_denied"
           Scenario.fresh_auth).
  - reflexivity.
  - unfold Auth.timeout. lia.
  - intros j Hj. lia.
  - reflexivity.
  - simpl. lia.
Defined.

(** The code [code123] exchanged for the token [token123]. *)
Lemma authenticate_returns_the_token_witness :
  ∃ s' evs,
    Auth.authenticate (Scenario.token_env Examples.granted) Scenario.fresh_auth
    = (Py.Return "token123", s')
    ∧ Auth.access_token (Auth.self s') = Some "token123"
    ∧ Auth.token_response (Auth.self s') = Some {[ "access_token" := "token123" ]}
    ∧ Auth.trace s' = (Auth.trace Scenario.fresh_auth ++ evs)%list
    ∧ Flow.count Flow.is_Waited evs = 0%nat
    ∧ Flow.count Flow.is_Post evs = 1%nat
    ∧ last evs = Some Auth.ListenerShutdown.
Proof.
  apply (authenticate_returns_the_token
           (Scenario.token_env Examples.granted) Examples.granted
           {[ "access_token" := "token123" ]} "token123" "code123" 0
           Scenario.fresh_auth).
  - reflexivity.
  - unfold Auth.timeout. lia.
  - intros j Hj. lia.
  - reflexivity.
  - reflexivity.
  - reflexivity.
  - reflexivity.
  - reflexivity.
  - reflexivity.
Defined.

(** ** The callback listener *)

Section CallbackFacts.
Import Callback.
Local Open Scope string_scope.

Variable parse_qs : string → gmap string (string * list string).

Lemma do_GET_keeps (path : string) (server : Auth.callback) :
  (is_Some (Auth.auth_code server)
   → is_Some (Auth.auth_code (do_GET parse_qs path server).1))
  ∧ (is_Some (Auth.auth_error server)
     → is_Some (Auth.auth_error (do_GET parse_qs path server).1)).
Proof.
  unfold do_GET. destruct (PyStr.contains _ _); [|done].
  cbn zeta. destruct (_ !! "code") as [[code rest]|]; [by split|].
  destruct (_ !! "error") as [v|]; [by split|done].
Qed.

(** X23: a request never erases what the listener holds: once a code or
    an error is recorded, the wait loop of [authenticate] finds one,
    whatever requests follow. A request that brings a code leaves the
    error alone, and a path without a query is answered 404 and changes
    nothing. *)
Theorem listener_keeps_what_it_recorded (paths : list string)
    (server : Auth.callback) :
  (is_Some (Auth.auth_code server)
   → is_Some (Auth.auth_code (serve parse_qs paths server)))
  ∧ (is_Some (Auth.auth_error server)
     → is_Some (Auth.auth_error (serve parse_qs paths server)))
  ∧ (∀ path,
       is_Some (parse_qs (PyStr.text (nth 1 (PyStr.split "?"%char (PyStr.chars path)) []))
                !! "code") →
       Auth.auth_error (do_GET parse_qs path server).1 = Auth.auth_error server)
  ∧ (∀ path,
       PyStr.contains ["?"%char] (PyStr.chars path) = false →
       do_GET parse_qs path server = (server, NotFound)).
Proof.
  split; [|split; [|split]].
  - revert server. induction paths as [|path paths IH]; intros server Hc; [done|].
    cbn [serve fold_left]. apply IH. by apply do_GET_keeps.
  - revert server. induction paths as [|path paths IH]; intros server Hc; [done|].
    cbn [serve fold_left]. apply IH. by apply do_GET_keeps.
  - intros path [[code rest] Hq]. unfold do_GET.
    destruct (PyStr.contains _ _); [|done]. cbn zeta. by rewrite Hq.
  - intros path Hq. unfold do_GET. by rewrite Hq.
Qed.

End CallbackFacts.

(** ** The stand-alone script *)

Section ScriptFacts.
Import Py Graph Run Legacy Observe.
Local Open Scope string_scope.

Lemma requests_of_app (l l' : list event) :
  requests_of (l ++ l') = (requests_of l ++ requests_of l')%list.
Proof. apply List.filter_app. Qed.

Lemma pauses_of_app (l l' : list event) :
  pauses_of (l ++ l') = (pauses_of l ++ pauses_of l')%list.
Proof. apply List.filter_app. Qed.

Lemma paced_app (n n' : nat) (l l' : list event) :
  paced n l → paced n' l' → paced (n + n') (l ++ l').
Proof.
  intros (Hr & Hp & Hf) (Hr' & Hp' & Hf'). unfold paced.
  rewrite requests_of_app, pauses_of_app, !length_app, Forall_app.
  repeat split; try done; lia.
Qed.

Lemma paced_log (lvl : level) (msg : string) : paced 0 [Log lvl msg].
Proof. by repeat split. Qed.

Lemma paced_get (req : request) : paced 1 [Get req].
Proof. repeat split; cbn; [lia|done]. Qed.

Lemma paced_retry (req : request) (lvl : level) (msg : string) :
  paced 1 [Get req; Log lvl msg; Sleep 2000].
Proof. repeat split; cbn; [lia|by repeat constructor]. Qed.

Lemma paced_loop {A} (body : Z → M state (option A)) (l : list Z) (s : state) :
  (∀ attempt s0, ∃ evs,
      trace (body attempt s0).2 = (trace s0 ++ evs)%list ∧ paced 1 evs) →
  ∃ evs n,
    trace (for_return l body s).2 = (trace s ++ evs)%list
    ∧ (n <= length l)%nat ∧ paced n evs.
Proof.
  intros Hbody. revert s. induction l as [|attempt l IH]; intros s.
  - exists [], 0%nat. cbn. rewrite app_nil_r. by repeat split.
  - cbn [for_return]. unfold bind.
    destruct (Hbody attempt s) as (evs & Ht & Hp).
    destruct (body attempt s) as [[[v|]|e] s1]; cbn in Ht.
    + exists evs, 1%nat. split; [done|]. split; [cbn; lia|done].
    + destruct (IH s1) as (evs' & n & Ht' & Hn & Hp').
      exists (evs ++ evs')%list, (1 + n)%nat.
      rewrite Ht', Ht, app_assoc. split; [done|]. split; [cbn; lia|].
      by apply paced_app.
    + exists evs, 1%nat. split; [done|]. split; [cbn; lia|done].
Qed.

Ltac paced_one :=
  eexists; rewrite <- ?app_assoc; split; [reflexivity|];
  split; [reflexivity|]; split; [cbn; lia|cbn; by repeat constructor].

(** X24: the script's download never raises. It makes at most three
    requests, and its pauses, at most one per request, are all of two
    seconds. *)
Theorem script_download_is_paced (srv : server)
    (ingest : string → string → option exn) (self : scraper)
    (doc : document) (download_path : string) (s : state) :
  ∃ r s' evs n,
    download_and_ingest_document srv ingest self doc download_path s
    = (Return r, s')
    ∧ trace s' = (trace s ++ evs)%list
    ∧ (n <= 3)%nat
    ∧ length (requests_of evs) = n
    ∧ (length (pauses_of evs) <= n)%nat
    ∧ Forall (fun e => e = Sleep 2000) (pauses_of evs).
Proof.
  unfold download_and_ingest_document. unfold try_except at 1.
  destruct (falsy (access_token self)).
  { cbn. eexists _, _, [_], 0%nat. repeat split; eauto. }
  destruct (falsy (site_id self) || bool_decide (doc_unique_id doc = EmptyString)).
  { cbn. eexists _, _, [_], 0%nat. repeat split; eauto. }
  unfold bind at 1.
  match goal with |- context [mkdir ?p s] =>
    destruct (mkdir_outcome document p s) as ([[]|e0] & s0 & Hm & Ht0 & _);
    rewrite Hm
  end.
  2:{ cbn. eexists _, _, [_], 0%nat. rewrite Ht0. repeat split; eauto. }
  rewrite <- Ht0. clear Hm.
  unfold bind at 1. cbn [logger emit modify].
  match goal with |- context [for_return ?l ?b ?s0] =>
    destruct (paced_loop b l s0) as (evs & n & Ht & Hn & Hp);
    [|destruct (for_return l b s0) as [[r|e] s1]]
  end.
  - intros attempt s1. unfold try_except, bind, requests_get.
    destruct (srv (trace s1) _) as [r|msg]; cbn.
    + destruct (Z.eqb (status_code r) 200).
      { unfold write_file.
        destruct (Pathlib.has_null _); [cbn; paced_one|].
        destruct (bool_decide (_ ∈ _)); [cbn; paced_one|].
        destruct (is_dir _ _); [cbn; paced_one|].
        destruct (negb (is_dir _ _)); cbn; [paced_one|].
        destruct (ingest _ _) as [e|]; cbn; [|paced_one].
        destruct (is_RequestException e); cbn; [|paced_one].
        destruct (attempt <? max_retries - 1)%Z; cbn; paced_one. }
      destruct (Z.eqb (status_code r) 401); cbn; [paced_one|].
      destruct (Z.eqb (status_code r) 403); cbn; [paced_one|].
      destruct (Z.eqb (status_code r) 404); cbn; [paced_one|].
      unfold raise_for_status.
      destruct ((400 <=? status_code r)%Z && (status_code r <? 600)%Z); cbn;
        [|paced_one].
      destruct (attempt <? max_retries - 1)%Z; cbn; paced_one.
    + destruct (attempt <? max_retries - 1)%Z; cbn; paced_one.
  - cbn [snd trace] in Ht.
    exists r, s1, ([Log INFO ("Downloading: " ++ doc_name doc)] ++ evs)%list, n.
    split; [done|]. rewrite Ht, <- app_assoc. split; [done|].
    change 3%nat with (length (range max_retries)). split; [done|].
    apply (paced_app 0 n [_] evs); [apply paced_log|done].
  - cbn [snd trace] in Ht. cbn [bind logger emit modify ret].
    eexists _, _, ([Log INFO ("Downloading: " ++ doc_name doc)] ++ evs
                   ++ [Log ERROR _])%list, n.
    split; [done|]. cbn [trace]. rewrite Ht, <- !app_assoc. split; [done|].
    change 3%nat with (length (range max_retries)). split; [done|].
    apply (paced_app 0 n [_] (evs ++ [_])); [apply paced_log|].
    replace n with (n + 0)%nat by lia. apply paced_app; [done|apply paced_log].
Qed.

Lemma script_returns_documents_bind {A} (m : M state A)
    (f : A → M state (list document)) :
  (∀ a, returns_documents (f a)) → returns_documents (bind m f).
Proof.
  intros Hf s. unfold bind. destruct (m s) as [[a|e] s1]; [apply Hf|done].
Qed.

(** X25: the script's enumeration never raises: whatever fails, it
    returns the list of the documents collected so far. *)
Theorem script_enumeration_never_raises (depth : nat) (srv : server)
    (self : scraper) (s : state) :
  ∃ docs s',
    get_documents_graph depth srv self s = (Return docs, s')
    ∧ docs = documents s'.
Proof.
  unfold get_documents_graph. unfold bind at 1. cbn [documents_new modify].
  unfold try_except at 1.
  match goal with |- context [match ?m ?s0 with _ => _ end] =>
    assert (H : returns_documents m);
    [|specialize (H s0); destruct (m s0) as [[docs|e] s1]]
  end.
  - destruct (_ || _).
    { apply script_returns_documents_bind. intros _ s0. by cbn. }
    apply script_returns_documents_bind. intros _.
    apply script_returns_documents_bind. intros [drives|].
    + apply script_returns_documents_bind. intros _ s1. by cbn.
    + intros s0. by cbn.
  - by exists docs, s1.
  - cbn. by eexists _, _.
Qed.

End ScriptFacts.
